(** * Verification of the indexing and retrieval pipeline of the RAG chatbot

    The development embeds the Python sources
    [document_processor.py], [vector_store.py], [rag_engine.py] and
    [chatbot.py] as Rocq functions and proves (or refutes) the statements
    of the specification about them.

    Conventions of the embedding:
    - a Python [str] is the list of its Unicode code points, so that [len],
      slicing, [rfind] and [strip] count characters as Python does;
    - a Python [int] is a [Z];
    - a Python [dict] used as a record is a Rocq record, a [dict] used as a
      map ([metadata]) is a [gmap];
    - a call either returns, raises, or (for the [while] loop of the chunker,
      which is run with fuel) does not finish: type [outcome];
    - the embedding provider, the chat model and the Chroma collection are
      external collaborators: they are parameters of the development. *)

From Stdlib Require Import ZArith NArith List Lia Bool Ascii String Sorted.
From stdpp Require Import gmap strings list pretty.

Local Open Scope Z_scope.

(** ** Outcomes of a Python call *)

Inductive pyexn : Type :=
  | ValueError
  | IndexError.

Inductive outcome (A : Type) : Type :=
  | Return (a : A)
  | Raise (e : pyexn)
  | OutOfFuel.

Arguments Return {A} a.
Arguments Raise {A} e.
Arguments OutOfFuel {A}.

Definition obind {A B : Type} (m : outcome A) (k : A -> outcome B) : outcome B :=
  match m with
  | Return a => k a
  | Raise e => Raise e
  | OutOfFuel => OutOfFuel
  end.

Definition omap {A B : Type} (f : A -> B) (m : outcome A) : outcome B :=
  match m with
  | Return a => Return (f a)
  | Raise e => Raise e
  | OutOfFuel => OutOfFuel
  end.

Notation "'do' x <- m ; k" := (obind m (fun x => k))
  (at level 10, x name, m at level 100, k at level 200).

(** ** Python built-ins used by the sources *)

Module Py.

(** A [str] is its sequence of code points. *)
Definition str : Type := list N.

Definition len {A : Type} (s : list A) : Z := Z.of_nat (length s).

(** Decoding of UTF-8 bytes into code points (well-formed input). *)
Fixpoint utf8_decode (bs : list N) : str :=
  match bs with
  | [] => []
  | b0 :: r0 =>
      if (b0 <? 128)%N then b0 :: utf8_decode r0
      else
        match r0 with
        | [] => []
        | b1 :: r1 =>
            if (b0 <? 224)%N
            then ((b0 - 192) * 64 + (b1 - 128))%N :: utf8_decode r1
            else
              match r1 with
              | [] => []
              | b2 :: r2 =>
                  if (b0 <? 240)%N
                  then ((b0 - 224) * 4096 + (b1 - 128) * 64 + (b2 - 128))%N
                         :: utf8_decode r2
                  else
                    match r2 with
                    | [] => []
                    | b3 :: r3 =>
                        ((b0 - 240) * 262144 + (b1 - 128) * 4096
                         + (b2 - 128) * 64 + (b3 - 128))%N :: utf8_decode r3
                    end
              end
        end
  end.

(** A string literal of the sources (written in UTF-8), as a [str]. *)
Definition lit (s : string) : str :=
  utf8_decode (map N_of_ascii (list_ascii_of_string s)).

Fixpoint str_eqb (s t : str) : bool :=
  match s, t with
  | [], [] => true
  | c :: s', d :: t' => N.eqb c d && str_eqb s' t'
  | _, _ => false
  end.

(** Index normalisation of slices: a negative index counts from the end,
    and the result is clipped to [0, len]. *)
Definition clamp_index (n i : Z) : Z :=
  if i <? 0 then Z.max 0 (i + n) else Z.min i n.

(** [s[i:j]] *)
Definition slice {A : Type} (s : list A) (i j : Z) : list A :=
  let a := clamp_index (len s) i in
  let b := clamp_index (len s) j in
  take (Z.to_nat (b - a)) (drop (Z.to_nat a) s).

(** does [sub] sit at position [i] of [s]? *)
Definition startswith_at (s sub : str) (i : Z) : bool :=
  str_eqb (slice s i (i + len sub)) sub.

(** candidates [lo + k - 1], ..., [lo], the highest first *)
Fixpoint rfind_down (s sub : str) (lo : Z) (k : nat) : Z :=
  match k with
  | O => -1
  | S k' =>
      let i := lo + Z.of_nat k' in
      if startswith_at s sub i then i else rfind_down s sub lo k'
  end.

(** [s.rfind(sub, start, stop)]: the highest index at which [sub] is
    found inside [s[start:stop]], or [-1]. *)
Definition rfind (s sub : str) (start stop : Z) : Z :=
  let a := clamp_index (len s) start in
  let b := clamp_index (len s) stop in
  rfind_down s sub a (Z.to_nat (b - len sub - a + 1)).

(** [s.startswith(sub)] *)
Fixpoint startswith (s sub : str) : bool :=
  match sub, s with
  | [], _ => true
  | d :: sub', c :: s' => N.eqb c d && startswith s' sub'
  | _ :: _, [] => false
  end.

(** [sub in s]: [sub] starts at some position of [s]. *)
Fixpoint contains (s sub : str) : bool :=
  startswith s sub ||
  match s with
  | [] => false
  | _ :: s' => contains s' sub
  end.

(** [str.isspace] on one character: the Unicode white space. *)
Definition isspace (c : N) : bool :=
  (((9 <=? c) && (c <=? 13)) || ((28 <=? c) && (c <=? 32))
   || (c =? 133) || (c =? 160) || (c =? 5760)
   || ((8192 <=? c) && (c <=? 8202))
   || (c =? 8232) || (c =? 8233) || (c =? 8239) || (c =? 8287)
   || (c =? 12288))%N.

Fixpoint lstrip (s : str) : str :=
  match s with
  | [] => []
  | c :: s' => if isspace c then lstrip s' else s
  end.

Definition rstrip (s : str) : str := rev (lstrip (rev s)).

(** [s.strip()] *)
Definition strip (s : str) : str := rstrip (lstrip s).

(** truth value of a sequence: non-empty *)
Definition truthy {A : Type} (s : list A) : bool :=
  match s with [] => false | _ :: _ => true end.

(** [range(0, stop, step)]: [ValueError] when [step] is zero, empty when
    it is negative (the stop values of the sources are lengths). *)
Definition range0 (stop step : Z) : outcome (list Z) :=
  if step =? 0 then Raise ValueError
  else if step <? 0 then Return []
  else Return (map (fun k => Z.of_nat k * step)
                   (seq 0 (Z.to_nat ((stop + step - 1) / step)))).

(** ["sep".join(parts)] *)
Fixpoint join (sep : str) (parts : list str) : str :=
  match parts with
  | [] => []
  | [p] => p
  | p :: rest => p ++ sep ++ join sep rest
  end.

(** [str(n)] for an [int] *)
Definition of_int (n : Z) : str := lit (pretty n).

Definition repeat_char (c : N) (n : nat) : str := replicate n c.

End Py.

(** ** document_processor.py *)

Record DocumentProcessor : Type := {
  chunk_size : Z;
  chunk_overlap : Z
}.

(** [DocumentProcessor.__init__]: stores the two settings. *)
Definition DocumentProcessor_init (size overlap : Z) : outcome DocumentProcessor :=
  Return {| chunk_size := size; chunk_overlap := overlap |}.

(** ['\n\n', '\n', '. ', '。', '! ', '? '] *)
Definition delimiters : list Py.str :=
  [ [10; 10]; [10]; [46; 32]; [12290]; [33; 32]; [63; 32] ]%N.

(** The [for delimiter in ...] loop with its [break]. *)
Fixpoint snap_to_boundary (text : Py.str) (start end_ : Z) (ds : list Py.str) : Z :=
  match ds with
  | [] => end_
  | delimiter :: ds' =>
      let pos := Py.rfind text delimiter start end_ in
      if negb (pos =? -1) then pos + Py.len delimiter
      else snap_to_boundary text start end_ ds'
  end.

Definition window_end (self : DocumentProcessor) (text : Py.str) (start : Z) : Z :=
  let end_ := start + chunk_size self in
  if end_ <? Py.len text then snap_to_boundary text start end_ delimiters
  else end_.

Definition next_start (self : DocumentProcessor) (text : Py.str) (end_ : Z) : Z :=
  if end_ <? Py.len text then end_ - chunk_overlap self else end_.

Definition append_chunk (chunks : list Py.str) (chunk : Py.str) : list Py.str :=
  if Py.truthy chunk then chunks ++ [chunk] else chunks.

(** The [while start < text_length] loop; one unit of fuel per iteration. *)
Fixpoint chunk_loop (fuel : nat) (self : DocumentProcessor) (text : Py.str)
    (start : Z) (chunks : list Py.str) : outcome (list Py.str) :=
  if start <? Py.len text then
    match fuel with
    | O => OutOfFuel
    | S fuel' =>
        let end_ := window_end self text start in
        let chunk := Py.strip (Py.slice text start end_) in
        chunk_loop fuel' self text (next_start self text end_)
                   (append_chunk chunks chunk)
    end
  else Return chunks.

Definition chunk_text (fuel : nat) (self : DocumentProcessor) (text : Py.str)
  : outcome (list Py.str) :=
  if negb (Py.truthy text) then Return []
  else chunk_loop fuel self text 0 [].

(** The values taken by [start] at the head of the loop, for the iterations
    that [fuel] allows. *)
Fixpoint window_starts (fuel : nat) (self : DocumentProcessor) (text : Py.str)
    (start : Z) : list Z :=
  if start <? Py.len text then
    match fuel with
    | O => []
    | S fuel' =>
        start :: window_starts fuel' self text
                   (next_start self text (window_end self text start))
    end
  else [].

(** The processor built by [RAGChatbot.__init__]. *)
Definition default_processor : DocumentProcessor :=
  {| chunk_size := 500; chunk_overlap := 100 |}.

(** None of the boundary delimiters occurs in [text]. *)
Definition no_delimiter (text : Py.str) : bool :=
  forallb (fun d => negb (Py.contains text d)) delimiters.

(** Some character of [s] is not white space. *)
Definition has_nonspace (s : Py.str) : bool :=
  existsb (fun c => negb (Py.isspace c)) s.


(** ** External collaborators *)

(** Python [float]s are kept abstract: the sources only subtract a distance
    from one, round a score to three decimals, and compare rounded scores.
    The comparison is taken to be an equality, which leaves NaN out. *)
Class Floats : Type := {
  float : Type;
  float_eq_dec :: EqDecision float;
  one_minus : float -> float;      (* [1 - d] *)
  round3 : float -> float          (* [round(x, 3)] *)
}.

(** A [metadata] value is a string or an integer ([chunk_index]). *)
Inductive pyval : Type :=
  | VStr (s : Py.str)
  | VInt (n : Z).

#[global] Instance pyval_eq_dec : EqDecision pyval.
Proof. solve_decision. Defined.

(** [f"{v}"] *)
Definition format_val (v : pyval) : Py.str :=
  match v with
  | VStr s => s
  | VInt n => Py.of_int n
  end.

Abbreviation Metadata := (gmap string pyval).

(** The OpenAI client. A call may fail ([None]: the Python call raises);
    the client state lets one call fail and the next succeed. *)
Class OpenAI `{Floats} : Type := {
  client : Type;
  (* [embeddings.create(input=..., model=...)], as the list of the
     [embedding] fields of [response.data] *)
  embeddings_create : client -> list Py.str -> client * option (list (list float));
  (* [chat.completions.create(...)], as [choices[0].message.content] *)
  chat_completions_create : client -> Py.str -> Py.str -> Z -> client * option Py.str
}.

(** What [collection.query] answers: one row per query embedding. *)
Record QueryResult `{Floats} : Type := {
  q_documents : option (list (list Py.str));
  q_metadatas : option (list (list Metadata));
  q_distances : option (list (list float))
}.

(** The Chroma collection. [None] stands for a raised exception, which
    leaves the collection as it was. *)
Class Chroma `{Floats} : Type := {
  collection : Type;
  coll_add : collection -> list Py.str -> list Py.str -> list (list float)
             -> list Metadata -> option collection;
  coll_query : collection -> list float -> Z -> option QueryResult;
  coll_count : collection -> Z
}.

(** ** vector_store.py *)

Section VectorStore.
Context `{FL : Floats} `{OA : !OpenAI} `{CH : !Chroma}.

Record VectorStore : Type := {
  vs_client : client;
  vs_collection : collection
}.

(** [{'id': ..., 'text': ..., 'metadata': ...}] *)
Record IndexedItem : Type := {
  item_id : Py.str;
  item_text : Py.str;
  item_metadata : Metadata
}.

(** [{'documents': ..., 'metadatas': ..., 'distances': ...}] *)
Record SearchResult : Type := {
  documents : list Py.str;
  metadatas : list Metadata;
  distances : list float
}.

Definition set_client (self : VectorStore) (c : client) : VectorStore :=
  {| vs_client := c; vs_collection := vs_collection self |}.

Definition set_collection (self : VectorStore) (c : collection) : VectorStore :=
  {| vs_client := vs_client self; vs_collection := c |}.

(** [get_embedding]: any exception of the body, the [IndexError] of
    [response.data[0]] included, gives the empty vector. *)
Definition get_embedding (self : VectorStore) (text : Py.str)
  : VectorStore * list float :=
  let '(c, response) := embeddings_create (vs_client self) [text] in
  (set_client self c,
   match response with
   | Some (embedding :: _) => embedding
   | Some [] => []
   | None => []
   end).

(** The body of the [for i in range(0, len(texts), batch_size)] loop of
    [get_embeddings_batch], over the indices the range produced. *)
Fixpoint embed_batches (c : client) (texts : list Py.str) (batch_size : Z)
    (indices : list Z) (embeddings : list (list float))
  : client * list (list float) :=
  match indices with
  | [] => (c, embeddings)
  | i :: rest =>
      let batch := Py.slice texts i (i + batch_size) in
      let '(c', response) := embeddings_create c batch in
      let embeddings' :=
        match response with
        | Some batch_embeddings => embeddings ++ batch_embeddings
        | None => embeddings ++ map (fun _ => []) batch
        end in
      embed_batches c' texts batch_size rest embeddings'
  end.

Definition get_embeddings_batch (self : VectorStore) (texts : list Py.str)
    (batch_size : Z) : VectorStore * outcome (list (list float)) :=
  match Py.range0 (Py.len texts) batch_size with
  | Return indices =>
      let '(c, embeddings) :=
        embed_batches (vs_client self) texts batch_size indices [] in
      (set_client self c, Return embeddings)
  | Raise e => (self, Raise e)
  | OutOfFuel => (self, OutOfFuel)
  end.

(** The [for] loop of [add_documents]; it sits in a [try], so the first
    [collection.add] that raises ends it. *)
Fixpoint add_batches (coll : collection) (ids texts : list Py.str)
    (embeddings : list (list float)) (metas : list Metadata)
    (batch_size : Z) (indices : list Z) : collection :=
  match indices with
  | [] => coll
  | i :: rest =>
      let batch_ids := Py.slice ids i (i + batch_size) in
      let batch_texts := Py.slice texts i (i + batch_size) in
      let batch_embeddings := Py.slice embeddings i (i + batch_size) in
      let batch_metadatas := Py.slice metas i (i + batch_size) in
      match coll_add coll batch_ids batch_texts batch_embeddings batch_metadatas with
      | Some coll' =>
          add_batches coll' ids texts embeddings metas batch_size rest
      | None => coll
      end
  end.

Definition add_documents (self : VectorStore) (docs : list IndexedItem)
    (batch_size : Z) : VectorStore * outcome unit :=
  if negb (Py.truthy docs) then (self, Return tt)
  else
    let texts := map item_text docs in
    let ids := map item_id docs in
    let metas := map item_metadata docs in
    match get_embeddings_batch self texts batch_size with
    | (self1, Return embeddings) =>
        match Py.range0 (Py.len docs) batch_size with
        | Return indices =>
            (set_collection self1
               (add_batches (vs_collection self1) ids texts embeddings metas
                            batch_size indices),
             Return tt)
        | _ => (self1, Return tt)
        end
    | (self1, Raise e) => (self1, Raise e)
    | (self1, OutOfFuel) => (self1, OutOfFuel)
    end.

(** [x[0] if x else []] *)
Definition first_row {A : Type} (x : option (list (list A))) : list A :=
  match x with
  | Some (row :: _) => row
  | _ => []
  end.

Definition empty_result : SearchResult :=
  {| documents := []; metadatas := []; distances := [] |}.

Definition search (self : VectorStore) (query : Py.str) (n_results : Z)
  : VectorStore * SearchResult :=
  let '(self1, query_embedding) := get_embedding self query in
  if negb (Py.truthy query_embedding) then (self1, empty_result)
  else
    match coll_query (vs_collection self1) query_embedding n_results with
    | Some results =>
        (self1,
         {| documents := first_row (q_documents results);
            metadatas := first_row (q_metadatas results);
            distances := first_row (q_distances results) |})
    | None => (self1, empty_result)
    end.

Definition get_collection_count (self : VectorStore) : Z :=
  coll_count (vs_collection self).

End VectorStore.

(** ** rag_engine.py *)

Section RAGEngine.
Context `{FL : Floats} `{OA : !OpenAI} `{CH : !Chroma}.

Record RAGEngine : Type := {
  vector_store : VectorStore;
  openai_client : client
}.

(** [{'text': ..., 'metadata': ..., 'score': ...}] *)
Record RetrievedDoc : Type := {
  doc_text : Py.str;
  doc_metadata : Metadata;
  doc_score : float
}.

(** [{'file_name': ..., 'type': ..., 'score': ...}] *)
Record SourceInfo : Type := {
  src_file_name : pyval;
  src_type : pyval;
  src_score : float
}.

#[global] Instance SourceInfo_eq_dec : EqDecision SourceInfo.
Proof. solve_decision. Defined.

(** [{'answer': ..., 'sources': ...}] *)
Record Answer : Type := {
  answer : Py.str;
  sources : list SourceInfo
}.

(** [{'query': ..., 'answer': ..., 'sources': ..., 'retrieved_docs': ...}] *)
Record QueryResponse : Type := {
  r_query : Py.str;
  r_answer : Py.str;
  r_sources : list SourceInfo;
  retrieved_docs : list RetrievedDoc
}.

(** [l[i]] for [i] in range, [IndexError] otherwise *)
Definition getitem {A : Type} (l : list A) (i : nat) : outcome A :=
  match l !! i with
  | Some x => Return x
  | None => Raise IndexError
  end.

(** The [for i, doc in enumerate(results['documents'])] loop. *)
Fixpoint format_results (i : nat) (docs : list Py.str) (results : SearchResult)
    (acc : list RetrievedDoc) : outcome (list RetrievedDoc) :=
  match docs with
  | [] => Return acc
  | doc :: rest =>
      do m <- getitem (metadatas results) i ;
      do d <- getitem (distances results) i ;
      format_results (S i) rest results
        (acc ++ [ {| doc_text := doc; doc_metadata := m;
                     doc_score := one_minus d |} ])
  end.

Definition retrieve_relevant_documents (self : RAGEngine) (query : Py.str)
    (top_k : Z) : RAGEngine * outcome (list RetrievedDoc) :=
  let '(vs, results) := search (vector_store self) query top_k in
  ({| vector_store := vs; openai_client := openai_client self |},
   format_results 0 (documents results) results []).

(** [metadata.get(key, default)] *)
Definition meta_get (m : Metadata) (key : string) (default : pyval) : pyval :=
  match m !! key with
  | Some v => v
  | None => default
  end.

(** One labelled block of the context; [i] is the index of [enumerate]. *)
Definition context_item (i : nat) (doc : RetrievedDoc) : Py.str :=
  let file_name := meta_get (doc_metadata doc) "file_name" (VStr (Py.lit "Unknown")) in
  let doc_type := meta_get (doc_metadata doc) "type" (VStr (Py.lit "text")) in
  if decide (doc_type = VStr (Py.lit "ocr")) then
    Py.lit "[문서 " ++ Py.of_int (Z.of_nat i + 1) ++ Py.lit ": "
      ++ format_val file_name ++ Py.lit " (이미지 내용)]" ++ [10%N]
      ++ doc_text doc ++ [10%N]
  else
    Py.lit "[문서 " ++ Py.of_int (Z.of_nat i + 1) ++ Py.lit ": "
      ++ format_val file_name ++ Py.lit "]" ++ [10%N]
      ++ doc_text doc ++ [10%N].

(** The loop of [_build_context], with its [break]. *)
Fixpoint context_loop (i : nat) (docs : list RetrievedDoc) (max_length : Z)
    (context_parts : list Py.str) (current_length : Z) : list Py.str :=
  match docs with
  | [] => context_parts
  | doc :: rest =>
      let item := context_item i doc in
      if current_length + Py.len item >? max_length then context_parts
      else context_loop (S i) rest max_length (context_parts ++ [item])
                        (current_length + Py.len item)
  end.

Definition context_parts_of (docs : list RetrievedDoc) (max_length : Z)
  : list Py.str :=
  context_loop 0 docs max_length [] 0.

Definition _build_context (docs : list RetrievedDoc) (max_length : Z) : Py.str :=
  Py.join [10%N] (context_parts_of docs max_length).

Definition default_max_length : Z := 4000.

(** The results whose block went into the context: the loop stops at the
    first block that does not fit. *)
Definition folded_documents (docs : list RetrievedDoc) (max_length : Z)
  : list RetrievedDoc :=
  take (length (context_parts_of docs max_length)) docs.

Definition source_info (doc : RetrievedDoc) : SourceInfo :=
  {| src_file_name := meta_get (doc_metadata doc) "file_name" (VStr (Py.lit "Unknown"));
     src_type := meta_get (doc_metadata doc) "type" (VStr (Py.lit "unknown"));
     src_score := round3 (doc_score doc) |}.

(** The [for doc in context_documents] loop that builds [sources]. *)
Fixpoint collect_sources (docs : list RetrievedDoc) (sources : list SourceInfo)
  : list SourceInfo :=
  match docs with
  | [] => sources
  | doc :: rest =>
      let info := source_info doc in
      if decide (info ∈ sources) then collect_sources rest sources
      else collect_sources rest (sources ++ [info])
  end.

Definition system_prompt : Py.str :=
  Py.lit "당신은 사내 지식문서를 기반으로 답변하는 전문 AI 어시스턴트입니다." ++ [10; 10]%N
  ++ Py.lit "다음 규칙을 따라주세요:" ++ [10%N]
  ++ Py.lit "1. 제공된 문서 내용을 기반으로만 답변하세요." ++ [10%N]
  ++ Py.lit "2. 문서에 없는 내용은 추측하지 말고 " ++ [34%N]
  ++ Py.lit "제공된 문서에서 해당 정보를 찾을 수 없습니다" ++ [34%N]
  ++ Py.lit "라고 답하세요." ++ [10%N]
  ++ Py.lit "3. 답변은 명확하고 구조화되게 작성하세요." ++ [10%N]
  ++ Py.lit "4. 가능한 경우 출처 문서를 언급하세요." ++ [10%N]
  ++ Py.lit "5. 한국어로 답변하세요.".

Definition user_prompt (context query : Py.str) : Py.str :=
  Py.lit "다음은 사내 지식문서에서 검색된 관련 내용입니다:" ++ [10; 10]%N
  ++ context ++ [10; 10]%N
  ++ Py.lit "질문: " ++ query ++ [10; 10]%N
  ++ Py.lit "위 문서 내용을 바탕으로 질문에 답변해주세요.".

Definition generation_error_answer : Py.str :=
  Py.lit "죄송합니다. 답변 생성 중 오류가 발생했습니다.".

Definition no_documents_answer : Py.str :=
  Py.lit "관련된 문서를 찾을 수 없습니다. 다른 질문을 시도해보세요.".

Definition generate_answer (self : RAGEngine) (query : Py.str)
    (context_documents : list RetrievedDoc) (max_tokens : Z)
  : RAGEngine * Answer :=
  let context := _build_context context_documents default_max_length in
  let '(c, response) :=
    chat_completions_create (openai_client self) system_prompt
      (user_prompt context query) max_tokens in
  ({| vector_store := vector_store self; openai_client := c |},
   match response with
   | Some content =>
       {| answer := content;
          sources := collect_sources context_documents [] |}
   | None =>
       {| answer := generation_error_answer; sources := [] |}
   end).

Definition query (self : RAGEngine) (q : Py.str) (top_k max_tokens : Z)
  : RAGEngine * outcome QueryResponse :=
  match retrieve_relevant_documents self q top_k with
  | (self1, Return docs) =>
      if negb (Py.truthy docs) then
        (self1, Return {| r_query := q; r_answer := no_documents_answer;
                          r_sources := []; retrieved_docs := [] |})
      else
        let '(self2, result) := generate_answer self1 q docs max_tokens in
        (self2, Return {| r_query := q; r_answer := answer result;
                          r_sources := sources result;
                          retrieved_docs := Py.slice docs 0 3 |})
  | (self1, Raise e) => (self1, Raise e)
  | (self1, OutOfFuel) => (self1, OutOfFuel)
  end.

End RAGEngine.

(** ** chatbot.py and the document records of document_processor.py *)

(** What the docx parser gives for one file: [Path(file_path).name], the
    extracted text and the extracted images. *)
Record ParsedDocx : Type := {
  p_file_path : Py.str;
  p_file_name : Py.str;
  p_text : Py.str;
  p_images : list Py.str
}.

(** The dictionary returned by [process_document]. *)
Record ProcessedDoc : Type := {
  file_path : Py.str;
  file_name : Py.str;
  text : Py.str;
  chunks : list Py.str;
  images : list Py.str
}.

Definition process_document (fuel : nat) (self : DocumentProcessor)
    (parsed : ParsedDocx) : outcome ProcessedDoc :=
  do cs <- chunk_text fuel self (p_text parsed) ;
  Return {| file_path := p_file_path parsed; file_name := p_file_name parsed;
            text := p_text parsed; chunks := cs; images := p_images parsed |}.

(** The loop of [process_documents_batch] over the files found; a file
    whose processing raises is skipped ([except Exception: continue]). *)
Fixpoint process_documents_batch (fuel : nat) (self : DocumentProcessor)
    (files : list ParsedDocx) : outcome (list ProcessedDoc) :=
  match files with
  | [] => Return []
  | f :: rest =>
      match process_document fuel self f with
      | Return d =>
          do ds <- process_documents_batch fuel self rest ;
          Return (d :: ds)
      | Raise _ => process_documents_batch fuel self rest
      | OutOfFuel => OutOfFuel
      end
  end.

(** [Path(name).stem] for a file name without directory part. *)
Definition stem (name : Py.str) : Py.str :=
  let i := Py.rfind name (Py.lit ".") 0 (Py.len name) in
  if (0 <? i) && (i <? Py.len name - 1) then Py.slice name 0 i else name.

(** [f"{Path(doc['file_name']).stem}_chunk_{i}"] *)
Definition doc_id (name : Py.str) (i : nat) : Py.str :=
  stem name ++ Py.lit "_chunk_" ++ Py.of_int (Z.of_nat i).

Definition text_metadata (doc : ProcessedDoc) (i : nat) : Metadata :=
  <["file_name" := VStr (file_name doc)]>
    (<["file_path" := VStr (file_path doc)]>
       (<["chunk_index" := VInt (Z.of_nat i)]>
          (<["type" := VStr (Py.lit "text")]> ∅))).

Section Chatbot.
Context `{FL : Floats} `{OA : !OpenAI} `{CH : !Chroma}.

(** The inner loop [for i, chunk in enumerate(doc['chunks'])]. *)
Fixpoint append_chunk_items (doc : ProcessedDoc) (i : nat) (cs : list Py.str)
    (text_documents : list IndexedItem) : list IndexedItem :=
  match cs with
  | [] => text_documents
  | chunk :: rest =>
      append_chunk_items doc (S i) rest
        (text_documents ++
           [ {| item_id := doc_id (file_name doc) i;
                item_text := chunk;
                item_metadata := text_metadata doc i |} ])
  end.

(** The outer loop [for doc in processed_docs]. *)
Fixpoint append_text_documents (processed_docs : list ProcessedDoc)
    (text_documents : list IndexedItem) : list IndexedItem :=
  match processed_docs with
  | [] => text_documents
  | doc :: rest =>
      append_text_documents rest
        (append_chunk_items doc 0 (chunks doc) text_documents)
  end.

Definition build_text_documents (processed_docs : list ProcessedDoc)
  : list IndexedItem :=
  append_text_documents processed_docs [].

Record RAGChatbot : Type := {
  doc_processor : DocumentProcessor;
  cb_vector_store : VectorStore;
  rag_engine_client : client
}.

(** Stages 1 and 2 of [index_documents]: the ids and the number of the
    text items handed to [add_documents] (batch size 100, its default). *)
Definition index_text_chunks (fuel : nat) (self : RAGChatbot)
    (files : list ParsedDocx) : outcome (VectorStore * list IndexedItem) :=
  do processed_docs <- process_documents_batch fuel (doc_processor self) files ;
  let text_documents := build_text_documents processed_docs in
  if Py.truthy text_documents then
    match add_documents (cb_vector_store self) text_documents 100 with
    | (vs, _) => Return (vs, text_documents)
    end
  else Return (cb_vector_store self, text_documents).

(** [chat]: the guard on an empty collection, then the RAG engine. *)
Definition indexing_needed_answer : Py.str :=
  Py.lit "⚠ 인덱싱된 문서가 없습니다. 먼저 '문서 인덱싱 시작' 버튼을 클릭하여 문서를 인덱싱해주세요.".

Definition chat (self : RAGChatbot) (q : Py.str) (top_k : Z)
  : RAGEngine * outcome QueryResponse :=
  let engine := {| vector_store := cb_vector_store self;
                   openai_client := rag_engine_client self |} in
  if get_collection_count (cb_vector_store self) =? 0 then
    (engine, Return {| r_query := q; r_answer := indexing_needed_answer;
                       r_sources := []; retrieved_docs := [] |})
  else query engine q top_k 1000.

End Chatbot.

(** ** Concrete collaborators, for running the embedding *)

Module Demo.

(** Scores in thousandths: a fixed-point stand-in for floats that have
    at most three decimals, on which rounding is the identity. *)
Definition milli : Floats :=
  {| float := Z; one_minus d := 1000 - d; round3 x := x |}.

(** A client that follows a script: each call consumes one entry, [false]
    makes the call fail; past the script every call succeeds. A successful
    embedding call gives each text the one-component vector of its length. *)
Definition length_vectors (texts : list Py.str) : list (list (@float milli)) :=
  map (fun t => [Py.len t]) texts.

Definition scripted_embeddings (c : list bool) (texts : list Py.str)
  : list bool * option (list (list (@float milli))) :=
  match c with
  | false :: c' => (c', None)
  | true :: c' => (c', Some (length_vectors texts))
  | [] => ([], Some (length_vectors texts))
  end.

Definition scripted_chat (c : list bool) (system user : Py.str) (max_tokens : Z)
  : list bool * option Py.str :=
  match c with
  | false :: c' => (c', None)
  | true :: c' => (c', Some (Py.lit "ok"))
  | [] => ([], Some (Py.lit "ok"))
  end.

Definition scripted : @OpenAI milli :=
  {| client := list bool;
     embeddings_create := scripted_embeddings;
     chat_completions_create := scripted_chat |}.

(** A stored row: id, document, embedding, metadata. *)
Definition row : Type := Py.str * Py.str * list Z * Metadata.

Fixpoint zip_rows (ids texts : list Py.str) (embeddings : list (list Z))
    (metas : list Metadata) : list row :=
  match ids, texts, embeddings, metas with
  | i :: ids', t :: texts', e :: embeddings', m :: metas' =>
      (i, t, e, m) :: zip_rows ids' texts' embeddings' metas'
  | _, _, _, _ => []
  end.

Definition row_distance (e : list Z) (r : row) : @float milli :=
  match e, r with
  | x :: _, (_, _, y :: _, _) => Z.min 1000 (Z.abs (x - y))
  | _, _ => 1000
  end.

Definition answer_rows (rows : list row) (e : list Z) (n : Z) : @QueryResult milli :=
  let hits := take (Z.to_nat n) rows in
  @Build_QueryResult milli
    (Some [map (fun r => r.1.1.2) hits])
    (Some [map (fun r => r.2) hits])
    (Some [map (row_distance e) hits]).

Definition accept_add (c : list row) (ids texts : list Py.str)
    (embeddings : list (list Z)) (metas : list Metadata) : option (list row) :=
  Some (c ++ zip_rows ids texts embeddings metas).

Definition validate_add (c : list row) (ids texts : list Py.str)
    (embeddings : list (list Z)) (metas : list Metadata) : option (list row) :=
  if forallb Py.truthy embeddings
  then Some (c ++ zip_rows ids texts embeddings metas)
  else None.

Definition answer_query (c : list row) (e : list Z) (n : Z)
  : option (@QueryResult milli) :=
  Some (answer_rows c e n).

Definition ragged_query (c : list row) (e : list Z) (n : Z)
  : option (@QueryResult milli) :=
  Some (@Build_QueryResult milli
          (q_documents (answer_rows c e n)) None
          (q_distances (answer_rows c e n))).

Definition count_rows (c : list row) : Z := Py.len c.

(** A list-backed collection that accepts every write as it is and
    answers a query with its first [n] rows. *)
Definition accepting : @Chroma milli :=
  @Build_Chroma milli (list row) accept_add answer_query count_rows.

(** The same collection, but a write that carries an empty embedding is
    refused as a whole, as a validating index does. *)
Definition validating : @Chroma milli :=
  @Build_Chroma milli (list row) validate_add answer_query count_rows.

(** A collection whose answers lack the metadata rows. *)
Definition ragged : @Chroma milli :=
  @Build_Chroma milli (list row) accept_add ragged_query count_rows.

(** A collection keyed by id: a write whose lists differ in length is
    refused, and a row written under an id already held is ignored. *)
Definition keyed_rows : Type := gmap Py.str (Py.str * (list Z * Metadata)).

Definition keyed_add (c : keyed_rows) (ids texts : list Py.str)
    (embeddings : list (list Z)) (metas : list Metadata) : option keyed_rows :=
  if (length texts =? length ids)%nat && (length embeddings =? length ids)%nat
     && (length metas =? length ids)%nat
  then Some (c ∪ list_to_map (zip ids (zip texts (zip embeddings metas))))
  else None.

Definition keyed_query (c : keyed_rows) (e : list Z) (n : Z)
  : option (@QueryResult milli) :=
  answer_query (map (fun r => (r.1, r.2.1, r.2.2.1, r.2.2.2)) (map_to_list c))
               e n.

Definition keyed_count (c : keyed_rows) : Z := Z.of_nat (size c).

Definition keyed : @Chroma milli :=
  @Build_Chroma milli keyed_rows keyed_add keyed_query keyed_count.

Definition store (CH : @Chroma milli) (script : list bool)
    (c : @collection milli CH) : @VectorStore milli scripted CH :=
  {| vs_client := (script : @client milli scripted); vs_collection := c |}.

Definition item (id txt : string) (name : string) : IndexedItem :=
  {| item_id := Py.lit id; item_text := Py.lit txt;
     item_metadata := <["file_name" := VStr (Py.lit name)]>
                        (<["type" := VStr (Py.lit "text")]> ∅) |}.

Definition retrieved (name : string) (txt : Py.str) (s : Z)
  : @RetrievedDoc milli :=
  @Build_RetrievedDoc milli txt
    (<["file_name" := VStr (Py.lit name)]>
       (<["type" := VStr (Py.lit "text")]> ∅))
    s.

(** A 98-character paragraph, the paragraph break, and a paragraph of
    1000 characters without any boundary delimiter. *)
Definition looping_text : Py.str :=
  Py.repeat_char 97 98 ++ [10; 10]%N ++ Py.repeat_char 98 1000.

(** A line break first, then nine letters; with size 6 and overlap 2 the
    second window starts before the first. *)
Definition backward_text : Py.str :=
  [10%N] ++ Py.repeat_char 97 9.

(** 1200 characters without delimiter: a letter, 1198 spaces, a letter. *)
Definition sparse_text : Py.str :=
  [97%N] ++ Py.repeat_char 32 1198 ++ [98%N].

(** 1200 letters. *)
Definition plain_text : Py.str := Py.repeat_char 97 1200.

(** Two results of 3000 characters each, from two files. *)
Definition two_long_results : list (@RetrievedDoc milli) :=
  [ retrieved "a.docx" (Py.repeat_char 97 3000) 750;
    retrieved "b.docx" (Py.repeat_char 98 3000) 500 ].

Definition five_rows : list row :=
  zip_rows (map Py.lit ["d_chunk_0"; "d_chunk_1"; "d_chunk_2"; "d_chunk_3"; "d_chunk_4"])
           (map Py.lit ["a"; "b"; "c"; "d"; "e"])
           [[1]; [1]; [1]; [1]; [1]]
           (replicate 5 (<["file_name" := VStr (Py.lit "d.docx")]> ∅)).

Definition engine (CH : @Chroma milli) (script : list bool)
    (c : @collection milli CH) : @RAGEngine milli scripted CH :=
  {| vector_store := store CH script c;
     openai_client := ([] : @client milli scripted) |}.

Definition parsed (name : string) (txt : Py.str) : ParsedDocx :=
  {| p_file_path := Py.lit "data/documents/" ++ Py.lit name;
     p_file_name := Py.lit name; p_text := txt; p_images := [] |}.

End Demo.

(** ** Contracts of the collaborators and specification-level notions *)

Section Contracts.
Context `{FL : Floats} `{OA : !OpenAI} `{CH : !Chroma}.

(** The embedding provider answers a successful call with one vector per
    input text. *)
Definition embeddings_one_per_input : Prop :=
  forall (c c' : client) (texts : list Py.str) (vs : list (list float)),
    embeddings_create c texts = (c', Some vs) -> length vs = length texts.

(** A collection that holds no item answers a query with no document. *)
Definition empty_collection_answers_nothing : Prop :=
  forall (c : collection) (e : list float) (n : Z) (r : QueryResult),
    coll_count c = 0 -> coll_query c e n = Some r ->
    first_row (q_documents r) = [].

(** An answer of the collection has, in each of its three fields, a row for
    the query, and the three rows have one entry per hit. *)
Definition aligned (r : QueryResult) : Prop :=
  exists (ds : list Py.str) (ms : list Metadata) (xs : list float)
         ds' ms' xs',
    q_documents r = Some (ds :: ds')
    /\ q_metadatas r = Some (ms :: ms')
    /\ q_distances r = Some (xs :: xs')
    /\ length ds = length ms /\ length ms = length xs.

Definition query_rows_aligned : Prop :=
  forall (c : collection) (e : list float) (n : Z) (r : QueryResult),
    coll_query c e n = Some r -> aligned r.

(** What one batch contributes to the result of [get_embeddings_batch]:
    the answer of the provider to that batch, or one empty vector per text
    of the batch. *)
Definition batch_block (texts : list Py.str) (batch_size : Z) (i : Z)
    (block : list (list float)) : Prop :=
  let batch := Py.slice texts i (i + batch_size) in
  block = map (fun _ => []) batch
  \/ exists c c' : client, embeddings_create c batch = (c', Some block).

(** The collection is keyed by id: [ids_of] tells the ids it holds, a
    write that succeeds leaves it with the ids it held and the ids it was
    given, each held once, and its count is the number of ids it holds.
    A write of an id already held may be ignored, replace the row or be
    refused; it never adds a second row. *)
Definition keyed_by_id (ids_of : collection -> gset Py.str) : Prop :=
  (forall (c c' : collection) (ids texts : list Py.str)
          (embeddings : list (list float)) (metas : list Metadata),
     coll_add c ids texts embeddings metas = Some c' ->
     ids_of c' = ids_of c ∪ list_to_set ids)
  /\ (forall c : collection, coll_count c = Z.of_nat (size (ids_of c))).

(** The calls that [get_embeddings_batch] is to make, told in the order of
    the batches: the batch that starts at [i] is sent to the provider in
    the client state that the batch before left; its block is the answer of
    the provider when the call succeeded, and one empty vector per text of
    the batch when it failed.  [batch_run c indices blocks c'] relates the
    client state before the first call, the starts of the batches, the
    blocks and the client state after the last call. *)
Inductive batch_run (texts : list Py.str) (batch_size : Z)
  : client -> list Z -> list (list (list float)) -> client -> Prop :=
  | batch_run_done (c : client) :
      batch_run texts batch_size c [] [] c
  | batch_run_answered (c c' c'' : client) (i : Z) (rest : list Z)
      (answer : list (list float)) (blocks : list (list (list float))) :
      embeddings_create c (Py.slice texts i (i + batch_size))
      = (c', Some answer) ->
      batch_run texts batch_size c' rest blocks c'' ->
      batch_run texts batch_size c (i :: rest) (answer :: blocks) c''
  | batch_run_failed (c c' c'' : client) (i : Z) (rest : list Z)
      (blocks : list (list (list float))) :
      embeddings_create c (Py.slice texts i (i + batch_size)) = (c', None) ->
      batch_run texts batch_size c' rest blocks c'' ->
      batch_run texts batch_size c (i :: rest)
        (map (fun _ => []) (Py.slice texts i (i + batch_size)) :: blocks) c''.

End Contracts.

(** Removal of duplicates that keeps the first occurrence of each element. *)
Fixpoint dedup_first {A : Type} `{EqDecision A} (l : list A) : list A :=
  match l with
  | [] => []
  | x :: rest => x :: filter (fun y => y <> x) (dedup_first rest)
  end.

(** ** document_processor.py: text extraction *)

(** What python-docx gives for an opened document: the texts of the body
    paragraphs, and for each table its rows of cell texts. *)
Record Docx : Type := {
  paragraphs : list Py.str;
  tables : list (list (list Py.str))
}.

(** [if t.strip(): full_text.append(t.strip())] over a sequence of texts *)
Fixpoint append_stripped (pieces : list Py.str) (full_text : list Py.str)
  : list Py.str :=
  match pieces with
  | [] => full_text
  | t :: rest =>
      append_stripped rest
        (if Py.truthy (Py.strip t) then full_text ++ [Py.strip t] else full_text)
  end.

(** [for row in table.rows: for cell in row.cells: ...] *)
Fixpoint append_rows (rows : list (list Py.str)) (full_text : list Py.str)
  : list Py.str :=
  match rows with
  | [] => full_text
  | row :: rest => append_rows rest (append_stripped row full_text)
  end.

(** [for table in doc.tables: ...] *)
Fixpoint append_tables (tbls : list (list (list Py.str))) (full_text : list Py.str)
  : list Py.str :=
  match tbls with
  | [] => full_text
  | table :: rest => append_tables rest (append_rows table full_text)
  end.

Definition full_text_of (doc : Docx) : list Py.str :=
  append_tables (tables doc) (append_stripped (paragraphs doc) []).

(** [extract_text_from_docx]; [None] stands for a document that cannot be
    opened or read (the [except] branch). *)
Definition extract_text_from_docx (doc : option Docx) : Py.str :=
  match doc with
  | Some d => Py.join [10; 10]%N (full_text_of d)
  | None => []
  end.

(** [process_document] from the opened document on: the extracted text and
    its chunks. *)
Definition process_docx (fuel : nat) (self : DocumentProcessor)
    (path name : Py.str) (doc : option Docx) (imgs : list Py.str)
  : outcome ProcessedDoc :=
  process_document fuel self
    {| p_file_path := path; p_file_name := name;
       p_text := extract_text_from_docx doc; p_images := imgs |}.

(** ** ocr_processor.py *)

(** EasyOCR's reader on an image file, with [detail=0]: the recognised
    texts, or [None] when the image cannot be opened or read.  The reader
    is taken to answer the same for the same file. *)
Definition Reader : Type := Py.str -> option (list Py.str).

(** [extract_text_from_image]; the [except] branch returns [""]. *)
Definition extract_text_from_image (reader : Reader) (image_path : Py.str)
  : Py.str :=
  match reader image_path with
  | Some results => Py.strip (Py.join (Py.lit " ") results)
  | None => []
  end.

(** [d[k] = v] on a [dict], which keeps the order of first insertion. *)
Fixpoint dict_set (d : list (Py.str * Py.str)) (k v : Py.str)
  : list (Py.str * Py.str) :=
  match d with
  | [] => [(k, v)]
  | (k', v') :: rest =>
      if decide (k' = k) then (k, v) :: rest else (k', v') :: dict_set rest k v
  end.

(** The loop of [process_images_batch]. *)
Fixpoint images_loop (reader : Reader) (image_paths : list Py.str)
    (results : list (Py.str * Py.str)) : list (Py.str * Py.str) :=
  match image_paths with
  | [] => results
  | image_path :: rest =>
      images_loop reader rest
        (dict_set results image_path (extract_text_from_image reader image_path))
  end.

Definition process_images_batch (reader : Reader) (image_paths : list Py.str)
  : list (Py.str * Py.str) :=
  images_loop reader image_paths [].

(** ** chatbot.py: the OCR items of [index_documents] *)

(** [for doc in processed_docs: all_images.extend(doc['images'])] *)
Fixpoint extend_images (processed_docs : list ProcessedDoc)
    (all_images : list Py.str) : list Py.str :=
  match processed_docs with
  | [] => all_images
  | doc :: rest => extend_images rest (all_images ++ images doc)
  end.

Section OcrItems.
(** [uuid.uuid4().hex[:8]] at the k-th draw, [Path(p).stem] and
    [Path(p).parent.name] are left open. *)
Variable uuid8 : nat -> Py.str.
Variable path_stem : Py.str -> Py.str.
Variable parent_name : Py.str -> Py.str.

Definition ocr_metadata (image_path : Py.str) : Metadata :=
  <["file_name" := VStr (parent_name image_path ++ Py.lit " (이미지)")]>
    (<["image_path" := VStr image_path]>
       (<["type" := VStr (Py.lit "ocr")]> ∅)).

(** [for image_path, ocr_text in ocr_results.items()]; [k] counts the
    identifiers drawn so far. *)
Fixpoint append_ocr_items (k : nat) (entries : list (Py.str * Py.str))
    (ocr_documents : list IndexedItem) : list IndexedItem :=
  match entries with
  | [] => ocr_documents
  | (image_path, ocr_text) :: rest =>
      if Py.truthy ocr_text then
        append_ocr_items (S k) rest
          (ocr_documents ++
             [ {| item_id := Py.lit "ocr_" ++ uuid8 k ++ Py.lit "_"
                               ++ path_stem image_path;
                  item_text := ocr_text;
                  item_metadata := ocr_metadata image_path |} ])
      else append_ocr_items k rest ocr_documents
  end.

(** Stages 3 and 4 of [index_documents], up to the list handed to
    [add_documents]. *)
Definition build_ocr_documents (reader : Reader) (enable_ocr : bool)
    (processed_docs : list ProcessedDoc) : list IndexedItem :=
  let all_images := extend_images processed_docs [] in
  if enable_ocr && Py.truthy all_images then
    append_ocr_items 0 (process_images_batch reader all_images) []
  else [].

End OcrItems.

(** ** chatbot.py: [index_documents] as a whole *)

(** The [stats] dictionary that [index_documents] returns. *)
Record IndexStats : Type := {
  total_docs : Z;
  total_chunks : Z;
  total_images : Z;
  ocr_texts : Z;
  status : Py.str
}.

Definition set_status (stats : IndexStats) (v : Py.str) : IndexStats :=
  {| total_docs := total_docs stats; total_chunks := total_chunks stats;
     total_images := total_images stats; ocr_texts := ocr_texts stats;
     status := v |}.

Section IndexDocuments.
Context `{FL : Floats} `{OA : !OpenAI} `{CH : !Chroma}.
Variable uuid8 : nat -> Py.str.
Variable path_stem : Py.str -> Py.str.
Variable parent_name : Py.str -> Py.str.

(** [if docs: self.vector_store.add_documents(docs)] *)
Definition add_if_any (vs : VectorStore) (docs : list IndexedItem)
  : VectorStore * outcome unit :=
  if Py.truthy docs then add_documents vs docs 100 else (vs, Return tt).

(** [index_documents], with the vector store it leaves.  [ocr] is the
    reader that [initialize_ocr] builds, [None] when building it raises.
    The body sits in a [try]: whatever raises ends the run with the status
    ['error'] and the counts set so far. *)
Definition index_documents (fuel : nat) (self : RAGChatbot)
    (ocr : option Reader) (enable_ocr : bool) (files : list ParsedDocx)
  : outcome (VectorStore * IndexStats) :=
  let stats0 := {| total_docs := 0; total_chunks := 0; total_images := 0;
                   ocr_texts := 0; status := Py.lit "success" |} in
  match process_documents_batch fuel (doc_processor self) files with
  | OutOfFuel => OutOfFuel
  | Raise _ => Return (cb_vector_store self, set_status stats0 (Py.lit "error"))
  | Return processed_docs =>
      if negb (Py.truthy processed_docs) then
        Return (cb_vector_store self, set_status stats0 (Py.lit "no_documents"))
      else
        let text_documents := build_text_documents processed_docs in
        let stats2 := {| total_docs := Py.len processed_docs;
                         total_chunks := Py.len text_documents;
                         total_images := 0; ocr_texts := 0;
                         status := Py.lit "success" |} in
        match add_if_any (cb_vector_store self) text_documents with
        | (vs, OutOfFuel) => OutOfFuel
        | (vs, Raise _) => Return (vs, set_status stats2 (Py.lit "error"))
        | (vs, Return _) =>
            let all_images := extend_images processed_docs [] in
            let stats3 := {| total_docs := Py.len processed_docs;
                             total_chunks := Py.len text_documents;
                             total_images := Py.len all_images; ocr_texts := 0;
                             status := Py.lit "success" |} in
            if enable_ocr && Py.truthy all_images then
              match ocr with
              | None => Return (vs, set_status stats3 (Py.lit "error"))
              | Some reader =>
                  let ocr_documents :=
                    append_ocr_items uuid8 path_stem parent_name 0
                      (process_images_batch reader all_images) [] in
                  let stats4 := {| total_docs := Py.len processed_docs;
                                   total_chunks := Py.len text_documents;
                                   total_images := Py.len all_images;
                                   ocr_texts := Py.len ocr_documents;
                                   status := Py.lit "success" |} in
                  match add_if_any vs ocr_documents with
                  | (vs', OutOfFuel) => OutOfFuel
                  | (vs', Raise _) =>
                      Return (vs', set_status stats4 (Py.lit "error"))
                  | (vs', Return _) => Return (vs', stats4)
                  end
              end
            else Return (vs, stats3)
        end
  end.

End IndexDocuments.

(** * Properties *)

(** ** Slices, search and stripping *)

Section PyFacts.

Lemma len_nonneg {A : Type} (s : list A) : 0 <= Py.len s.
Proof. unfold Py.len. lia. Qed.

Lemma clamp_index_bounds (n i : Z) :
  0 <= n -> 0 <= Py.clamp_index n i <= n.
Proof. unfold Py.clamp_index. destruct (i <? 0) eqn:E; lia. Qed.

Lemma clamp_index_inside (n i : Z) :
  0 <= i <= n -> Py.clamp_index n i = i.
Proof. unfold Py.clamp_index. destruct (i <? 0) eqn:E; lia. Qed.

Lemma clamp_index_beyond (n i : Z) :
  0 <= n <= i -> Py.clamp_index n i = n.
Proof. unfold Py.clamp_index. destruct (i <? 0) eqn:E; lia. Qed.

Lemma slice_all {A : Type} (s : list A) (j : Z) :
  Py.len s <= j -> Py.slice s 0 j = s.
Proof.
  intros Hj. unfold Py.slice.
  pose proof (len_nonneg s) as Hn.
  rewrite (clamp_index_inside _ 0) by lia.
  rewrite clamp_index_beyond by lia.
  rewrite Z.sub_0_r. unfold Py.len. rewrite Nat2Z.id.
  simpl. apply firstn_all.
Qed.

Lemma length_slice_le {A : Type} (s : list A) (i j : Z) :
  0 <= i -> 0 <= j -> Py.len (Py.slice s i j) <= Z.max 0 (j - i).
Proof.
  intros Hi Hj. unfold Py.slice.
  pose proof (len_nonneg s) as Hn.
  set (a := Py.clamp_index (Py.len s) i).
  set (b := Py.clamp_index (Py.len s) j).
  unfold Py.len at 1. rewrite length_take.
  assert (b - a <= Z.max 0 (j - i)).
  { subst a b. unfold Py.clamp_index.
    destruct (i <? 0) eqn:E1; destruct (j <? 0) eqn:E2; lia. }
  lia.
Qed.

Lemma str_eqb_eq (s t : Py.str) : Py.str_eqb s t = true <-> s = t.
Proof.
  revert t. induction s as [|c s IH]; intros [|d t]; simpl; try easy.
  rewrite andb_true_iff, N.eqb_eq, IH. split.
  - intros [-> ->]. reflexivity.
  - intros [= -> ->]. split; reflexivity.
Qed.

Lemma startswith_take (s : Py.str) (k : nat) : Py.startswith s (take k s) = true.
Proof.
  revert k. induction s as [|c s IH]; intros [|k]; simpl; try reflexivity.
  rewrite N.eqb_refl. apply IH.
Qed.

Lemma contains_drop (s sub : Py.str) (i : nat) :
  Py.startswith (drop i s) sub = true -> Py.contains s sub = true.
Proof.
  revert s. induction i as [|i IH]; intros s H.
  - rewrite drop_0 in H. destruct s; simpl in *; rewrite H; reflexivity.
  - destruct s as [|c s].
    + simpl in *. rewrite H. reflexivity.
    + simpl in H. simpl. rewrite (IH s H). apply orb_true_r.
Qed.

(** [sub in s] is false: [sub] sits at no position of [s]. *)
Lemma contains_false (s sub : Py.str) (i : Z) :
  Py.contains s sub = false -> 0 <= i <= Py.len s ->
  Py.startswith_at s sub i = false.
Proof.
  intros Hc Hi. destruct (Py.startswith_at s sub i) eqn:E; [|reflexivity].
  assert (Py.contains s sub = true) as Ht; [|congruence].
  unfold Py.startswith_at in E. apply str_eqb_eq in E.
  apply (contains_drop s sub (Z.to_nat (Py.clamp_index (Py.len s) i))).
  rewrite <- E. unfold Py.slice. apply startswith_take.
Qed.

Lemma rfind_down_absent (s sub : Py.str) (lo : Z) (k : nat) :
  (forall j : nat, (j < k)%nat ->
     Py.startswith_at s sub (lo + Z.of_nat j) = false) ->
  Py.rfind_down s sub lo k = -1.
Proof.
  induction k as [|k IH]; intros H; simpl; [reflexivity|].
  rewrite (H k) by lia. apply IH. intros j Hj. apply H. lia.
Qed.

Lemma rfind_absent (s sub : Py.str) (start stop : Z) :
  Py.contains s sub = false -> Py.rfind s sub start stop = -1.
Proof.
  intros Hc. unfold Py.rfind. apply rfind_down_absent. intros j Hj.
  apply contains_false; [exact Hc|].
  pose proof (len_nonneg s) as Hn. pose proof (len_nonneg sub) as Hs.
  pose proof (clamp_index_bounds (Py.len s) start Hn).
  pose proof (clamp_index_bounds (Py.len s) stop Hn).
  lia.
Qed.

Lemma has_nonspace_lstrip (s : Py.str) :
  has_nonspace (Py.lstrip s) = has_nonspace s.
Proof.
  unfold has_nonspace.
  induction s as [|c s IH]; simpl; [reflexivity|].
  destruct (Py.isspace c) eqn:E; simpl.
  - exact IH.
  - rewrite E. reflexivity.
Qed.

Lemma has_nonspace_rev (s : Py.str) : has_nonspace (rev s) = has_nonspace s.
Proof.
  unfold has_nonspace. induction s as [|c s IH]; simpl; [reflexivity|].
  rewrite existsb_app, IH. simpl. rewrite orb_false_r. apply orb_comm.
Qed.

Lemma has_nonspace_strip (s : Py.str) :
  has_nonspace (Py.strip s) = has_nonspace s.
Proof.
  unfold Py.strip, Py.rstrip.
  rewrite has_nonspace_rev, has_nonspace_lstrip, has_nonspace_rev.
  apply has_nonspace_lstrip.
Qed.

Lemma has_nonspace_truthy (s : Py.str) :
  has_nonspace s = true -> Py.truthy (Py.strip s) = true.
Proof.
  intros H. rewrite <- has_nonspace_strip in H.
  destruct (Py.strip s); [discriminate H|reflexivity].
Qed.

Lemma length_lstrip_le (s : Py.str) : (length (Py.lstrip s) <= length s)%nat.
Proof.
  induction s as [|c s IH]; simpl; [lia|].
  destruct (Py.isspace c); simpl; lia.
Qed.

Lemma len_strip_le (s : Py.str) : Py.len (Py.strip s) <= Py.len s.
Proof.
  unfold Py.strip, Py.rstrip, Py.len.
  rewrite length_rev.
  pose proof (length_lstrip_le (rev (Py.lstrip s))) as H1.
  rewrite length_rev in H1.
  pose proof (length_lstrip_le s). lia.
Qed.

End PyFacts.

(** ** The chunker *)

Section ChunkerFacts.
Variable self : DocumentProcessor.

Lemma chunk_loop_done (fuel : nat) (text : Py.str) (start : Z) (cs : list Py.str) :
  Py.len text <= start -> chunk_loop fuel self text start cs = Return cs.
Proof.
  intros H. apply Z.ltb_ge in H. destruct fuel; simpl; rewrite H; reflexivity.
Qed.

Lemma chunk_loop_step (fuel : nat) (text : Py.str) (start : Z) (cs : list Py.str) :
  start < Py.len text ->
  chunk_loop (S fuel) self text start cs
  = chunk_loop fuel self text
      (next_start self text (window_end self text start))
      (append_chunk cs (Py.strip (Py.slice text start (window_end self text start)))).
Proof. intros H. apply Z.ltb_lt in H. simpl. rewrite H. reflexivity. Qed.

Lemma chunk_loop_starved (text : Py.str) (start : Z) (cs : list Py.str) :
  start < Py.len text -> chunk_loop 0 self text start cs = OutOfFuel.
Proof. intros H. apply Z.ltb_lt in H. simpl. rewrite H. reflexivity. Qed.

Lemma window_starts_done (fuel : nat) (text : Py.str) (start : Z) :
  Py.len text <= start -> window_starts fuel self text start = [].
Proof.
  intros H. apply Z.ltb_ge in H. destruct fuel; simpl; rewrite H; reflexivity.
Qed.

Lemma window_starts_step (fuel : nat) (text : Py.str) (start : Z) :
  start < Py.len text ->
  window_starts (S fuel) self text start
  = start :: window_starts fuel self text
               (next_start self text (window_end self text start)).
Proof. intros H. apply Z.ltb_lt in H. simpl. rewrite H. reflexivity. Qed.

(** Without any delimiter in the text the window keeps its raw end. *)
Lemma snap_absent (text : Py.str) (start end_ : Z) (ds : list Py.str) :
  forallb (fun d => negb (Py.contains text d)) ds = true ->
  snap_to_boundary text start end_ ds = end_.
Proof.
  induction ds as [|d ds IH]; simpl; [reflexivity|].
  rewrite andb_true_iff, negb_true_iff. intros [Hd Hds].
  rewrite (rfind_absent _ _ _ _ Hd). simpl. apply IH, Hds.
Qed.

Lemma append_chunk_nonempty (cs : list Py.str) (c : Py.str) :
  Forall (fun x => x <> []) cs -> Forall (fun x => x <> []) (append_chunk cs c).
Proof.
  intros H. unfold append_chunk. destruct c as [|x c]; simpl; [exact H|].
  apply Forall_app. split; [exact H|]. constructor; [discriminate|constructor].
Qed.

(** The loop only ever appends non-empty chunks. *)
Lemma chunk_loop_nonempty (fuel : nat) (text : Py.str) :
  forall (start : Z) (cs out : list Py.str),
    Forall (fun x => x <> []) cs ->
    chunk_loop fuel self text start cs = Return out ->
    Forall (fun x => x <> []) out.
Proof.
  induction fuel as [|fuel IH]; intros start cs out Hcs; simpl;
    destruct (start <? Py.len text); try discriminate;
    try (intros [= <-]; exact Hcs).
  apply IH, append_chunk_nonempty, Hcs.
Qed.

(** The loop has no raising statement. *)
Lemma chunk_loop_never_raises (fuel : nat) (text : Py.str) :
  forall (start : Z) (cs : list Py.str) (e : pyexn),
    chunk_loop fuel self text start cs <> Raise e.
Proof.
  induction fuel as [|fuel IH]; intros start cs e; simpl;
    destruct (start <? Py.len text); try discriminate.
  apply IH.
Qed.

Lemma chunk_text_never_raises (fuel : nat) (text : Py.str) (e : pyexn) :
  chunk_text fuel self text <> Raise e.
Proof.
  unfold chunk_text. destruct (negb (Py.truthy text)); [discriminate|].
  apply chunk_loop_never_raises.
Qed.

Lemma chunk_text_nonempty (fuel : nat) (text : Py.str) (out : list Py.str) :
  chunk_text fuel self text = Return out -> Forall (fun x => x <> []) out.
Proof.
  unfold chunk_text. destruct (negb (Py.truthy text)).
  - intros [= <-]. constructor.
  - apply chunk_loop_nonempty. constructor.
Qed.

(** More fuel does not change a result. *)
Lemma chunk_loop_fuel_irrelevant (f1 : nat) (text : Py.str) :
  forall (f2 : nat) (start : Z) (cs out1 out2 : list Py.str),
    chunk_loop f1 self text start cs = Return out1 ->
    chunk_loop f2 self text start cs = Return out2 ->
    out1 = out2.
Proof.
  induction f1 as [|f1 IH]; intros f2 start cs out1 out2; simpl;
    destruct f2 as [|f2]; simpl; destruct (start <? Py.len text);
    try discriminate; try congruence.
  apply IH.
Qed.

Lemma chunk_text_fuel_irrelevant (f1 f2 : nat) (text : Py.str)
    (out1 out2 : list Py.str) :
  chunk_text f1 self text = Return out1 ->
  chunk_text f2 self text = Return out2 ->
  out1 = out2.
Proof.
  unfold chunk_text. destruct (negb (Py.truthy text)); [congruence|].
  apply chunk_loop_fuel_irrelevant.
Qed.

End ChunkerFacts.

(** *** Progress of the loop when no boundary is found *)

Section PlainText.
Variables (self : DocumentProcessor) (text : Py.str).
Hypothesis plain : no_delimiter text = true.
Hypothesis settings : 0 < chunk_overlap self < chunk_size self.

Lemma window_end_raw (start : Z) :
  window_end self text start = start + chunk_size self.
Proof.
  unfold window_end.
  destruct (start + chunk_size self <? Py.len text); [|reflexivity].
  apply snap_absent, plain.
Qed.

Lemma plain_start_advances (start : Z) :
  start < next_start self text (window_end self text start).
Proof.
  rewrite window_end_raw. unfold next_start.
  destruct (start + chunk_size self <? Py.len text); lia.
Qed.

(** Without delimiter in the text the loop finishes: as many iterations as
    the text has characters are enough. *)
Lemma plain_loop_terminates (fuel : nat) :
  forall (start : Z) (cs : list Py.str),
    Py.len text - start <= Z.of_nat fuel ->
    exists out : list Py.str, chunk_loop fuel self text start cs = Return out.
Proof.
  induction fuel as [|fuel IH]; intros start cs Hfuel.
  - exists cs. apply chunk_loop_done. lia.
  - destruct (Z.le_gt_cases (Py.len text) start) as [Hdone|Hmore].
    + exists cs. apply chunk_loop_done, Hdone.
    + rewrite chunk_loop_step by lia. apply IH.
      pose proof (plain_start_advances start). lia.
Qed.

Lemma plain_chunk_text_terminates :
  exists out : list Py.str,
    chunk_text (length text) self text = Return out
    /\ Forall (fun c => c <> []) out.
Proof.
  assert (exists out, chunk_text (length text) self text = Return out) as [out H].
  { unfold chunk_text. destruct (negb (Py.truthy text)); [eexists; reflexivity|].
    apply plain_loop_terminates. unfold Py.len. lia. }
  exists out. split; [exact H|]. exact (chunk_text_nonempty self _ _ _ H).
Qed.

(** ... and the window starts increase strictly. *)
Lemma plain_window_starts_increase (fuel : nat) :
  forall start : Z,
    Forall (fun s => start <= s) (window_starts fuel self text start)
    /\ StronglySorted Z.lt (window_starts fuel self text start).
Proof.
  induction fuel as [|fuel IH]; intros start.
  - unfold window_starts. destruct (start <? Py.len text); split; constructor.
  - destruct (Z.le_gt_cases (Py.len text) start) as [Hdone|Hmore].
    + rewrite window_starts_done by exact Hdone. split; constructor.
    + rewrite window_starts_step by lia.
      pose proof (plain_start_advances start) as Hadv.
      destruct (IH (next_start self text (window_end self text start)))
        as [Hge Hsorted].
      split.
      * constructor; [lia|].
        eapply Forall_impl; [exact Hge|]. intros s Hs. simpl in Hs. lia.
      * constructor; [exact Hsorted|].
        eapply Forall_impl; [exact Hge|]. intros s Hs. simpl in Hs. lia.
Qed.

End PlainText.

(** *** The loop on a text whose boundary falls inside the overlap *)

Section LoopingText.
Import Demo.

Lemma looping_text_window : window_end default_processor looping_text 0 = 100.
Proof. vm_compute. reflexivity. Qed.

Lemma looping_text_next : next_start default_processor looping_text 100 = 0.
Proof. vm_compute. reflexivity. Qed.

Lemma looping_text_len : Py.len looping_text = 1100.
Proof. vm_compute. reflexivity. Qed.

Lemma looping_text_chunk :
  Py.strip (Py.slice looping_text 0 100) = Py.repeat_char 97 98.
Proof. vm_compute. reflexivity. Qed.

Lemma looping_text_stuck (fuel : nat) :
  forall cs : list Py.str,
    chunk_loop fuel default_processor looping_text 0 cs = OutOfFuel.
Proof.
  induction fuel as [|fuel IH]; intros cs.
  - apply chunk_loop_starved. rewrite looping_text_len. lia.
  - rewrite chunk_loop_step by (rewrite looping_text_len; lia).
    rewrite looping_text_window, looping_text_next. apply IH.
Qed.

Lemma looping_text_starts (fuel : nat) :
  window_starts fuel default_processor looping_text 0 = replicate fuel 0.
Proof.
  induction fuel as [|fuel IH].
  - unfold window_starts. destruct (0 <? _); reflexivity.
  - rewrite window_starts_step by (rewrite looping_text_len; lia).
    rewrite looping_text_window, looping_text_next, IH. reflexivity.
Qed.

End LoopingText.

(** C3. The chunking loop is claimed to terminate with strictly increasing
    window starts for every text when [0 < overlap < size]. With the settings
    of the chatbot (size 500, overlap 100), on a 98-character paragraph
    followed by a paragraph break and a long paragraph without delimiter, the
    first window is cut after the break at offset 100 and the next window
    starts at [100 - 100 = 0] again: whatever the fuel, the loop does not
    finish, and every window starts at 0. *)
Theorem chunk_text_stuck_on_early_boundary :
  0 < chunk_overlap default_processor < chunk_size default_processor
  /\ forall fuel : nat,
       chunk_text fuel default_processor Demo.looping_text = OutOfFuel
       /\ window_starts fuel default_processor Demo.looping_text 0
          = replicate fuel 0.
Proof.
  split; [simpl; lia|]. intros fuel. split.
  - unfold chunk_text. change (Py.truthy Demo.looping_text) with true. simpl negb.
    cbv iota. apply looping_text_stuck.
  - apply looping_text_starts.
Qed.

(** Another run of the loop (size 6, overlap 2): after a boundary found at
    the very start of the window, the next window starts at a negative
    offset, before the previous one. *)
Example chunk_text_start_goes_back :
  window_starts 5 {| chunk_size := 6; chunk_overlap := 2 |} Demo.backward_text 0
  = [0; -1; 3; 7].
Proof. vm_compute. reflexivity. Qed.

(** *** No check of the overlap *)

Lemma window_end_plain (self : DocumentProcessor) (text : Py.str) (start : Z) :
  no_delimiter text = true ->
  window_end self text start = start + chunk_size self.
Proof.
  intros H. unfold window_end.
  destruct (start + chunk_size self <? Py.len text); [|reflexivity].
  apply snap_absent, H.
Qed.

Lemma window_end_last (self : DocumentProcessor) (text : Py.str) (start : Z) :
  Py.len text <= start + chunk_size self ->
  window_end self text start = start + chunk_size self.
Proof.
  intros H. apply Z.ltb_ge in H. unfold window_end. rewrite H. reflexivity.
Qed.

(** C4, as stated, fails: with [overlap = size = 5] the processor is built
    and [chunk_text] returns a chunk; no configuration error is raised. *)
Lemma overlap_not_checked_counterexample :
  exists self : DocumentProcessor,
    DocumentProcessor_init 5 5 = Return self
    /\ chunk_overlap self >= chunk_size self
    /\ chunk_text 1 self (Py.lit "abc") = Return [Py.lit "abc"].
Proof.
  eexists. split; [reflexivity|]. split; [simpl; lia|]. vm_compute. reflexivity.
Qed.

(** C4, amended. The relation between overlap and size is not checked: for
    [overlap >= size] the constructor returns the processor, [chunk_text]
    raises on no text, and on a text of at most [size] characters it returns
    the stripped text as the only chunk (no chunk when that is empty). *)
Theorem chunk_text_overlap_unchecked (size overlap : Z) (text : Py.str) (fuel : nat) :
  overlap >= size ->
  Py.len text <= size ->
  (1 <= fuel)%nat ->
  let self := {| chunk_size := size; chunk_overlap := overlap |} in
  DocumentProcessor_init size overlap = Return self
  /\ (forall (fuel' : nat) (text' : Py.str) (e : pyexn),
        chunk_text fuel' self text' <> Raise e)
  /\ chunk_text fuel self text = Return (append_chunk [] (Py.strip text)).
Proof.
  intros Hov Hlen Hfuel self. split; [reflexivity|]. split.
  { intros fuel' text' e. apply chunk_text_never_raises. }
  unfold chunk_text. destruct text as [|c text]; [reflexivity|].
  simpl negb. cbv iota.
  destruct fuel as [|fuel]; [lia|].
  assert (0 < Py.len (c :: text)) as Hpos by (unfold Py.len; simpl; lia).
  rewrite chunk_loop_step by exact Hpos.
  rewrite window_end_last by (simpl; lia).
  change (0 + chunk_size self) with size.
  rewrite slice_all by exact Hlen.
  apply chunk_loop_done.
  unfold next_start. destruct (size <? Py.len (c :: text)) eqn:E; [|lia].
  apply Z.ltb_lt in E. lia.
Qed.

Lemma chunk_text_overlap_unchecked_witness :
  chunk_text 1 {| chunk_size := 5; chunk_overlap := 7 |} (Py.lit " ab ")
  = Return [Py.lit "ab"].
Proof.
  refine (proj2 (proj2 (chunk_text_overlap_unchecked 5 7 (Py.lit " ab ") 1 _ _ _))).
  - lia.
  - vm_compute. discriminate.
  - lia.
Defined.

(** *** The 1200-character scenario *)

(** The run of the loop on a 1200-character text without delimiter. *)
Lemma scenario_1200_run (text : Py.str) (fuel : nat) :
  Py.len text = 1200 ->
  no_delimiter text = true ->
  (3 <= fuel)%nat ->
  window_starts fuel default_processor text 0 = [0; 400; 800]
  /\ chunk_text fuel default_processor text
     = Return (append_chunk
                 (append_chunk
                    (append_chunk [] (Py.strip (Py.slice text 0 500)))
                    (Py.strip (Py.slice text 400 900)))
                 (Py.strip (Py.slice text 800 1300))).
Proof.
  intros Hlen Hnd Hfuel.
  destruct fuel as [|[|[|fuel]]]; try lia.
  assert (next_start default_processor text 500 = 400) as N0
    by (unfold next_start; rewrite Hlen; reflexivity).
  assert (next_start default_processor text 900 = 800) as N1
    by (unfold next_start; rewrite Hlen; reflexivity).
  assert (next_start default_processor text 1300 = 1300) as N2
    by (unfold next_start; rewrite Hlen; reflexivity).
  split.
  - rewrite window_starts_step by lia.
    rewrite (window_end_plain _ _ _ Hnd).
    change (0 + chunk_size default_processor) with 500. rewrite N0.
    rewrite window_starts_step by lia.
    rewrite (window_end_plain _ _ _ Hnd).
    change (400 + chunk_size default_processor) with 900. rewrite N1.
    rewrite window_starts_step by lia.
    rewrite (window_end_plain _ _ _ Hnd).
    change (800 + chunk_size default_processor) with 1300. rewrite N2.
    rewrite window_starts_done by lia. reflexivity.
  - unfold chunk_text. destruct text as [|c text]; [discriminate Hlen|].
    simpl negb. cbv iota.
    rewrite chunk_loop_step by lia.
    rewrite (window_end_plain _ _ _ Hnd).
    change (0 + chunk_size default_processor) with 500. rewrite N0.
    rewrite chunk_loop_step by lia.
    rewrite (window_end_plain _ _ _ Hnd).
    change (400 + chunk_size default_processor) with 900. rewrite N1.
    rewrite chunk_loop_step by lia.
    rewrite (window_end_plain _ _ _ Hnd).
    change (800 + chunk_size default_processor) with 1300. rewrite N2.
    apply chunk_loop_done. lia.
Qed.

Lemma sparse_text_facts :
  Py.len Demo.sparse_text = 1200
  /\ no_delimiter Demo.sparse_text = true
  /\ Py.strip (Py.slice Demo.sparse_text 0 500) = Py.lit "a"
  /\ Py.strip (Py.slice Demo.sparse_text 400 900) = []
  /\ Py.strip (Py.slice Demo.sparse_text 800 1300) = Py.lit "b".
Proof. vm_compute. repeat split; reflexivity. Qed.

(** C8, as stated, fails: a 1200-character text without delimiter whose
    middle window is blank gives two chunks, not three. *)
Lemma scenario_1200_counterexample :
  Py.len Demo.sparse_text = 1200
  /\ no_delimiter Demo.sparse_text = true
  /\ chunk_text 3 default_processor Demo.sparse_text
     = Return [Py.lit "a"; Py.lit "b"].
Proof.
  destruct sparse_text_facts as (Hlen & Hnd & H0 & H1 & H2).
  split; [exact Hlen|]. split; [exact Hnd|].
  destruct (scenario_1200_run Demo.sparse_text 3 Hlen Hnd ltac:(lia)) as [_ Hrun].
  rewrite Hrun, H0, H1, H2. reflexivity.
Qed.

(** C8, amended. For a text of 1200 characters without boundary delimiter,
    size 500 and overlap 100: the windows start at 0, 400 and 800; each
    window gives its stripped content, at most 500 characters long, as a
    chunk unless it is empty; exactly three chunks are returned when each
    window holds a character that is not white space. *)
Theorem chunk_text_scenario_1200 (text : Py.str) (fuel : nat) :
  Py.len text = 1200 ->
  no_delimiter text = true ->
  (3 <= fuel)%nat ->
  let w0 := Py.strip (Py.slice text 0 500) in
  let w1 := Py.strip (Py.slice text 400 900) in
  let w2 := Py.strip (Py.slice text 800 1300) in
  window_starts fuel default_processor text 0 = [0; 400; 800]
  /\ chunk_text fuel default_processor text
     = Return (append_chunk (append_chunk (append_chunk [] w0) w1) w2)
  /\ (Py.len w0 <= 500 /\ Py.len w1 <= 500 /\ Py.len w2 <= 500)
  /\ (has_nonspace (Py.slice text 0 500) = true ->
      has_nonspace (Py.slice text 400 900) = true ->
      has_nonspace (Py.slice text 800 1300) = true ->
      chunk_text fuel default_processor text = Return [w0; w1; w2]).
Proof.
  intros Hlen Hnd Hfuel w0 w1 w2.
  destruct (scenario_1200_run text fuel Hlen Hnd Hfuel) as [Hstarts Hrun].
  split; [exact Hstarts|]. split; [exact Hrun|]. split.
  { subst w0 w1 w2. repeat split.
    - pose proof (len_strip_le (Py.slice text 0 500)).
      pose proof (length_slice_le text 0 500). lia.
    - pose proof (len_strip_le (Py.slice text 400 900)).
      pose proof (length_slice_le text 400 900). lia.
    - pose proof (len_strip_le (Py.slice text 800 1300)).
      pose proof (length_slice_le text 800 1300). lia. }
  intros H0 H1 H2. rewrite Hrun. unfold append_chunk.
  subst w0 w1 w2.
  rewrite (has_nonspace_truthy _ H0), (has_nonspace_truthy _ H1),
    (has_nonspace_truthy _ H2).
  reflexivity.
Qed.

Lemma chunk_text_scenario_1200_witness :
  window_starts 3 default_processor Demo.plain_text 0 = [0; 400; 800]
  /\ chunk_text 3 default_processor Demo.plain_text
     = Return [Py.repeat_char 97 500; Py.repeat_char 97 500; Py.repeat_char 97 400].
Proof.
  destruct (chunk_text_scenario_1200 Demo.plain_text 3) as (Hs & _ & _ & Hc).
  - vm_compute. reflexivity.
  - vm_compute. reflexivity.
  - lia.
  - split; [exact Hs|]. rewrite Hc; [vm_compute; reflexivity|..];
      vm_compute; reflexivity.
Defined.

(** ** The embedding batcher *)

Lemma len_slice {A : Type} (s : list A) (i j : Z) :
  0 <= i -> i <= j ->
  Py.len (Py.slice s i j) = Z.min j (Py.len s) - Z.min i (Py.len s).
Proof.
  intros Hi Hij. unfold Py.slice.
  pose proof (len_nonneg s) as Hn.
  assert (Py.clamp_index (Py.len s) i = Z.min i (Py.len s)) as ->
    by (unfold Py.clamp_index; destruct (i <? 0) eqn:E; lia).
  assert (Py.clamp_index (Py.len s) j = Z.min j (Py.len s)) as ->
    by (unfold Py.clamp_index; destruct (j <? 0) eqn:E; lia).
  unfold Py.len in *. rewrite length_take, length_drop. lia.
Qed.

Lemma slice_infix {A : Type} (s : list A) (i j : Z) :
  exists pre post, s = pre ++ Py.slice s i j ++ post.
Proof.
  unfold Py.slice.
  set (a := Z.to_nat (Py.clamp_index (Py.len s) i)).
  set (k := Z.to_nat (Py.clamp_index (Py.len s) j - Py.clamp_index (Py.len s) i)).
  exists (take a s), (drop k (drop a s)).
  rewrite (take_drop k (drop a s)), take_drop. reflexivity.
Qed.

Lemma range0_positive (stop step : Z) :
  1 <= step ->
  Py.range0 stop step
  = Return (map (fun k => Z.of_nat k * step)
                (seq 0 (Z.to_nat ((stop + step - 1) / step)))).
Proof.
  intros H. unfold Py.range0.
  destruct (step =? 0) eqn:E0; [lia|].
  destruct (step <? 0) eqn:E1; [lia|]. reflexivity.
Qed.

Lemma range0_covers (stop step : Z) :
  0 <= stop -> 1 <= step ->
  stop <= Z.of_nat (Z.to_nat ((stop + step - 1) / step)) * step.
Proof.
  intros Hs Hb.
  assert (0 <= (stop + step - 1) / step) by (apply Z.div_pos; lia).
  rewrite Z2Nat.id by lia.
  pose proof (Z.div_mod (stop + step - 1) step ltac:(lia)).
  pose proof (Z.mod_pos_bound (stop + step - 1) step ltac:(lia)).
  nia.
Qed.

Lemma range0_indices_inside (stop step : Z) (indices : list Z) :
  0 <= stop -> 1 <= step ->
  Py.range0 stop step = Return indices ->
  Forall (fun i => 0 <= i < stop) indices.
Proof.
  intros Hstop Hstep. rewrite range0_positive by exact Hstep. intros [= <-].
  apply Forall_forall. intros i Hi. apply list_elem_of_In, in_map_iff in Hi.
  destruct Hi as (k & <- & Hk). apply in_seq in Hk.
  assert (0 <= (stop + step - 1) / step) by (apply Z.div_pos; lia).
  pose proof (Z.div_mod (stop + step - 1) step ltac:(lia)).
  pose proof (Z.mod_pos_bound (stop + step - 1) step ltac:(lia)).
  nia.
Qed.

Section EmbeddingFacts.
Context `{FL : Floats} `{OA : !OpenAI} `{CH : !Chroma}.
Variables (texts : list Py.str) (batch_size : Z).

(** Each index of the loop contributes one block, appended in order. *)
Lemma embed_batches_blocks (indices : list Z) :
  forall (c : client) (acc : list (list float)),
  exists blocks : list (list (list float)),
    (embed_batches c texts batch_size indices acc).2 = acc ++ concat blocks
    /\ Forall2 (batch_block texts batch_size) indices blocks.
Proof.
  induction indices as [|i rest IH]; intros c acc; simpl.
  - exists []. simpl. rewrite app_nil_r. split; [reflexivity|constructor].
  - destruct (embeddings_create c (Py.slice texts i (i + batch_size)))
      as [c' [vs|]] eqn:E.
    + destruct (IH c' (acc ++ vs)) as (blocks & Hb & Hf).
      exists (vs :: blocks). split.
      * rewrite Hb. simpl. rewrite <- app_assoc. reflexivity.
      * constructor; [|exact Hf]. right. exists c, c'. exact E.
    + destruct (IH c' (acc ++ map (fun _ => []) (Py.slice texts i (i + batch_size))))
        as (blocks & Hb & Hf).
      exists (map (fun _ => []) (Py.slice texts i (i + batch_size)) :: blocks). split.
      * rewrite Hb. simpl. rewrite <- app_assoc. reflexivity.
      * constructor; [|exact Hf]. left. reflexivity.
Qed.

Hypothesis provider_ok : embeddings_one_per_input.
Hypothesis batch_size_pos : 1 <= batch_size.

(** After the batches [0 .. a-1] the result holds one vector for each of
    the first [a * batch_size] texts. *)
Lemma embed_batches_len (m : nat) :
  forall (a : nat) (c : client) (acc : list (list float)),
    Py.len acc = Z.min (Z.of_nat a * batch_size) (Py.len texts) ->
    Py.len (embed_batches c texts batch_size
              (map (fun k => Z.of_nat k * batch_size) (seq a m)) acc).2
    = Z.min (Z.of_nat (a + m) * batch_size) (Py.len texts).
Proof.
  induction m as [|m IH]; intros a c acc Hacc; simpl.
  - rewrite Nat.add_0_r. exact Hacc.
  - set (i := Z.of_nat a * batch_size).
    pose proof (len_slice texts i (i + batch_size) ltac:(subst i; nia) ltac:(lia))
      as Hslice.
    destruct (embeddings_create c (Py.slice texts i (i + batch_size)))
      as [c' [vs|]] eqn:E.
    + replace (a + S m)%nat with (S a + m)%nat by lia. apply IH.
      apply provider_ok in E.
      unfold Py.len in *. rewrite length_app, E. subst i.
      rewrite Nat2Z.inj_succ, Z.mul_succ_l. lia.
    + replace (a + S m)%nat with (S a + m)%nat by lia. apply IH.
      unfold Py.len in *. rewrite length_app, length_map. subst i.
      rewrite Nat2Z.inj_succ, Z.mul_succ_l. lia.
Qed.

Lemma get_embeddings_batch_returns (self : VectorStore) :
  exists (self' : VectorStore) (embeddings : list (list float)),
    get_embeddings_batch self texts batch_size = (self', Return embeddings)
    /\ vs_collection self' = vs_collection self
    /\ length embeddings = length texts
    /\ exists blocks : list (list (list float)),
         embeddings = concat blocks
         /\ Forall2 (batch_block texts batch_size)
              (map (fun k => Z.of_nat k * batch_size)
                   (seq 0 (Z.to_nat ((Py.len texts + batch_size - 1) / batch_size))))
              blocks.
Proof.
  unfold get_embeddings_batch. rewrite range0_positive by exact batch_size_pos.
  set (indices := map _ _).
  destruct (embed_batches (vs_client self) texts batch_size indices [])
    as [c embeddings] eqn:E.
  exists (set_client self c), embeddings. split; [reflexivity|].
  split; [reflexivity|]. split.
  - assert (Py.len (@nil (list float))
            = Z.min (Z.of_nat 0 * batch_size) (Py.len texts)) as H0
      by (pose proof (len_nonneg texts); unfold Py.len in *; simpl; lia).
    pose proof (embed_batches_len
                  (Z.to_nat ((Py.len texts + batch_size - 1) / batch_size))
                  0 (vs_client self) [] H0) as H.
    fold indices in H. rewrite E in H. simpl in H.
    pose proof (range0_covers (Py.len texts) batch_size (len_nonneg texts)
                  batch_size_pos).
    unfold Py.len in *. lia.
  - destruct (embed_batches_blocks indices (vs_client self) [])
      as (blocks & Hb & Hf).
    rewrite E in Hb. simpl in Hb. exists blocks. split; assumption.
Qed.

(** The loop makes the calls of [batch_run], threading the client, and
    appends one block per batch, each with one slot per text of the batch. *)
Lemma embed_batches_run (indices : list Z) :
  forall (c : client) (acc : list (list float)),
  exists (blocks : list (list (list float))) (c' : client),
    embed_batches c texts batch_size indices acc = (c', acc ++ concat blocks)
    /\ batch_run texts batch_size c indices blocks c'
    /\ Forall2 (fun i block =>
                  length block
                  = length (Py.slice texts i (i + batch_size)))
               indices blocks.
Proof.
  induction indices as [|i rest IH]; intros c acc; simpl.
  - exists [], c. simpl. rewrite app_nil_r.
    split; [reflexivity|]. split; constructor.
  - destruct (embeddings_create c (Py.slice texts i (i + batch_size)))
      as [c1 [answer|]] eqn:E.
    + destruct (IH c1 (acc ++ answer)) as (blocks & c' & Hrun & Hcalls & Hlen).
      exists (answer :: blocks), c'. split; [|split].
      * rewrite Hrun. simpl. rewrite <- app_assoc. reflexivity.
      * exact (batch_run_answered _ _ _ _ _ _ _ _ _ E Hcalls).
      * constructor; [exact (provider_ok _ _ _ _ E)|exact Hlen].
    + destruct (IH c1 (acc ++ map (fun _ => [])
                                  (Py.slice texts i (i + batch_size))))
        as (blocks & c' & Hrun & Hcalls & Hlen).
      exists (map (fun _ => []) (Py.slice texts i (i + batch_size)) :: blocks), c'.
      split; [|split].
      * rewrite Hrun. simpl. rewrite <- app_assoc. reflexivity.
      * exact (batch_run_failed _ _ _ _ _ _ _ _ E Hcalls).
      * constructor; [apply length_map|exact Hlen].
Qed.

(** Blocks laid end to end, each as long as its batch, sit at the
    positions of their batches. *)
Lemma concat_block_slices {A : Type} (n : Z) (blocks : list (list A)) :
  forall (a : nat) (acc : list A),
    Py.len acc = Z.of_nat a * batch_size ->
    Forall2 (fun i block => i < n /\ Py.len block = Z.min (i + batch_size) n - i)
            (map (fun k => Z.of_nat k * batch_size) (seq a (length blocks)))
            blocks ->
    Forall2 (fun i block =>
               Py.slice (acc ++ concat blocks) i (i + batch_size) = block)
            (map (fun k => Z.of_nat k * batch_size) (seq a (length blocks)))
            blocks.
Proof.
  induction blocks as [|bl rest IH]; intros a acc Hacc H; [constructor|].
  simpl in H. inversion H as [|? ? ? ? [Hin Hbl] Hrest]; subst.
  pose proof (len_nonneg bl) as Hb0. pose proof (len_nonneg (concat rest)) as Hr0.
  assert (rest <> [] -> Py.len bl = batch_size) as Hfull.
  { intros Hne. destruct rest as [|r rest']; [contradiction|].
    simpl in Hrest. inversion Hrest as [|? ? ? ? [Hin' _] _]; subst.
    rewrite Nat2Z.inj_succ, Z.mul_succ_l in Hin'. lia. }
  simpl. constructor.
  - unfold Py.slice.
    assert (Py.len (acc ++ bl ++ concat rest)
            = Z.of_nat a * batch_size + Py.len bl + Py.len (concat rest)) as Hlen
      by (unfold Py.len in *; rewrite !length_app; lia).
    rewrite (clamp_index_inside _ (Z.of_nat a * batch_size)) by nia.
    assert (Py.clamp_index (Py.len (acc ++ bl ++ concat rest))
              (Z.of_nat a * batch_size + batch_size)
            = Z.of_nat a * batch_size + Py.len bl) as ->.
    { unfold Py.clamp_index.
      destruct (Z.of_nat a * batch_size + batch_size <? 0) eqn:E; [nia|].
      destruct rest as [|r rest'].
      - simpl concat in *. unfold Py.len in *.
        rewrite !length_app in *. simpl length in *. lia.
      - pose proof (Hfull ltac:(discriminate)) as Hf. unfold Py.len in *. lia. }
    replace (Z.to_nat (Z.of_nat a * batch_size))
      with (length acc) by (unfold Py.len in Hacc; lia).
    rewrite drop_app_length.
    replace (Z.to_nat (Z.of_nat a * batch_size + Py.len bl
                       - Z.of_nat a * batch_size))
      with (length bl) by (unfold Py.len; lia).
    apply take_app_length.
  - destruct rest as [|r rest']; [constructor|].
    replace (acc ++ bl ++ concat (r :: rest'))
      with ((acc ++ bl) ++ concat (r :: rest'))
      by (rewrite <- app_assoc; reflexivity).
    apply IH; [|exact Hrest].
    pose proof (Hfull ltac:(discriminate)) as Hf.
    unfold Py.len in *. rewrite length_app, Nat2Z.inj_succ. lia.
Qed.

Lemma get_embeddings_batch_run (self : VectorStore) :
  exists (self' : VectorStore) (embeddings : list (list float))
         (indices : list Z) (blocks : list (list (list float))),
    get_embeddings_batch self texts batch_size = (self', Return embeddings)
    /\ vs_collection self' = vs_collection self
    /\ length embeddings = length texts
    /\ Py.range0 (Py.len texts) batch_size = Return indices
    /\ batch_run texts batch_size (vs_client self) indices blocks
                 (vs_client self')
    /\ embeddings = concat blocks
    /\ Forall2 (fun i block =>
                  Py.slice embeddings i (i + batch_size) = block)
               indices blocks.
Proof.
  destruct (get_embeddings_batch_returns self)
    as (self' & embeddings & Hrun & Hcoll & Hlen & _).
  pose proof Hrun as Hrun'. unfold get_embeddings_batch in Hrun'.
  rewrite range0_positive in Hrun' by exact batch_size_pos.
  set (m := Z.to_nat ((Py.len texts + batch_size - 1) / batch_size)) in *.
  set (indices := map (fun k => Z.of_nat k * batch_size) (seq 0 m)) in *.
  destruct (embed_batches_run indices (vs_client self) [])
    as (blocks & c' & Hloop & Hcalls & Hslots).
  rewrite Hloop in Hrun'. simpl in Hrun'. injection Hrun' as <- <-.
  exists (set_client self c'), (concat blocks), indices, blocks.
  split; [exact Hrun|]. split; [reflexivity|]. split; [exact Hlen|].
  split; [apply range0_positive, batch_size_pos|].
  split; [exact Hcalls|]. split; [reflexivity|].
  assert (length blocks = m) as Hm.
  { apply Forall2_length in Hslots. subst indices.
    rewrite length_map, length_seq in Hslots. lia. }
  pose proof (concat_block_slices (Py.len texts) blocks 0 []) as H.
  rewrite Hm in H. simpl app in H. apply H; [reflexivity|].
  fold indices.
  pose proof (range0_indices_inside (Py.len texts) batch_size indices
                (len_nonneg texts) batch_size_pos
                (range0_positive _ _ batch_size_pos)) as Hin.
  clear - Hslots Hin batch_size_pos.
  induction Hslots as [|i bl indices blocks Hbl _ IH]; [constructor|].
  inversion Hin as [|? ? Hi Hin']; subst.
  constructor; [|exact (IH Hin')].
  split; [lia|].
  pose proof (len_slice texts i (i + batch_size) ltac:(lia) ltac:(lia)) as Hs.
  unfold Py.len in *. lia.
Qed.

End EmbeddingFacts.

(** C5, as stated, fails on the batch sizes that are not positive: with a
    negative batch size the range of the loop is empty and the result is
    the empty list whatever the input; with batch size zero [range] raises
    [ValueError]. *)
Lemma batch_size_counterexample :
  (get_embeddings_batch (Demo.store Demo.accepting [] []) [Py.lit "a"] (-1)).2
  = Return []
  /\ (get_embeddings_batch (Demo.store Demo.accepting [] []) [Py.lit "a"] 0).2
     = Raise ValueError.
Proof. split; reflexivity. Qed.

(** C5, amended. For every list of texts and every batch size of at least
    one, with a provider that answers a successful call with one vector per
    input, [get_embeddings_batch] returns a list of the length of its input.
    The list is made of one block per batch of the range, in the order of
    the batches; the blocks are those of the calls actually made, one call
    per batch on the client state the call before left: the answer of the
    provider when the call succeeded, one empty vector per text of the
    batch when it failed.  Each block sits at the positions of its batch:
    the slots [i .. i + batch_size - 1] of the result for the batch that
    starts at [i]. *)
Theorem get_embeddings_batch_same_length
    `{FL : Floats} `{OA : !OpenAI} `{CH : !Chroma}
    (self : VectorStore) (texts : list Py.str) (batch_size : Z) :
  embeddings_one_per_input ->
  1 <= batch_size ->
  exists (self' : VectorStore) (embeddings : list (list float))
         (indices : list Z) (blocks : list (list (list float))),
    get_embeddings_batch self texts batch_size = (self', Return embeddings)
    /\ length embeddings = length texts
    /\ Py.range0 (Py.len texts) batch_size = Return indices
    /\ batch_run texts batch_size (vs_client self) indices blocks
                 (vs_client self')
    /\ embeddings = concat blocks
    /\ Forall2 (fun i block =>
                  Py.slice embeddings i (i + batch_size) = block)
               indices blocks.
Proof.
  intros Hp Hb.
  destruct (get_embeddings_batch_run texts batch_size Hp Hb self)
    as (self' & embeddings & indices & blocks
        & H1 & _ & H2 & H3 & H4 & H5 & H6).
  exists self', embeddings, indices, blocks. auto 10.
Qed.

Lemma scripted_one_per_input :
  @embeddings_one_per_input Demo.milli Demo.scripted.
Proof.
  intros c c' texts vs. simpl. unfold Demo.scripted_embeddings.
  destruct c as [|[|] c]; intros [= <- <-]; unfold Demo.length_vectors;
    apply length_map.
Qed.

Lemma get_embeddings_batch_same_length_witness :
  exists self' embeddings,
    get_embeddings_batch (Demo.store Demo.accepting [false; true] [])
      [Py.lit "a"; Py.lit "bb"; Py.lit "ccc"] 2 = (self', Return embeddings)
    /\ length embeddings = 3%nat
    /\ Py.slice embeddings 0 2 = [[]; []].
Proof.
  destruct (get_embeddings_batch_same_length
              (Demo.store Demo.accepting [false; true] [])
              [Py.lit "a"; Py.lit "bb"; Py.lit "ccc"] 2
              scripted_one_per_input ltac:(lia))
    as (self' & embeddings & indices & blocks & H1 & H2 & H3 & H4 & _ & H6).
  exists self', embeddings. split; [exact H1|]. split; [exact H2|].
  injection H3 as <-.
  inversion H4 as [|? ? ? ? ? ? ? E _|? ? ? ? ? ? E _]; subst.
  - discriminate E.
  - inversion H6 as [|? ? ? ? Hslice _]; subst. exact Hslice.
Defined.

(** The same run, evaluated: the first batch failed, its two slots hold the
    empty vector; the second batch kept its place. *)
Example get_embeddings_batch_partial_failure :
  (get_embeddings_batch (Demo.store Demo.accepting [false; true] [])
     [Py.lit "a"; Py.lit "bb"; Py.lit "ccc"] 2).2
  = Return [[]; []; [3]].
Proof. reflexivity. Qed.

(** ** The write path *)

Section WriteFacts.
Context `{FL : Floats} `{OA : !OpenAI} `{CH : !Chroma}.

(** When the embedding call of a one-item write fails, [add_documents] hands
    the item to [collection.add] with the empty vector as its embedding. *)
Lemma add_documents_forwards_sentinel (self : VectorStore) (doc : IndexedItem)
    (c' : client) :
  embeddings_create (vs_client self) [item_text doc] = (c', None) ->
  (add_documents self [doc] 100).1
  = {| vs_client := c';
       vs_collection :=
         match coll_add (vs_collection self) [item_id doc] [item_text doc]
                        [[]] [item_metadata doc] with
         | Some coll => coll
         | None => vs_collection self
         end |}.
Proof.
  intros E. unfold add_documents, get_embeddings_batch. simpl.
  change (Z.of_nat 0 * 100) with 0. change (0 + 100) with 100.
  change (Py.slice [item_text doc] 0 100) with [item_text doc].
  rewrite E. simpl.
  change (Py.slice [item_id doc] 0 100) with [item_id doc].
  change (Py.slice [item_metadata doc] 0 100) with [item_metadata doc].
  change (Py.slice [@nil float] 0 100) with [@nil float].
  unfold set_collection. simpl.
  destruct (coll_add _ _ _ _ _); reflexivity.
Qed.

End WriteFacts.

(** C1. The claim is that an item whose embedding came back as the empty
    vector is left out of the write. [add_documents] has no such filter: the
    empty vector is handed to [collection.add] with the item. On an index
    that accepts what it is given, the item is stored with the empty vector;
    on an index that refuses such a write, the refusal ends the loop and the
    later batch, whose embeddings are valid, is never written. *)
Theorem add_documents_writes_sentinel :
  (get_embeddings_batch (Demo.store Demo.accepting [false] [])
     [Py.lit "hello"] 100).2 = Return [[]]
  /\ map (fun r : Demo.row => (r.1.1.1, r.1.2))
         (vs_collection
            (add_documents (Demo.store Demo.accepting [false] [])
               [Demo.item "a_chunk_0" "hello" "a.docx"] 100).1)
     = [(Py.lit "a_chunk_0", [])]
  /\ map (fun r : Demo.row => (r.1.1.1, r.1.2))
         (vs_collection
            (add_documents (Demo.store Demo.validating [true; false; true] [])
               [Demo.item "a_chunk_0" "hello" "a.docx";
                Demo.item "a_chunk_1" "hello" "a.docx";
                Demo.item "a_chunk_2" "hello" "a.docx"] 1).1)
     = [(Py.lit "a_chunk_0", [5])].
Proof. repeat split; vm_compute; reflexivity. Qed.

(** ** The read path *)

Lemma slice_take {A : Type} (l : list A) (k : Z) :
  0 <= k -> Py.slice l 0 k = take (Z.to_nat k) l.
Proof.
  intros Hk. unfold Py.slice. pose proof (len_nonneg l) as Hn.
  rewrite (clamp_index_inside _ 0) by lia.
  change (Z.to_nat 0) with 0%nat. rewrite drop_0, Z.sub_0_r.
  unfold Py.clamp_index. destruct (k <? 0) eqn:E; [lia|].
  destruct (Z.le_gt_cases k (Py.len l)) as [H|H].
  - rewrite Z.min_l by lia. reflexivity.
  - rewrite Z.min_r by lia. unfold Py.len in *. rewrite Nat2Z.id.
    rewrite (take_ge l (length l)) by lia.
    rewrite (take_ge l (Z.to_nat k)) by lia. reflexivity.
Qed.

Section ReadFacts.
Context `{FL : Floats} `{OA : !OpenAI} `{CH : !Chroma}.

Lemma get_embedding_collection (self : VectorStore) (q : Py.str) :
  vs_collection (get_embedding self q).1 = vs_collection self.
Proof.
  unfold get_embedding. destruct (embeddings_create _ _) as [c r]. reflexivity.
Qed.

(** When the embedding of the query is empty, or the collection raises,
    [search] gives the three empty lists. *)
Lemma search_failure (self : VectorStore) (q : Py.str) (n : Z) :
  (get_embedding self q).2 = []
  \/ coll_query (vs_collection self) (get_embedding self q).2 n = None ->
  (search self q n).2 = empty_result.
Proof.
  intros H. unfold search.
  pose proof (get_embedding_collection self q) as Hc.
  destruct (get_embedding self q) as [self1 e]. simpl in *.
  destruct e as [|x e]; [reflexivity|]. simpl.
  destruct H as [H|H]; [discriminate H|].
  rewrite Hc, H. reflexivity.
Qed.

Lemma format_results_aligned (results : SearchResult) (docs : list Py.str) :
  forall (i : nat) (acc : list RetrievedDoc),
    (i + length docs <= length (metadatas results))%nat ->
    (i + length docs <= length (distances results))%nat ->
    exists out : list RetrievedDoc,
      format_results i docs results acc = Return out
      /\ length out = (length acc + length docs)%nat.
Proof.
  induction docs as [|doc rest IH]; intros i acc Hm Hd; simpl in *.
  - exists acc. split; [reflexivity|lia].
  - unfold getitem.
    destruct (lookup_lt_is_Some_2 (metadatas results) i ltac:(lia)) as [m ->].
    destruct (lookup_lt_is_Some_2 (distances results) i ltac:(lia)) as [d ->].
    simpl.
    destruct (IH (S i) (acc ++ [{| doc_text := doc; doc_metadata := m;
                                   doc_score := one_minus d |}])
                 ltac:(lia) ltac:(lia)) as (out & -> & Hlen).
    exists out. split; [reflexivity|]. rewrite Hlen, length_app. simpl. lia.
Qed.

(** The loop over the results has no fuel: it returns or raises. *)
Lemma format_results_finishes (results : SearchResult) (docs : list Py.str) :
  forall (i : nat) (acc : list RetrievedDoc),
    format_results i docs results acc <> OutOfFuel.
Proof.
  induction docs as [|doc rest IH]; intros i acc; simpl; [discriminate|].
  unfold getitem. destruct (metadatas results !! i); simpl; [|discriminate].
  destruct (distances results !! i); simpl; [|discriminate]. apply IH.
Qed.

Lemma search_aligned (self : VectorStore) (q : Py.str) (n : Z) :
  query_rows_aligned ->
  length (documents (search self q n).2) = length (metadatas (search self q n).2)
  /\ length (metadatas (search self q n).2) = length (distances (search self q n).2).
Proof.
  intros Hq. unfold search.
  destruct (get_embedding self q) as [self1 e].
  destruct e as [|x e]; simpl; [split; reflexivity|].
  destruct (coll_query (vs_collection self1) (x :: e) n) as [r|] eqn:E; simpl;
    [|split; reflexivity].
  destruct (Hq _ _ _ _ E) as (ds & ms & xs & ds' & ms' & xs' & -> & -> & -> & H1 & H2).
  simpl. split; assumption.
Qed.

End ReadFacts.

(** C6. Retrieval gives the empty sequence, and no error, when the collection
    is empty or when the query could not be embedded. The collection is a
    collaborator: that it answers a query with no document when it holds no
    item is its contract. *)
Theorem retrieve_degrades_to_empty
    `{FL : Floats} `{OA : !OpenAI} `{CH : !Chroma}
    (self : RAGEngine) (q : Py.str) (top_k : Z) :
  empty_collection_answers_nothing ->
  get_collection_count (vector_store self) = 0
  \/ (get_embedding (vector_store self) q).2 = [] ->
  (retrieve_relevant_documents self q top_k).2 = Return [].
Proof.
  intros Hlaw H. unfold retrieve_relevant_documents.
  destruct (search (vector_store self) q top_k) as [vs results] eqn:E.
  simpl. assert (documents results = []) as ->; [|reflexivity].
  change results with (vs, results).2. rewrite <- E. clear E.
  unfold search.
  pose proof (get_embedding_collection (vector_store self) q) as Hc.
  destruct (get_embedding (vector_store self) q) as [self1 e]. simpl in *.
  destruct e as [|x e]; [reflexivity|]. simpl.
  destruct H as [H|H]; [|discriminate H].
  destruct (coll_query (vs_collection self1) (x :: e) top_k) as [r|] eqn:Eq;
    [|reflexivity].
  simpl. apply (Hlaw (vs_collection self1) (x :: e) top_k r); [|exact Eq].
  rewrite Hc. exact H.
Qed.

Lemma accepting_empty_answers_nothing :
  @empty_collection_answers_nothing Demo.milli Demo.accepting.
Proof.
  intros c e n r Hc Hq. simpl in *.
  unfold Demo.count_rows, Py.len in Hc. destruct c as [|x c]; [|simpl in Hc; lia].
  unfold Demo.answer_query in Hq. injection Hq as <-.
  unfold Demo.answer_rows. simpl. rewrite take_nil. reflexivity.
Qed.

Lemma retrieve_degrades_to_empty_witness :
  (retrieve_relevant_documents (Demo.engine Demo.accepting [] []) (Py.lit "q") 5).2
  = Return []
  /\ (retrieve_relevant_documents
        (Demo.engine Demo.accepting [false] Demo.five_rows) (Py.lit "q") 5).2
     = Return [].
Proof.
  split.
  - apply (retrieve_degrades_to_empty (Demo.engine Demo.accepting [] [])
             (Py.lit "q") 5 accepting_empty_answers_nothing).
    left. reflexivity.
  - apply (retrieve_degrades_to_empty
             (Demo.engine Demo.accepting [false] Demo.five_rows)
             (Py.lit "q") 5 accepting_empty_answers_nothing).
    right. reflexivity.
Defined.

(** C10. The three lists returned by [search] have the same length, and
    are all empty when the query could not be embedded or the collection
    raised; so the positional indexing of the retriever stays in range and
    retrieval returns one result per document. That the rows answered by the
    collection are aligned is the contract of that collaborator. *)
Theorem search_lists_same_length
    `{FL : Floats} `{OA : !OpenAI} `{CH : !Chroma}
    (self : RAGEngine) (q : Py.str) (n : Z) :
  query_rows_aligned ->
  let r := (search (vector_store self) q n).2 in
  (length (documents r) = length (metadatas r)
   /\ length (metadatas r) = length (distances r))
  /\ ((get_embedding (vector_store self) q).2 = []
      \/ coll_query (vs_collection (vector_store self))
           (get_embedding (vector_store self) q).2 n = None ->
      r = empty_result)
  /\ exists docs : list RetrievedDoc,
       (retrieve_relevant_documents self q n).2 = Return docs
       /\ length docs = length (documents r).
Proof.
  intros Hq r.
  destruct (search_aligned (vector_store self) q n Hq) as [H1 H2].
  fold r in H1, H2. split; [split; assumption|]. split.
  - apply search_failure.
  - unfold retrieve_relevant_documents. subst r.
    destruct (search (vector_store self) q n) as [vs results]. simpl in *.
    destruct (format_results_aligned results (documents results) 0 [])
      as (out & Hout & Hlen); [simpl; lia..|].
    exists out. split; [exact Hout|]. rewrite Hlen. reflexivity.
Qed.

Lemma accepting_rows_aligned : @query_rows_aligned Demo.milli Demo.accepting.
Proof.
  intros c e n r Hq. simpl in Hq. unfold Demo.answer_query in Hq.
  injection Hq as <-. unfold Demo.answer_rows.
  eexists _, _, _, _, _, _. simpl.
  split; [reflexivity|]. split; [reflexivity|]. split; [reflexivity|].
  rewrite !length_map. split; reflexivity.
Qed.

Lemma search_lists_same_length_witness :
  exists docs,
    (retrieve_relevant_documents
       (Demo.engine Demo.accepting [] Demo.five_rows) (Py.lit "q") 4).2
    = Return docs
    /\ length docs = 4%nat.
Proof.
  destruct (search_lists_same_length
              (Demo.engine Demo.accepting [] Demo.five_rows) (Py.lit "q") 4
              accepting_rows_aligned) as (_ & _ & docs & H1 & H2).
  exists docs. split; [exact H1|]. rewrite H2. reflexivity.
Defined.

(** Without the contract of the collection the indexing does go out of
    range: an answer without metadata rows makes the retriever raise. *)
Example retrieve_on_ragged_answer :
  (retrieve_relevant_documents
     (Demo.engine Demo.ragged [] Demo.five_rows) (Py.lit "q") 4).2
  = Raise IndexError.
Proof. reflexivity. Qed.

(** ** The answer of the pipeline *)

(** C9. The response of [query] holds at most three retrieved documents:
    the first three of those that were retrieved and used for the answer.
    [query] returns unless the retrieval itself raised. *)
Theorem query_keeps_three_documents
    `{FL : Floats} `{OA : !OpenAI} `{CH : !Chroma}
    (self : RAGEngine) (q : Py.str) (top_k max_tokens : Z) :
  match (query self q top_k max_tokens).2 with
  | Return r =>
      (length (retrieved_docs r) <= 3)%nat
      /\ exists docs : list RetrievedDoc,
           (retrieve_relevant_documents self q top_k).2 = Return docs
           /\ retrieved_docs r = take 3 docs
  | Raise e => (retrieve_relevant_documents self q top_k).2 = Raise e
  | OutOfFuel => False
  end.
Proof.
  unfold query.
  destruct (retrieve_relevant_documents self q top_k) as [self1 [docs|e|]] eqn:E.
  - destruct docs as [|d docs]; simpl.
    + split; [lia|]. exists []. split; reflexivity.
    + destruct (generate_answer self1 q (d :: docs) max_tokens) as [self2 result].
      simpl. rewrite slice_take by lia. split.
      * rewrite length_take. lia.
      * exists (d :: docs). split; reflexivity.
  - reflexivity.
  - simpl. unfold retrieve_relevant_documents in E.
    destruct (search (vector_store self) q top_k) as [vs results].
    injection E as _ E. exact (format_results_finishes _ _ _ _ E).
Qed.

(** A run with [top_k = 5]: five documents are retrieved, three are
    returned. *)
Example query_five_retrieved_three_returned :
  omap (fun r => length (retrieved_docs r))
       (query (Demo.engine Demo.accepting [] Demo.five_rows) (Py.lit "q") 5 1000).2
  = Return 3%nat
  /\ omap length
          (retrieve_relevant_documents
             (Demo.engine Demo.accepting [] Demo.five_rows) (Py.lit "q") 5).2
     = Return 5%nat.
Proof. split; vm_compute; reflexivity. Qed.

(** *** Citations *)

Section DedupFacts.
Context {A : Type} `{EqDecision A}.

Lemma elem_of_dedup_first (l : list A) (x : A) : x ∈ dedup_first l <-> x ∈ l.
Proof.
  induction l as [|a l IH]; simpl; [reflexivity|].
  rewrite !elem_of_cons, list_elem_of_filter, IH.
  destruct (decide (x = a)); tauto.
Qed.

Lemma NoDup_dedup_first (l : list A) : NoDup (dedup_first l).
Proof.
  induction l as [|a l IH]; simpl; [constructor|].
  apply NoDup_cons. split.
  - rewrite list_elem_of_filter. intros [H _]. apply H. reflexivity.
  - apply NoDup_filter, IH.
Qed.

End DedupFacts.

Section CitationFacts.
Context `{FL : Floats} `{OA : !OpenAI} `{CH : !Chroma}.

(** The loop that builds [sources] removes duplicates and keeps the
    first occurrences, over all the documents it is given. *)
Lemma collect_sources_spec (docs : list RetrievedDoc) :
  forall acc : list SourceInfo,
    collect_sources docs acc
    = acc ++ filter (fun x => x ∉ acc) (dedup_first (map source_info docs)).
Proof.
  induction docs as [|d rest IH]; intros acc; simpl.
  - rewrite app_nil_r. reflexivity.
  - destruct (decide (source_info d ∈ acc)) as [Hin|Hout].
    + rewrite IH. f_equal.
      rewrite filter_cons_False by (intros H; apply H, Hin).
      rewrite list_filter_filter_l; [reflexivity|].
      intros x Hx ->. apply Hx, Hin.
    + rewrite IH, <- app_assoc. simpl. f_equal.
      rewrite filter_cons_True by exact Hout. f_equal.
      rewrite list_filter_filter. apply list_filter_iff.
      intros x. rewrite elem_of_app, list_elem_of_singleton. tauto.
Qed.

Lemma collect_sources_dedup (docs : list RetrievedDoc) :
  collect_sources docs [] = dedup_first (map source_info docs).
Proof.
  rewrite collect_sources_spec. simpl.
  induction (dedup_first (map source_info docs)) as [|x l IH]; [reflexivity|].
  rewrite filter_cons_True by apply not_elem_of_nil. f_equal. exact IH.
Qed.

End CitationFacts.

(** C2, as stated, fails: of two results of 3000 characters, only the block
    of the first fits the budget of 4000 characters, yet the citation list
    names both files; the second citation belongs to no result that went
    into the context. *)
Lemma citations_counterexample :
  folded_documents Demo.two_long_results default_max_length
  = take 1 Demo.two_long_results
  /\ map src_file_name
         (sources (generate_answer (Demo.engine Demo.accepting [] [])
                     (Py.lit "q") Demo.two_long_results 1000).2)
     = [VStr (Py.lit "a.docx"); VStr (Py.lit "b.docx")]
  /\ exists s,
       s ∈ sources (generate_answer (Demo.engine Demo.accepting [] [])
                      (Py.lit "q") Demo.two_long_results 1000).2
       /\ forall d,
            d ∈ folded_documents Demo.two_long_results default_max_length ->
            source_info d <> s.
Proof.
  assert (folded_documents Demo.two_long_results default_max_length
          = take 1 Demo.two_long_results) as Hf.
  { unfold folded_documents.
    assert (length (context_parts_of Demo.two_long_results default_max_length)
            = 1%nat) as -> by (vm_compute; reflexivity).
    reflexivity. }
  split; [exact Hf|]. split; [vm_compute; reflexivity|].
  exists (source_info (Demo.retrieved "b.docx" (Py.repeat_char 98 3000) 500)).
  split.
  - change (sources _) with
      (collect_sources Demo.two_long_results []).
    rewrite collect_sources_dedup. apply elem_of_dedup_first.
    unfold Demo.two_long_results. simpl map.
    apply elem_of_cons. right. apply elem_of_cons. left. reflexivity.
  - intros d Hd. rewrite Hf in Hd. unfold Demo.two_long_results in Hd.
    simpl in Hd. apply list_elem_of_singleton in Hd. subst d.
    intros H. apply (f_equal src_file_name) in H.
    vm_compute in H. discriminate H.
Qed.

(** C2, amended. When the generation call succeeds, the citation list holds
    one entry for every supplied result, whether or not the block of that
    result fitted the character budget of the context; entries are
    deduplicated by (file name, type, rounded score) and kept in first-seen
    order. *)
Theorem sources_cite_every_result
    `{FL : Floats} `{OA : !OpenAI} `{CH : !Chroma}
    (self : RAGEngine) (q : Py.str) (docs : list RetrievedDoc)
    (max_tokens : Z) (c : client) (content : Py.str) :
  chat_completions_create (openai_client self) system_prompt
    (user_prompt (_build_context docs default_max_length) q) max_tokens
  = (c, Some content) ->
  let cited := sources (generate_answer self q docs max_tokens).2 in
  cited = dedup_first (map source_info docs)
  /\ NoDup cited
  /\ (forall d, d ∈ docs -> source_info d ∈ cited)
  /\ (forall s, s ∈ cited -> exists d, d ∈ docs /\ s = source_info d).
Proof.
  intros Hgen cited.
  assert (cited = dedup_first (map source_info docs)) as Hc.
  { subst cited. unfold generate_answer. rewrite Hgen. simpl.
    apply collect_sources_dedup. }
  split; [exact Hc|]. rewrite Hc. split; [apply NoDup_dedup_first|]. split.
  - intros d Hd. apply elem_of_dedup_first, list_elem_of_In, in_map,
      list_elem_of_In, Hd.
  - intros s Hs. apply elem_of_dedup_first, list_elem_of_In, in_map_iff in Hs.
    destruct Hs as (d & <- & Hd). exists d. split; [|reflexivity].
    apply list_elem_of_In, Hd.
Qed.

Lemma sources_cite_every_result_witness :
  source_info (Demo.retrieved "b.docx" (Py.repeat_char 98 3000) 500)
  ∈ sources (generate_answer (Demo.engine Demo.accepting [] [])
               (Py.lit "q") Demo.two_long_results 1000).2.
Proof.
  refine (proj1 (proj2 (proj2
            (sources_cite_every_result (Demo.engine Demo.accepting [] [])
               (Py.lit "q") Demo.two_long_results 1000 [] (Py.lit "ok") _))) _ _).
  - reflexivity.
  - unfold Demo.two_long_results.
    apply elem_of_cons. right. apply elem_of_cons. left. reflexivity.
Defined.

(** ** The ids of the text items *)

Lemma process_documents_batch_same_chunks (self : DocumentProcessor)
    (files1 files2 : list ParsedDocx) :
  Forall2 (fun f1 f2 => p_file_name f1 = p_file_name f2
                        /\ p_text f1 = p_text f2) files1 files2 ->
  forall (fuel1 fuel2 : nat) (docs1 docs2 : list ProcessedDoc),
    process_documents_batch fuel1 self files1 = Return docs1 ->
    process_documents_batch fuel2 self files2 = Return docs2 ->
    Forall2 (fun d1 d2 => file_name d1 = file_name d2
                          /\ chunks d1 = chunks d2) docs1 docs2.
Proof.
  induction 1 as [|f1 f2 files1 files2 [Hname Htext] _ IH];
    intros fuel1 fuel2 docs1 docs2; simpl.
  - intros [= <-] [= <-]. constructor.
  - unfold process_document. rewrite Htext.
    destruct (chunk_text fuel1 self (p_text f2)) as [cs1|e1|] eqn:E1;
      simpl; try discriminate;
      [|exfalso; exact (chunk_text_never_raises self _ _ _ E1)].
    destruct (chunk_text fuel2 self (p_text f2)) as [cs2|e2|] eqn:E2;
      simpl; try (intros _; discriminate);
      [|exfalso; exact (chunk_text_never_raises self _ _ _ E2)].
    destruct (process_documents_batch fuel1 self files1) as [ds1| |] eqn:P1;
      simpl; try discriminate.
    destruct (process_documents_batch fuel2 self files2) as [ds2| |] eqn:P2;
      simpl; try (intros _; discriminate).
    intros [= <-] [= <-]. constructor.
    + simpl. split; [exact Hname|].
      exact (chunk_text_fuel_irrelevant self _ _ _ _ _ E1 E2).
    + exact (IH fuel1 fuel2 ds1 ds2 P1 P2).
Qed.

Section IndexFacts.
Context `{FL : Floats} `{OA : !OpenAI} `{CH : !Chroma}.

Lemma append_chunk_items_ids (doc : ProcessedDoc) (cs : list Py.str) :
  forall (i : nat) (acc : list IndexedItem),
    map item_id (append_chunk_items doc i cs acc)
    = map item_id acc ++ map (doc_id (file_name doc)) (seq i (length cs)).
Proof.
  induction cs as [|chunk rest IH]; intros i acc; simpl.
  - rewrite app_nil_r. reflexivity.
  - rewrite IH, map_app, <- app_assoc. reflexivity.
Qed.

(** The ids of the text items: for each document in turn, one id per chunk
    ordinal, built from the stem of the file name and the ordinal. *)
Lemma append_text_documents_ids (docs : list ProcessedDoc) :
  forall acc : list IndexedItem,
    map item_id (append_text_documents docs acc)
    = map item_id acc
      ++ flat_map (fun d => map (doc_id (file_name d)) (seq 0 (length (chunks d))))
           docs.
Proof.
  induction docs as [|d rest IH]; intros acc; simpl.
  - rewrite app_nil_r. reflexivity.
  - rewrite IH, append_chunk_items_ids, <- app_assoc. reflexivity.
Qed.

Lemma build_text_documents_ids (docs : list ProcessedDoc) :
  map item_id (build_text_documents docs)
  = flat_map (fun d => map (doc_id (file_name d)) (seq 0 (length (chunks d))))
      docs.
Proof. unfold build_text_documents. apply append_text_documents_ids. Qed.

(** The ids depend on the stems of the file names and on the numbers of
    chunks only. *)
Lemma text_ids_from_stems (docs1 docs2 : list ProcessedDoc) :
  Forall2 (fun d1 d2 => stem (file_name d1) = stem (file_name d2)
                        /\ length (chunks d1) = length (chunks d2)) docs1 docs2 ->
  map item_id (build_text_documents docs1)
  = map item_id (build_text_documents docs2).
Proof.
  intros H. rewrite !build_text_documents_ids.
  induction H as [|d1 d2 docs1 docs2 [Hs Hl] _ IH]; simpl; [reflexivity|].
  rewrite IH, Hl. f_equal. apply map_ext. intros i. unfold doc_id.
  rewrite Hs. reflexivity.
Qed.

End IndexFacts.

(** *** Indexing again *)

Lemma elem_of_slice {A : Type} (s : list A) (i j : Z) (x : A) :
  x ∈ Py.slice s i j -> x ∈ s.
Proof.
  destruct (slice_infix s i j) as (pre & post & H). intros Hx.
  rewrite H, !elem_of_app. right. left. exact Hx.
Qed.

Section ReindexFacts.
Context `{FL : Floats} `{OA : !OpenAI} `{CH : !Chroma}.
Variable ids_of : collection -> gset Py.str.
Hypothesis keyed : keyed_by_id ids_of.

(** Writing ids that the collection holds already leaves the ids it
    holds as they are, whether the writes succeed or not. *)
Lemma add_batches_known_ids (ids texts : list Py.str)
    (embeddings : list (list float)) (metas : list Metadata)
    (batch_size : Z) (indices : list Z) :
  forall coll : collection,
    list_to_set ids ⊆ ids_of coll ->
    ids_of (add_batches coll ids texts embeddings metas batch_size indices)
    = ids_of coll.
Proof.
  induction indices as [|i rest IH]; intros coll Hsub; simpl; [reflexivity|].
  destruct (coll_add coll _ _ _ _) as [coll'|] eqn:E; [|reflexivity].
  assert (ids_of coll' = ids_of coll) as Hsame.
  { rewrite (proj1 keyed _ _ _ _ _ _ E).
    rewrite (comm_L (∪)). apply subseteq_union_1_L. intros x Hx.
    apply Hsub. apply elem_of_list_to_set.
    apply elem_of_list_to_set in Hx. exact (elem_of_slice _ _ _ _ Hx). }
  rewrite IH; [exact Hsame|]. rewrite Hsame. exact Hsub.
Qed.

Lemma get_embeddings_batch_collection (self : VectorStore)
    (texts : list Py.str) (batch_size : Z) :
  vs_collection (get_embeddings_batch self texts batch_size).1
  = vs_collection self.
Proof.
  unfold get_embeddings_batch.
  destruct (Py.range0 (Py.len texts) batch_size); try reflexivity.
  destruct (embed_batches _ _ _ _ _). reflexivity.
Qed.

Lemma add_documents_known_ids (self : VectorStore) (docs : list IndexedItem)
    (batch_size : Z) :
  list_to_set (map item_id docs) ⊆ ids_of (vs_collection self) ->
  ids_of (vs_collection (add_documents self docs batch_size).1)
  = ids_of (vs_collection self).
Proof.
  intros Hsub. unfold add_documents.
  destruct (negb (Py.truthy docs)); [reflexivity|].
  pose proof (get_embeddings_batch_collection self (map item_text docs)
                batch_size) as Hcoll.
  destruct (get_embeddings_batch self (map item_text docs) batch_size)
    as [self1 [embeddings|e|]]; simpl in Hcoll; simpl;
    try (rewrite Hcoll; reflexivity).
  destruct (Py.range0 (Py.len docs) batch_size); simpl;
    try (rewrite Hcoll; reflexivity).
  rewrite add_batches_known_ids; rewrite Hcoll; [reflexivity|exact Hsub].
Qed.

End ReindexFacts.


Lemma keyed_is_keyed_by_id :
  @keyed_by_id Demo.milli Demo.keyed (fun c : Demo.keyed_rows => dom c).
Proof.
  split.
  - intros c c' ids texts embeddings metas. simpl. unfold Demo.keyed_add.
    destruct (_ && _) eqn:E; [|discriminate]. intros [= <-].
    apply andb_true_iff in E as [E Hm]. apply andb_true_iff in E as [Ht He].
    apply Nat.eqb_eq in Ht, He, Hm.
    unfold Demo.keyed_rows in *.
    rewrite dom_union_L, dom_list_to_map_L, fst_zip; [reflexivity|].
    rewrite !length_zip. lia.
  - intros c. simpl. unfold Demo.keyed_count, Demo.keyed_rows in *.
    rewrite size_dom. reflexivity.
Qed.


(** On a collection that is not keyed by id, a list that appends what it
    is given, the second run doubles the rows. *)
Example reindexing_on_a_list_collection :
  let bot := @Build_RAGChatbot Demo.milli Demo.scripted Demo.accepting
               {| chunk_size := 8; chunk_overlap := 1 |}
               (Demo.store Demo.accepting [] []) [] in
  let files := [Demo.parsed "report.v2.docx" (Py.lit "first. second")] in
  omap (fun r : @VectorStore Demo.milli Demo.scripted Demo.accepting
                * list IndexedItem =>
          @coll_count Demo.milli Demo.accepting (vs_collection r.1))
       (index_text_chunks 2 bot files) = Return 2
  /\ omap (fun r : @VectorStore Demo.milli Demo.scripted Demo.accepting
                   * list IndexedItem =>
             @coll_count Demo.milli Demo.accepting (vs_collection r.1))
          (do r <- index_text_chunks 2 bot files ;
           index_text_chunks 2
             (@Build_RAGChatbot Demo.milli Demo.scripted Demo.accepting
                {| chunk_size := 8; chunk_overlap := 1 |} r.1 []) files)
     = Return 4.
Proof. split; vm_compute; reflexivity. Qed.


(** * Further properties of the sources *)

(** ** Stripped strings *)

Section StripFacts.

Lemma lstrip_head (s : Py.str) (c : N) :
  head (Py.lstrip s) = Some c -> Py.isspace c = false.
Proof.
  induction s as [|x s IH]; simpl; [discriminate|].
  destruct (Py.isspace x) eqn:E; [exact IH|].
  simpl. intros [= <-]. exact E.
Qed.

Lemma lstrip_suffix (s : Py.str) : exists pre, s = pre ++ Py.lstrip s.
Proof.
  induction s as [|x s [pre IH]]; simpl.
  - exists []. reflexivity.
  - destruct (Py.isspace x).
    + exists (x :: pre). simpl. f_equal. exact IH.
    + exists []. reflexivity.
Qed.

Lemma lstrip_keeps_last (u : Py.str) (c : N) :
  Py.isspace c = false -> exists w, Py.lstrip (u ++ [c]) = w ++ [c].
Proof.
  intros Hc. induction u as [|x u [w IH]]; simpl.
  - rewrite Hc. exists []. reflexivity.
  - destruct (Py.isspace x).
    + exists w. exact IH.
    + exists (x :: u). reflexivity.
Qed.

Lemma strip_infix (s : Py.str) : exists pre post, s = pre ++ Py.strip s ++ post.
Proof.
  unfold Py.strip, Py.rstrip.
  destruct (lstrip_suffix s) as [pre Hpre].
  destruct (lstrip_suffix (rev (Py.lstrip s))) as [post Hpost].
  exists pre, (rev post). rewrite Hpre at 1. f_equal.
  rewrite <- rev_app_distr, <- Hpost, rev_involutive. reflexivity.
Qed.

(** A stripped string that is not empty begins and ends with a character
    that is not white space. *)
Lemma strip_head (s : Py.str) (c : N) :
  head (Py.strip s) = Some c -> Py.isspace c = false.
Proof.
  unfold Py.strip, Py.rstrip.
  destruct (Py.lstrip s) as [|x t] eqn:E; [simpl; discriminate|].
  assert (Py.isspace x = false) as Hx by (apply (lstrip_head s); rewrite E; reflexivity).
  destruct (lstrip_keeps_last (rev t) x Hx) as [w Hw].
  simpl rev. rewrite Hw, rev_app_distr. simpl. intros [= <-]. exact Hx.
Qed.

Lemma strip_last (s : Py.str) (c : N) :
  last (Py.strip s) = Some c -> Py.isspace c = false.
Proof.
  unfold Py.strip, Py.rstrip.
  destruct (Py.lstrip (rev (Py.lstrip s))) as [|x t] eqn:E; [simpl; discriminate|].
  simpl rev. rewrite last_snoc. intros [= <-].
  apply (lstrip_head (rev (Py.lstrip s))). rewrite E. reflexivity.
Qed.

Lemma strip_blank (s : Py.str) : has_nonspace s = false -> Py.strip s = [].
Proof.
  intros H. rewrite <- has_nonspace_strip in H.
  destruct (Py.strip s) as [|c t] eqn:E; [reflexivity|].
  assert (Py.isspace c = false) as Hc by (apply (strip_head s); rewrite E; reflexivity).
  simpl in H. rewrite Hc in H. discriminate H.
Qed.

End StripFacts.

(** ** What every chunk satisfies *)

Section ChunkInvariants.
Variables (self : DocumentProcessor) (text : Py.str).

(** A property of the stripped content of every window holds of every chunk
    that is returned. *)
Lemma chunk_loop_forall (P : Py.str -> Prop) :
  (forall start : Z,
     let c := Py.strip (Py.slice text start (window_end self text start)) in
     Py.truthy c = true -> P c) ->
  forall (fuel : nat) (start : Z) (cs out : list Py.str),
    Forall P cs ->
    chunk_loop fuel self text start cs = Return out ->
    Forall P out.
Proof.
  intros HP. induction fuel as [|fuel IH]; intros start cs out Hcs; simpl;
    destruct (start <? Py.len text); try discriminate;
    try (intros [= <-]; exact Hcs).
  apply IH. unfold append_chunk.
  destruct (Py.truthy (Py.strip (Py.slice text start (window_end self text start))))
    eqn:E; [|exact Hcs].
  apply Forall_app. split; [exact Hcs|].
  constructor; [|constructor]. apply HP. exact E.
Qed.

Lemma chunk_text_forall (P : Py.str -> Prop) :
  (forall start : Z,
     let c := Py.strip (Py.slice text start (window_end self text start)) in
     Py.truthy c = true -> P c) ->
  forall (fuel : nat) (out : list Py.str),
    chunk_text fuel self text = Return out -> Forall P out.
Proof.
  intros HP fuel out. unfold chunk_text. destruct (negb (Py.truthy text)).
  - intros [= <-]. constructor.
  - apply chunk_loop_forall; [exact HP|constructor].
Qed.

End ChunkInvariants.

Lemma has_nonspace_app (s t : Py.str) :
  has_nonspace (s ++ t) = has_nonspace s || has_nonspace t.
Proof. unfold has_nonspace. apply existsb_app. Qed.

Lemma has_nonspace_slice (s : Py.str) (i j : Z) :
  has_nonspace s = false -> has_nonspace (Py.slice s i j) = false.
Proof.
  destruct (slice_infix s i j) as (pre & post & H). intros Hs.
  rewrite H in Hs. rewrite !has_nonspace_app in Hs.
  destruct (has_nonspace (Py.slice s i j)); [|reflexivity].
  rewrite orb_true_r in Hs. discriminate Hs.
Qed.

(** X1. Every chunk returned by [chunk_text] is non-empty and neither
    begins nor ends with a white-space character. *)
Theorem chunks_are_stripped (fuel : nat) (self : DocumentProcessor)
    (text : Py.str) (out : list Py.str) :
  chunk_text fuel self text = Return out ->
  Forall (fun c => c <> []
                   /\ (forall x, head c = Some x -> Py.isspace x = false)
                   /\ (forall x, last c = Some x -> Py.isspace x = false)) out.
Proof.
  apply chunk_text_forall. intros start c Hc. split; [|split].
  - intros E. rewrite E in Hc. discriminate Hc.
  - intros x. apply strip_head.
  - intros x. apply strip_last.
Qed.

Lemma chunks_are_stripped_witness :
  Forall (fun c => c <> []
                   /\ (forall x, head c = Some x -> Py.isspace x = false)
                   /\ (forall x, last c = Some x -> Py.isspace x = false))
         [Py.lit "first."; Py.lit "second"].
Proof.
  apply (chunks_are_stripped 2 {| chunk_size := 8; chunk_overlap := 1 |}
           (Py.lit "first. second")).
  vm_compute. reflexivity.
Defined.

(** X3. Every chunk returned by [chunk_text] is a contiguous piece of the
    text. *)
Theorem chunks_are_substrings (fuel : nat) (self : DocumentProcessor)
    (text : Py.str) (out : list Py.str) :
  chunk_text fuel self text = Return out ->
  Forall (fun c => exists pre post, text = pre ++ c ++ post) out.
Proof.
  apply chunk_text_forall. intros start c _. subst c.
  destruct (slice_infix text start (window_end self text start))
    as (pre & post & Hs).
  destruct (strip_infix (Py.slice text start (window_end self text start)))
    as (pre' & post' & Hc).
  exists (pre ++ pre'), (post' ++ post).
  rewrite Hs at 1. rewrite Hc at 1. rewrite <- !app_assoc. reflexivity.
Qed.

Lemma chunks_are_substrings_witness :
  Forall (fun c => exists pre post, Py.lit "first. second" = pre ++ c ++ post)
         [Py.lit "first."; Py.lit "second"].
Proof.
  apply (chunks_are_substrings 2 {| chunk_size := 8; chunk_overlap := 1 |}
           (Py.lit "first. second")).
  vm_compute. reflexivity.
Defined.

(** *** The size of a chunk *)

Lemma rfind_down_range (s sub : Py.str) (lo : Z) (k : nat) :
  Py.rfind_down s sub lo k = -1
  \/ lo <= Py.rfind_down s sub lo k < lo + Z.of_nat k.
Proof.
  induction k as [|k IH]; simpl; [left; reflexivity|].
  destruct (Py.startswith_at s sub (lo + Z.of_nat k)); [right; lia|].
  destruct IH as [IH|IH]; [left; exact IH|right; lia].
Qed.

(** A position found by [rfind] lies inside the searched window, with the
    whole of [sub]. *)
Lemma rfind_found (s sub : Py.str) (start stop : Z) :
  Py.rfind s sub start stop <> -1 ->
  Py.clamp_index (Py.len s) start <= Py.rfind s sub start stop
  /\ Py.rfind s sub start stop + Py.len sub
     <= Py.clamp_index (Py.len s) stop.
Proof.
  unfold Py.rfind. intros H.
  destruct (rfind_down_range s sub (Py.clamp_index (Py.len s) start)
              (Z.to_nat (Py.clamp_index (Py.len s) stop - Py.len sub
                         - Py.clamp_index (Py.len s) start + 1)))
    as [E|E]; [contradiction|]. lia.
Qed.

(** The end of a window after the search for a boundary: the raw end, or a
    position inside the searched window. *)
Lemma snap_to_boundary_range (text : Py.str) (start end_ : Z) (ds : list Py.str) :
  snap_to_boundary text start end_ ds = end_
  \/ Py.clamp_index (Py.len text) start <= snap_to_boundary text start end_ ds
     /\ snap_to_boundary text start end_ ds <= Py.clamp_index (Py.len text) end_.
Proof.
  induction ds as [|d ds IH]; simpl; [left; reflexivity|].
  destruct (Py.rfind text d start end_ =? -1) eqn:E; simpl; [exact IH|].
  apply Z.eqb_neq in E. destruct (rfind_found text d start end_ E) as [H1 H2].
  pose proof (len_nonneg d). right. lia.
Qed.

Lemma window_slice_len (self : DocumentProcessor) (text : Py.str) (start : Z) :
  0 <= chunk_size self ->
  Py.len (Py.slice text start (window_end self text start)) <= chunk_size self.
Proof.
  intros Hsize. pose proof (len_nonneg text) as Hn.
  assert (Py.clamp_index (Py.len text) (window_end self text start)
          - Py.clamp_index (Py.len text) start <= chunk_size self) as H.
  { unfold window_end.
    destruct (start + chunk_size self <? Py.len text) eqn:E.
    - destruct (snap_to_boundary_range text start (start + chunk_size self)
                  delimiters) as [->|[H1 H2]].
      + unfold Py.clamp_index.
        destruct (start <? 0) eqn:E1;
          destruct (start + chunk_size self <? 0) eqn:E2; lia.
      + set (e := snap_to_boundary text start (start + chunk_size self) delimiters)
          in *.
        pose proof (clamp_index_bounds (Py.len text) start Hn).
        pose proof (clamp_index_bounds (Py.len text) (start + chunk_size self) Hn).
        rewrite (clamp_index_inside _ e) by lia.
        unfold Py.clamp_index in *.
        destruct (start <? 0) eqn:E1;
          destruct (start + chunk_size self <? 0) eqn:E2; lia.
    - unfold Py.clamp_index.
      destruct (start <? 0) eqn:E1;
        destruct (start + chunk_size self <? 0) eqn:E2; lia. }
  unfold Py.slice, Py.len in *. rewrite length_take. lia.
Qed.

(** X2. No chunk is longer than [chunk_size], whatever the text and the
    overlap. *)
Theorem chunks_within_size (fuel : nat) (self : DocumentProcessor)
    (text : Py.str) (out : list Py.str) :
  0 <= chunk_size self ->
  chunk_text fuel self text = Return out ->
  Forall (fun c => Py.len c <= chunk_size self) out.
Proof.
  intros Hsize. apply chunk_text_forall. intros start c _. subst c.
  pose proof (len_strip_le (Py.slice text start (window_end self text start))).
  pose proof (window_slice_len self text start Hsize). lia.
Qed.

Lemma chunks_within_size_witness :
  Forall (fun c => Py.len c <= 8) [Py.lit "first."; Py.lit "second"].
Proof.
  apply (chunks_within_size 2 {| chunk_size := 8; chunk_overlap := 1 |}
           (Py.lit "first. second")).
  - simpl. lia.
  - vm_compute. reflexivity.
Defined.

(** ** When the chunking loop finishes *)

(** X5. On a text without boundary delimiter, with [0 < overlap < size],
    the loop of [chunk_text] finishes within as many iterations as the text
    has characters, and returns non-empty chunks. *)
Theorem chunking_terminates_without_delimiter
    (self : DocumentProcessor) (text : Py.str) :
  no_delimiter text = true ->
  0 < chunk_overlap self < chunk_size self ->
  exists out : list Py.str,
    chunk_text (length text) self text = Return out
    /\ Forall (fun c => c <> []) out.
Proof. intros Hplain Hset. exact (plain_chunk_text_terminates self text Hplain Hset). Qed.

Lemma chunking_terminates_without_delimiter_witness :
  exists out : list Py.str,
    chunk_text 7 {| chunk_size := 4; chunk_overlap := 1 |} (Py.lit "abcdefg")
    = Return out.
Proof.
  destruct (chunking_terminates_without_delimiter
              {| chunk_size := 4; chunk_overlap := 1 |} (Py.lit "abcdefg"))
    as (out & H & _).
  - reflexivity.
  - simpl. lia.
  - exists out. exact H.
Defined.

(** X6. On a text without boundary delimiter, with [0 < overlap < size],
    the window starts of [chunk_text] increase strictly. *)
Theorem window_starts_increase_without_delimiter
    (self : DocumentProcessor) (text : Py.str) (fuel : nat) :
  no_delimiter text = true ->
  0 < chunk_overlap self < chunk_size self ->
  StronglySorted Z.lt (window_starts fuel self text 0).
Proof.
  intros Hplain Hset.
  exact (proj2 (plain_window_starts_increase self text Hplain Hset fuel 0)).
Qed.

Lemma window_starts_increase_without_delimiter_witness :
  StronglySorted Z.lt
    (window_starts 7 {| chunk_size := 4; chunk_overlap := 1 |}
       (Py.lit "abcdefg") 0).
Proof.
  apply window_starts_increase_without_delimiter.
  - reflexivity.
  - simpl. lia.
Defined.

(** *** Without overlap *)

Lemma snap_to_boundary_advances (text : Py.str) (start end_ : Z) (ds : list Py.str) :
  Forall (fun d => d <> []) ds ->
  snap_to_boundary text start end_ ds = end_
  \/ Py.clamp_index (Py.len text) start < snap_to_boundary text start end_ ds.
Proof.
  induction 1 as [|d ds Hd _ IH]; simpl; [left; reflexivity|].
  destruct (Py.rfind text d start end_ =? -1) eqn:E; simpl; [exact IH|].
  apply Z.eqb_neq in E. destruct (rfind_found text d start end_ E) as [H1 _].
  right. destruct d as [|c d]; [contradiction|].
  unfold Py.len at 2. simpl length. lia.
Qed.

Lemma delimiters_nonempty : Forall (fun d => d <> []) delimiters.
Proof. unfold delimiters. repeat constructor; discriminate. Qed.

(** From a start inside the text the end of the window lies beyond it. *)
Lemma window_end_beyond_start (self : DocumentProcessor) (text : Py.str)
    (start : Z) :
  1 <= chunk_size self -> 0 <= start < Py.len text ->
  start < window_end self text start.
Proof.
  intros Hsize Hstart. unfold window_end.
  destruct (start + chunk_size self <? Py.len text); [|lia].
  destruct (snap_to_boundary_advances text start (start + chunk_size self)
              delimiters delimiters_nonempty) as [->|H]; [lia|].
  rewrite clamp_index_inside in H by lia. exact H.
Qed.

Lemma zero_overlap_loop_terminates (self : DocumentProcessor) (text : Py.str) :
  chunk_overlap self = 0 -> 1 <= chunk_size self ->
  forall (fuel : nat) (start : Z) (cs : list Py.str),
    0 <= start ->
    Py.len text - start <= Z.of_nat fuel ->
    exists out : list Py.str, chunk_loop fuel self text start cs = Return out.
Proof.
  intros Hov Hsize. induction fuel as [|fuel IH]; intros start cs Hpos Hfuel.
  - exists cs. apply chunk_loop_done. lia.
  - destruct (Z.le_gt_cases (Py.len text) start) as [Hdone|Hmore].
    + exists cs. apply chunk_loop_done, Hdone.
    + rewrite chunk_loop_step by lia.
      pose proof (window_end_beyond_start self text start Hsize ltac:(lia)) as Hadv.
      assert (next_start self text (window_end self text start)
              = window_end self text start) as ->.
      { unfold next_start. rewrite Hov.
        destruct (window_end self text start <? Py.len text); lia. }
      apply IH; lia.
Qed.

(** X7. With [chunk_overlap = 0] and a chunk size of at least one, the loop
    of [chunk_text] finishes on every text, within as many iterations as the
    text has characters. *)
Theorem chunking_terminates_without_overlap
    (self : DocumentProcessor) (text : Py.str) :
  chunk_overlap self = 0 ->
  1 <= chunk_size self ->
  exists out : list Py.str, chunk_text (length text) self text = Return out.
Proof.
  intros Hov Hsize. unfold chunk_text.
  destruct (negb (Py.truthy text)); [eexists; reflexivity|].
  apply zero_overlap_loop_terminates; try assumption; unfold Py.len; lia.
Qed.

Lemma chunking_terminates_without_overlap_witness :
  exists out : list Py.str,
    chunk_text 13 {| chunk_size := 8; chunk_overlap := 0 |}
      (Py.lit "first. second") = Return out.
Proof.
  apply (chunking_terminates_without_overlap
           {| chunk_size := 8; chunk_overlap := 0 |} (Py.lit "first. second"));
    simpl; lia.
Defined.

(** *** Blank texts *)

Lemma blank_text_no_chunk (fuel : nat) (self : DocumentProcessor)
    (text : Py.str) (out : list Py.str) :
  has_nonspace text = false ->
  chunk_text fuel self text = Return out ->
  out = [].
Proof.
  intros Hblank Hrun.
  assert (Forall (fun _ => False) out) as H.
  { apply (chunk_text_forall self text (fun _ => False)) with (fuel := fuel);
      [|exact Hrun].
    intros start c Hc. subst c.
    rewrite strip_blank in Hc; [discriminate Hc|].
    apply has_nonspace_slice, Hblank. }
  destruct out as [|c out]; [reflexivity|]. inversion H as [|? ? []].
Qed.

(** X4. A text that holds white space only gives no chunk.  When the
    overlap is zero and the size at least one, or when the text has no
    boundary delimiter and [0 < overlap < size], [chunk_text] returns the
    empty list within as many iterations as the text has characters; and
    whatever the settings and the number of iterations, no run on such a
    text returns anything but the empty list. *)
Theorem blank_text_gives_no_chunk (fuel : nat) (self : DocumentProcessor)
    (text : Py.str) :
  has_nonspace text = false ->
  ((chunk_overlap self = 0 /\ 1 <= chunk_size self)
   \/ (no_delimiter text = true /\ 0 < chunk_overlap self < chunk_size self) ->
   chunk_text (length text) self text = Return [])
  /\ (forall out, chunk_text fuel self text = Return out -> out = []).
Proof.
  intros Hblank. split.
  - intros Hends.
    assert (exists out, chunk_text (length text) self text = Return out)
      as [out Hrun].
    { destruct Hends as [[Hov Hsize]|[Hplain Hset]].
      - unfold chunk_text.
        destruct (negb (Py.truthy text)); [eexists; reflexivity|].
        apply zero_overlap_loop_terminates; try assumption;
          unfold Py.len; lia.
      - destruct (plain_chunk_text_terminates self text Hplain Hset)
          as (out & Hrun & _).
        exists out. exact Hrun. }
    rewrite Hrun. f_equal.
    exact (blank_text_no_chunk _ _ _ _ Hblank Hrun).
  - intros out. apply blank_text_no_chunk, Hblank.
Qed.

Lemma blank_text_gives_no_chunk_witness :
  chunk_text 4 {| chunk_size := 2; chunk_overlap := 0 |} [32; 10; 10; 32]%N
  = Return [].
Proof.
  apply (proj1 (blank_text_gives_no_chunk 4
                  {| chunk_size := 2; chunk_overlap := 0 |}
                  [32; 10; 10; 32]%N eq_refl)).
  left. simpl. lia.
Defined.

(** ** The write path: errors and aligned writes *)

Section WriteInvariants.
Context `{FL : Floats} `{OA : !OpenAI} `{CH : !Chroma}.

(** [add_documents] raises in one case only: a batch size of zero with a
    non-empty list of documents. *)
Lemma add_documents_outcome (self : VectorStore) (docs : list IndexedItem)
    (batch_size : Z) :
  (add_documents self docs batch_size).2
  = if Py.truthy docs && (batch_size =? 0) then Raise ValueError else Return tt.
Proof.
  unfold add_documents. destruct docs as [|d docs]; [reflexivity|].
  simpl negb. cbv iota. simpl andb.
  unfold get_embeddings_batch, Py.range0.
  destruct (batch_size =? 0); [reflexivity|].
  destruct (batch_size <? 0).
  - simpl. reflexivity.
  - destruct (embed_batches _ _ _ _ _) as [c embeddings]. reflexivity.
Qed.

Variable I : collection -> Prop.
Variable batch_size : Z.
Hypothesis batch_size_pos : 1 <= batch_size.

(** Every write with between one and [batch_size] items, and as many texts,
    embeddings and metadata as ids, keeps [I]. *)
Hypothesis aligned_writes_keep :
  forall (c c' : collection) (ids texts : list Py.str)
         (es : list (list float)) (ms : list Metadata),
    I c ->
    1 <= Py.len ids <= batch_size ->
    length texts = length ids -> length es = length ids ->
    length ms = length ids ->
    coll_add c ids texts es ms = Some c' ->
    I c'.

Lemma add_batches_keeps (ids texts : list Py.str) (es : list (list float))
    (ms : list Metadata) (indices : list Z) :
  length texts = length ids -> length es = length ids ->
  length ms = length ids ->
  Forall (fun i => 0 <= i < Py.len ids) indices ->
  forall coll : collection,
    I coll -> I (add_batches coll ids texts es ms batch_size indices).
Proof.
  intros Ht He Hm. induction 1 as [|i indices Hi _ IH]; intros coll Hc; simpl;
    [exact Hc|].
  destruct (coll_add coll _ _ _ _) as [coll'|] eqn:E; [|exact Hc].
  apply IH.
  pose proof (len_slice ids i (i + batch_size) ltac:(lia) ltac:(lia)) as L1.
  pose proof (len_slice texts i (i + batch_size) ltac:(lia) ltac:(lia)) as L2.
  pose proof (len_slice es i (i + batch_size) ltac:(lia) ltac:(lia)) as L3.
  pose proof (len_slice ms i (i + batch_size) ltac:(lia) ltac:(lia)) as L4.
  unfold Py.len in *.
  apply (aligned_writes_keep coll coll' _ _ _ _ Hc) in E; [exact E|..];
    unfold Py.len; lia.
Qed.

Hypothesis provider_ok : embeddings_one_per_input.

Lemma add_documents_keeps (self : VectorStore) (docs : list IndexedItem) :
  I (vs_collection self) ->
  I (vs_collection (add_documents self docs batch_size).1).
Proof.
  intros Hc. unfold add_documents.
  destruct docs as [|d docs]; [exact Hc|]. simpl negb. cbv iota.
  destruct (get_embeddings_batch_returns (map item_text (d :: docs)) batch_size
              provider_ok batch_size_pos self)
    as (self1 & embeddings & -> & Hcoll & Hlen & _).
  destruct (Py.range0 (Py.len (d :: docs)) batch_size) as [indices| |] eqn:R;
    simpl; try (rewrite Hcoll; exact Hc).
  apply add_batches_keeps.
  - simpl. rewrite ?length_map. reflexivity.
  - rewrite Hlen. simpl. rewrite ?length_map. reflexivity.
  - simpl. rewrite ?length_map. reflexivity.
  - apply range0_indices_inside in R; [|apply len_nonneg|exact batch_size_pos].
    unfold Py.len in *. simpl in *. rewrite ?length_map. exact R.
  - rewrite Hcoll. exact Hc.
Qed.

End WriteInvariants.

(** X8. [add_documents] raises in one case only, a batch size of zero with
    a non-empty list of documents ([ValueError] of [range]); otherwise it
    returns, whatever the provider and the collection do. *)
Theorem add_documents_raises_only_for_zero
    `{FL : Floats} `{OA : !OpenAI} `{CH : !Chroma}
    (self : VectorStore) (docs : list IndexedItem) (batch_size : Z) :
  ((add_documents self docs batch_size).2 = Raise ValueError
   <-> docs <> [] /\ batch_size = 0)
  /\ ((add_documents self docs batch_size).2 = Return tt
      <-> docs = [] \/ batch_size <> 0).
Proof.
  rewrite add_documents_outcome.
  destruct docs as [|d docs]; simpl;
    [|destruct (Z.eqb_spec batch_size 0) as [E|E]];
    split; split; intros H;
    first [ discriminate H
          | reflexivity
          | left; reflexivity
          | right; exact E
          | split; [discriminate|exact E]
          | destruct H as [H1 H2]; congruence
          | destruct H as [H|H]; congruence ].
Qed.

(** X9. With a provider that answers one vector per input and a batch size
    of at least one, every write of [add_documents] hands the collection
    between one and [batch_size] ids with as many texts, embeddings and
    metadata: a property of the collection that such writes keep is kept by
    [add_documents]. *)
Theorem add_documents_keeps_invariant
    `{FL : Floats} `{OA : !OpenAI} `{CH : !Chroma}
    (I : collection -> Prop) (self : VectorStore) (docs : list IndexedItem)
    (batch_size : Z) :
  1 <= batch_size ->
  embeddings_one_per_input ->
  (forall (c c' : collection) (ids texts : list Py.str)
          (es : list (list float)) (ms : list Metadata),
     I c ->
     1 <= Py.len ids <= batch_size ->
     length texts = length ids -> length es = length ids ->
     length ms = length ids ->
     coll_add c ids texts es ms = Some c' ->
     I c') ->
  I (vs_collection self) ->
  I (vs_collection (add_documents self docs batch_size).1).
Proof.
  intros Hb Hp Hkeep Hc.
  exact (add_documents_keeps I batch_size Hb Hkeep Hp self docs Hc).
Qed.

Lemma zip_rows_embeddings (ids texts : list Py.str) (es : list (list Z))
    (ms : list Metadata) :
  forallb Py.truthy es = true ->
  Forall (fun r : Demo.row => r.1.2 <> []) (Demo.zip_rows ids texts es ms).
Proof.
  revert texts es ms.
  induction ids as [|i ids IH]; intros [|t texts] [|e es] [|m ms] Hes; simpl;
    try (constructor; fail).
  simpl in Hes. apply andb_true_iff in Hes as [He Hes]. constructor.
  - simpl. destruct e; [discriminate He|discriminate].
  - apply IH, Hes.
Qed.

Lemma add_documents_keeps_invariant_witness :
  Forall (fun r : Demo.row => r.1.2 <> [])
    (vs_collection
       (add_documents (Demo.store Demo.validating [true; false; true] [])
          [Demo.item "a_chunk_0" "hello" "a.docx";
           Demo.item "a_chunk_1" "hello" "a.docx";
           Demo.item "a_chunk_2" "hello" "a.docx"] 1).1).
Proof.
  apply (add_documents_keeps_invariant (FL := Demo.milli) (OA := Demo.scripted)
           (CH := Demo.validating)
           (fun c : list Demo.row => Forall (fun r : Demo.row => r.1.2 <> []) c)).
  - lia.
  - exact scripted_one_per_input.
  - intros c c' ids texts es ms Hc _ _ _ _ Hadd.
    change (Demo.validate_add c ids texts es ms = Some c') in Hadd.
    unfold Demo.validate_add in Hadd.
    destruct (forallb _ _) eqn:E in Hadd; [|discriminate Hadd].
    injection Hadd as <-. apply Forall_app. split; [exact Hc|].
    apply zip_rows_embeddings, E.
  - constructor.
Defined.

(** X10. With a negative batch size [add_documents] does nothing and
    reports no error: no embedding is requested, nothing is written. *)
Theorem add_documents_negative_batch_size
    `{FL : Floats} `{OA : !OpenAI} `{CH : !Chroma}
    (self : VectorStore) (docs : list IndexedItem) (batch_size : Z) :
  batch_size < 0 ->
  add_documents self docs batch_size = (self, Return tt).
Proof.
  intros Hneg. unfold add_documents.
  destruct docs as [|d docs]; [reflexivity|]. simpl negb. cbv iota.
  unfold get_embeddings_batch, Py.range0.
  destruct (batch_size =? 0) eqn:E0; [lia|].
  destruct (batch_size <? 0) eqn:E1; [|lia].
  simpl. destruct self. reflexivity.
Qed.

Lemma add_documents_negative_batch_size_witness :
  add_documents (Demo.store Demo.accepting [false] [])
    [Demo.item "a_chunk_0" "hello" "a.docx"] (-5)
  = (Demo.store Demo.accepting [false] [], Return tt).
Proof.
  apply (add_documents_negative_batch_size
           (Demo.store Demo.accepting [false] [])
           [Demo.item "a_chunk_0" "hello" "a.docx"] (-5)).
  lia.
Defined.

(** ** The read path: pairing of the result lists *)

Section RetrieveFacts.
Context `{FL : Floats} `{OA : !OpenAI} `{CH : !Chroma}.
Variable results : SearchResult.

(** What the loop of [retrieve_relevant_documents] appends when it returns:
    one entry per document, with the metadata and the distance found at the
    position of the document. *)
Lemma format_results_spec (docs : list Py.str) :
  forall (i : nat) (acc out : list RetrievedDoc),
    format_results i docs results acc = Return out ->
    exists items : list RetrievedDoc,
      out = acc ++ items
      /\ map doc_text items = docs
      /\ map doc_metadata items = take (length docs) (drop i (metadatas results))
      /\ map doc_score items
         = map one_minus (take (length docs) (drop i (distances results))).
Proof.
  induction docs as [|doc rest IH]; intros i acc out; simpl.
  - intros [= <-]. exists []. rewrite app_nil_r. repeat split; reflexivity.
  - unfold getitem.
    destruct (metadatas results !! i) as [m|] eqn:Em; simpl; [|discriminate].
    destruct (distances results !! i) as [d|] eqn:Ed; simpl; [|discriminate].
    intros H. destruct (IH _ _ _ H) as (items & -> & Ht & Hm & Hs).
    exists ({| doc_text := doc; doc_metadata := m; doc_score := one_minus d |}
            :: items).
    rewrite <- app_assoc. simpl.
    rewrite (drop_S _ _ _ Em), (drop_S _ _ _ Ed). simpl.
    rewrite Ht, Hm, Hs. repeat split; reflexivity.
Qed.

(** The loop raises only [IndexError], and only when one of the two other
    lists is too short. *)
Lemma format_results_raise (docs : list Py.str) :
  forall (i : nat) (acc : list RetrievedDoc) (e : pyexn),
    format_results i docs results acc = Raise e ->
    e = IndexError
    /\ ((length (metadatas results) < i + length docs)%nat
        \/ (length (distances results) < i + length docs)%nat).
Proof.
  induction docs as [|doc rest IH]; intros i acc e; simpl; [discriminate|].
  unfold getitem.
  destruct (metadatas results !! i) as [m|] eqn:Em; simpl.
  - destruct (distances results !! i) as [d|] eqn:Ed; simpl.
    + intros H. destruct (IH _ _ _ H) as [He Hlen].
      split; [exact He|]. lia.
    + intros [= <-]. apply lookup_ge_None in Ed. split; [reflexivity|]. lia.
  - intros [= <-]. apply lookup_ge_None in Em. split; [reflexivity|]. lia.
Qed.

End RetrieveFacts.

(** X11. When [retrieve_relevant_documents] returns, it returns one entry
    per document of the search result, in order: the text is the document,
    the metadata is the one at the same position, and the score is one minus
    the distance at the same position. *)
Theorem retrieve_pairs_by_position
    `{FL : Floats} `{OA : !OpenAI} `{CH : !Chroma}
    (self : RAGEngine) (q : Py.str) (top_k : Z) (docs : list RetrievedDoc) :
  (retrieve_relevant_documents self q top_k).2 = Return docs ->
  let r := (search (vector_store self) q top_k).2 in
  map doc_text docs = documents r
  /\ map doc_metadata docs = take (length docs) (metadatas r)
  /\ map doc_score docs = map one_minus (take (length docs) (distances r)).
Proof.
  unfold retrieve_relevant_documents.
  destruct (search (vector_store self) q top_k) as [vs results]. simpl.
  intros H. destruct (format_results_spec results _ _ _ _ H)
    as (items & -> & Ht & Hm & Hs).
  simpl. rewrite ?drop_0 in Hm. rewrite ?drop_0 in Hs.
  assert (length items = length (documents results)) as Hl
    by (rewrite <- Ht, length_map; reflexivity).
  rewrite Hl. repeat split; assumption.
Qed.

Lemma retrieve_pairs_by_position_witness :
  exists docs,
    (retrieve_relevant_documents
       (Demo.engine Demo.accepting [] Demo.five_rows) (Py.lit "q") 2).2
    = Return docs
    /\ map doc_text docs = [Py.lit "a"; Py.lit "b"].
Proof.
  eexists. split; [reflexivity|].
  refine (eq_trans
            (proj1 (retrieve_pairs_by_position
                      (Demo.engine Demo.accepting [] Demo.five_rows)
                      (Py.lit "q") 2 _ eq_refl)) _).
  reflexivity.
Defined.

(** X12. [retrieve_relevant_documents] raises exactly when the search result
    has fewer metadata or fewer distances than documents, and then it raises
    [IndexError]. *)
Theorem retrieve_raises_iff_lists_short
    `{FL : Floats} `{OA : !OpenAI} `{CH : !Chroma}
    (self : RAGEngine) (q : Py.str) (top_k : Z) :
  let r := (search (vector_store self) q top_k).2 in
  ((retrieve_relevant_documents self q top_k).2 = Raise IndexError
   <-> (length (metadatas r) < length (documents r))%nat
       \/ (length (distances r) < length (documents r))%nat)
  /\ (forall e, (retrieve_relevant_documents self q top_k).2 = Raise e ->
                e = IndexError).
Proof.
  unfold retrieve_relevant_documents.
  destruct (search (vector_store self) q top_k) as [vs results]. simpl.
  split; [split|].
  - intros H. destruct (format_results_raise results _ _ _ _ H) as [_ Hl].
    simpl in Hl. exact Hl.
  - intros Hshort.
    destruct (format_results 0 (documents results) results []) as [out|e|] eqn:E.
    + destruct (format_results_spec results _ _ _ _ E)
        as (items & _ & Ht & Hm & Hs).
      rewrite ?drop_0 in Hm. rewrite ?drop_0 in Hs.
      apply (f_equal length) in Ht. rewrite length_map in Ht.
      apply (f_equal length) in Hm. rewrite length_map, length_take in Hm.
      apply (f_equal length) in Hs. rewrite !length_map, length_take in Hs.
      lia.
    + destruct (format_results_raise results _ _ _ _ E) as [-> _]. reflexivity.
    + exfalso. exact (format_results_finishes _ _ _ _ E).
  - intros e H. exact (proj1 (format_results_raise results _ _ _ _ H)).
Qed.

(** ** The pipeline of [query] *)

Section QueryFacts.
Context `{FL : Floats} `{OA : !OpenAI} `{CH : !Chroma}.

(** Retrieval does not touch the chat client. *)
Lemma retrieve_keeps_chat_client (self : RAGEngine) (q : Py.str) (top_k : Z) :
  openai_client (retrieve_relevant_documents self q top_k).1 = openai_client self.
Proof.
  unfold retrieve_relevant_documents.
  destruct (search (vector_store self) q top_k) as [vs results]. reflexivity.
Qed.

Lemma length_dedup_first {A : Type} `{EqDecision A} (l : list A) :
  (length (dedup_first l) <= length l)%nat.
Proof.
  induction l as [|x l IH]; simpl; [lia|].
  pose proof (length_filter (fun y => y <> x) (dedup_first l)). lia.
Qed.

End QueryFacts.

(** X13. When nothing is retrieved, [query] answers with the fixed "no
    document found" message, no source and no document, and does not call
    the chat model. *)
Theorem query_nothing_retrieved
    `{FL : Floats} `{OA : !OpenAI} `{CH : !Chroma}
    (self : RAGEngine) (q : Py.str) (top_k max_tokens : Z) :
  (retrieve_relevant_documents self q top_k).2 = Return [] ->
  (query self q top_k max_tokens).2
  = Return {| r_query := q; r_answer := no_documents_answer;
              r_sources := []; retrieved_docs := [] |}
  /\ openai_client (query self q top_k max_tokens).1 = openai_client self.
Proof.
  intros H. pose proof (retrieve_keeps_chat_client self q top_k) as Hc.
  unfold query.
  destruct (retrieve_relevant_documents self q top_k) as [self1 o].
  simpl in H, Hc. subst o. simpl. split; [reflexivity|exact Hc].
Qed.

Lemma query_nothing_retrieved_witness :
  omap r_answer
       (query (Demo.engine Demo.accepting [false] Demo.five_rows)
          (Py.lit "q") 5 1000).2
  = Return no_documents_answer.
Proof.
  rewrite (proj1 (query_nothing_retrieved
                    (Demo.engine Demo.accepting [false] Demo.five_rows)
                    (Py.lit "q") 5 1000 eq_refl)).
  reflexivity.
Defined.

(** X14. When documents are retrieved, [query] calls the chat model once,
    on the prompt built from all of them, and returns: the first three
    documents; the content given by the model together with the
    deduplicated sources of all the documents when the call succeeds; the
    fixed apology and no source when the call fails. *)
Theorem query_follows_chat_call
    `{FL : Floats} `{OA : !OpenAI} `{CH : !Chroma}
    (self : RAGEngine) (q : Py.str) (top_k max_tokens : Z)
    (docs : list RetrievedDoc) :
  (retrieve_relevant_documents self q top_k).2 = Return docs ->
  docs <> [] ->
  let call := chat_completions_create (openai_client self) system_prompt
                (user_prompt (_build_context docs default_max_length) q)
                max_tokens in
  exists r : QueryResponse,
    (query self q top_k max_tokens).2 = Return r
    /\ openai_client (query self q top_k max_tokens).1 = call.1
    /\ r_query r = q
    /\ retrieved_docs r = take 3 docs
    /\ match call.2 with
       | Some content =>
           r_answer r = content
           /\ r_sources r = dedup_first (map source_info docs)
       | None => r_answer r = generation_error_answer /\ r_sources r = []
       end.
Proof.
  intros H Hne call. pose proof (retrieve_keeps_chat_client self q top_k) as Hc.
  unfold query.
  destruct (retrieve_relevant_documents self q top_k) as [self1 o].
  simpl in H, Hc. subst o.
  assert (Py.truthy docs = true) as ->
    by (destruct docs; [contradiction|reflexivity]).
  simpl negb. cbv iota.
  unfold generate_answer. rewrite Hc. fold call.
  destruct call as [c [content|]]; simpl;
    eexists; (split; [reflexivity|]); simpl;
    rewrite slice_take by lia; repeat split; try reflexivity.
  apply collect_sources_dedup.
Qed.

Lemma query_follows_chat_call_witness :
  exists r,
    (query (Demo.engine Demo.accepting [] Demo.five_rows) (Py.lit "q") 5 1000).2
    = Return r
    /\ r_answer r = Py.lit "ok"
    /\ length (retrieved_docs r) = 3%nat.
Proof.
  pose (e := Demo.engine Demo.accepting [] Demo.five_rows).
  assert (exists docs, (retrieve_relevant_documents e (Py.lit "q") 5).2
                       = Return docs /\ length docs = 5%nat) as (docs & Hd & Hl)
    by (eexists; split; reflexivity).
  assert (docs <> []) as Hne by (intros ->; discriminate Hl).
  destruct (query_follows_chat_call e (Py.lit "q") 5 1000 docs Hd Hne)
    as (r & Hr & _ & _ & Hdocs & Hcall).
  exists r. split; [exact Hr|]. split.
  - simpl in Hcall. exact (proj1 Hcall).
  - rewrite Hdocs, length_take, Hl. reflexivity.
Defined.

(** X15. The citation list of [generate_answer] is never longer than the
    list of documents it was given. *)
Theorem sources_no_more_than_documents
    `{FL : Floats} `{OA : !OpenAI} `{CH : !Chroma}
    (self : RAGEngine) (q : Py.str) (docs : list RetrievedDoc) (max_tokens : Z) :
  (length (sources (generate_answer self q docs max_tokens).2) <= length docs)%nat.
Proof.
  unfold generate_answer.
  destruct (chat_completions_create _ _ _ _) as [c [content|]]; simpl; [|lia].
  rewrite collect_sources_dedup.
  pose proof (length_dedup_first (map source_info docs)) as H.
  rewrite length_map in H. exact H.
Qed.

(** ** The context builder *)

Lemma len_app {A : Type} (s t : list A) : Py.len (s ++ t) = Py.len s + Py.len t.
Proof. unfold Py.len. rewrite length_app. lia. Qed.

Lemma len_join (sep : Py.str) (parts : list Py.str) :
  Py.len (Py.join sep parts)
  = Py.len (concat parts) + Py.len sep * Z.max 0 (Py.len parts - 1).
Proof.
  induction parts as [|p rest IH]; [simpl; unfold Py.len; simpl; lia|].
  destruct rest as [|p' rest].
  - simpl. rewrite app_nil_r. unfold Py.len. simpl. lia.
  - change (Py.join sep (p :: p' :: rest))
      with (p ++ sep ++ Py.join sep (p' :: rest)).
    change (concat (p :: p' :: rest)) with (p ++ concat (p' :: rest)).
    rewrite !len_app, IH.
    pose proof (len_nonneg rest). unfold Py.len in *. simpl length. nia.
Qed.

Section ContextFacts.
Context `{FL : Floats} `{OA : !OpenAI} `{CH : !Chroma}.

(** The loop only ever appends to the parts it has. *)
Lemma context_loop_extends (m : Z) (docs : list RetrievedDoc) :
  forall (i : nat) (parts : list Py.str) (cur : Z),
    exists more, context_loop i docs m parts cur = parts ++ more.
Proof.
  induction docs as [|d rest IH]; intros i parts cur; simpl.
  - exists []. rewrite app_nil_r. reflexivity.
  - destruct (cur + Py.len (context_item i d) >? m).
    + exists []. rewrite app_nil_r. reflexivity.
    + destruct (IH (S i) (parts ++ [context_item i d])
                   (cur + Py.len (context_item i d))) as [more ->].
      exists (context_item i d :: more). rewrite <- app_assoc. reflexivity.
Qed.

(** The blocks of a list of documents, numbered from [i] on. *)
Lemma blocks_cons (i : nat) (d : RetrievedDoc) (l : list RetrievedDoc) :
  imap (fun j x => context_item (i + j) x) (d :: l)
  = context_item i d :: imap (fun j x => context_item (S i + j) x) l.
Proof.
  rewrite imap_cons, Nat.add_0_r. f_equal.
  apply imap_ext. intros j x _. simpl. f_equal. lia.
Qed.

Variable max_length : Z.

Lemma context_loop_budget (docs : list RetrievedDoc) :
  forall (i : nat) (parts : list Py.str) (cur : Z),
    cur = Py.len (concat parts) ->
    cur <= Z.max 0 max_length ->
    Py.len (concat (context_loop i docs max_length parts cur))
    <= Z.max 0 max_length.
Proof.
  induction docs as [|d rest IH]; intros i parts cur Hcur Hle; simpl.
  - lia.
  - destruct (cur + Py.len (context_item i d) >? max_length) eqn:E; [lia|].
    apply IH.
    + rewrite concat_app, len_app. simpl. rewrite app_nil_r. lia.
    + lia.
Qed.

(** The parts are the blocks of a prefix of the documents, numbered as
    [enumerate] does, and the block of the next document, if any, would
    exceed the budget. *)
Lemma context_loop_spec (docs : list RetrievedDoc) :
  forall (i : nat) (parts : list Py.str) (cur : Z),
    exists k : nat,
      (k <= length docs)%nat
      /\ context_loop i docs max_length parts cur
         = parts ++ imap (fun j x => context_item (i + j) x) (take k docs)
      /\ forall d, docs !! k = Some d ->
           cur + Py.len (concat (imap (fun j x => context_item (i + j) x)
                                      (take k docs)))
               + Py.len (context_item (i + k) d) > max_length.
Proof.
  induction docs as [|d rest IH]; intros i parts cur.
  - exists 0%nat. simpl. rewrite app_nil_r. split; [lia|]. split; [reflexivity|].
    intros d H. discriminate H.
  - simpl context_loop.
    destruct (cur + Py.len (context_item i d) >? max_length) eqn:E.
    + exists 0%nat. simpl. rewrite app_nil_r. split; [lia|].
      split; [reflexivity|]. intros d' [= <-]. rewrite Nat.add_0_r.
      unfold Py.len at 1. simpl. lia.
    + destruct (IH (S i) (parts ++ [context_item i d])
                   (cur + Py.len (context_item i d))) as (k & Hk & Hrun & Hmax).
      exists (S k). split; [simpl; lia|].
      change (take (S k) (d :: rest)) with (d :: take k rest).
      rewrite blocks_cons. split.
      * rewrite Hrun, <- app_assoc. reflexivity.
      * intros d' Hd'. change ((d :: rest) !! S k) with (rest !! k) in Hd'.
        specialize (Hmax d' Hd').
        change (concat (?x :: ?l)) with (x ++ concat l).
        rewrite len_app.
        replace (i + S k)%nat with (S i + k)%nat by lia. lia.
Qed.

(** A larger budget keeps the parts of a smaller one. *)
Lemma context_loop_mono (larger : Z) (docs : list RetrievedDoc) :
  max_length <= larger ->
  forall (i : nat) (parts : list Py.str) (cur : Z),
    context_loop i docs max_length parts cur
    `prefix_of` context_loop i docs larger parts cur.
Proof.
  intros Hle. induction docs as [|d rest IH]; intros i parts cur; simpl.
  - reflexivity.
  - destruct (cur + Py.len (context_item i d) >? max_length) eqn:E.
    + destruct (cur + Py.len (context_item i d) >? larger) eqn:E'.
      * reflexivity.
      * destruct (context_loop_extends larger rest (S i)
                    (parts ++ [context_item i d])
                    (cur + Py.len (context_item i d))) as [more ->].
        rewrite <- app_assoc. apply prefix_app_r. reflexivity.
    + destruct (cur + Py.len (context_item i d) >? larger) eqn:E'; [lia|].
      apply IH.
Qed.

(** X16. The blocks that [_build_context] keeps have at most [max_length]
    characters together (none when [max_length] is negative); the context
    it returns has one more character, the joining newline, per block after
    the first, so it can be longer than [max_length]. *)
Theorem build_context_length (docs : list RetrievedDoc) :
  Py.len (concat (context_parts_of docs max_length)) <= Z.max 0 max_length
  /\ Py.len (_build_context docs max_length)
     = Py.len (concat (context_parts_of docs max_length))
       + Z.max 0 (Py.len (context_parts_of docs max_length) - 1).
Proof.
  split.
  - unfold context_parts_of. apply context_loop_budget; [reflexivity|lia].
  - unfold _build_context. rewrite len_join.
    change (Py.len [10%N]) with 1. lia.
Qed.

(** X17. [_build_context] keeps the blocks of the first [k] documents, in
    order and numbered from 1, and stops at the first document whose block
    would take the running length over [max_length]: later documents are
    dropped even if their block would fit. *)
Theorem build_context_cuts_a_prefix (docs : list RetrievedDoc) :
  exists k : nat,
    (k <= length docs)%nat
    /\ context_parts_of docs max_length
       = imap (fun j d => context_item j d) (take k docs)
    /\ forall d, docs !! k = Some d ->
         Py.len (concat (imap (fun j d => context_item j d) (take k docs)))
           + Py.len (context_item k d) > max_length.
Proof.
  destruct (context_loop_spec docs 0 [] 0) as (k & Hk & Hrun & Hmax).
  exists k. split; [exact Hk|]. split.
  - unfold context_parts_of. rewrite Hrun. reflexivity.
  - intros d Hd. specialize (Hmax d Hd). simpl in Hmax. lia.
Qed.

(** X18. Raising [max_length] never loses a block: the blocks kept under a
    budget are the first blocks kept under any larger one. *)
Theorem build_context_grows_with_budget (larger : Z)
    (docs : list RetrievedDoc) :
  max_length <= larger ->
  context_parts_of docs max_length `prefix_of` context_parts_of docs larger.
Proof.
  intros Hle. unfold context_parts_of. apply context_loop_mono. exact Hle.
Qed.

End ContextFacts.

Lemma build_context_grows_with_budget_witness :
  10 <= 4000
  /\ context_parts_of Demo.two_long_results 10
     `prefix_of` context_parts_of Demo.two_long_results 4000.
Proof.
  split; [lia|].
  apply (build_context_grows_with_budget 10 4000 Demo.two_long_results). lia.
Defined.

(** ** Text extraction *)

Section ExtractFacts.

Lemma append_stripped_spec (pieces : list Py.str) :
  forall acc : list Py.str,
    append_stripped pieces acc
    = acc ++ List.filter Py.truthy (map Py.strip pieces).
Proof.
  induction pieces as [|t rest IH]; intros acc; simpl.
  - rewrite app_nil_r. reflexivity.
  - rewrite IH. destruct (Py.truthy (Py.strip t)); [|reflexivity].
    rewrite <- app_assoc. reflexivity.
Qed.

Lemma append_rows_spec (rows : list (list Py.str)) :
  forall acc : list Py.str,
    append_rows rows acc
    = acc ++ List.filter Py.truthy (map Py.strip (concat rows)).
Proof.
  induction rows as [|row rest IH]; intros acc; simpl.
  - rewrite app_nil_r. reflexivity.
  - rewrite IH, append_stripped_spec, map_app, List.filter_app, <- app_assoc.
    reflexivity.
Qed.

Lemma append_tables_spec (tbls : list (list (list Py.str))) :
  forall acc : list Py.str,
    append_tables tbls acc
    = acc ++ List.filter Py.truthy (map Py.strip (concat (concat tbls))).
Proof.
  induction tbls as [|table rest IH]; intros acc; simpl.
  - rewrite app_nil_r. reflexivity.
  - rewrite IH, append_rows_spec, concat_app, map_app, List.filter_app,
      <- app_assoc.
    reflexivity.
Qed.

Lemma full_text_of_spec (d : Docx) :
  full_text_of d
  = List.filter Py.truthy
      (map Py.strip (paragraphs d ++ concat (concat (tables d)))).
Proof.
  unfold full_text_of.
  rewrite append_tables_spec, append_stripped_spec, map_app, List.filter_app.
  reflexivity.
Qed.

(** A string that neither begins nor ends with white space is left as it
    is by [strip]. *)
Lemma strip_fixed (s : Py.str) :
  (forall c, head s = Some c -> Py.isspace c = false) ->
  (forall c, last s = Some c -> Py.isspace c = false) ->
  Py.strip s = s.
Proof.
  intros Hh Hl. destruct s as [|c u]; [reflexivity|].
  unfold Py.strip, Py.rstrip.
  assert (Py.lstrip (c :: u) = c :: u) as ->.
  { simpl. rewrite (Hh c eq_refl). reflexivity. }
  destruct (rev (c :: u)) as [|e r] eqn:E.
  - apply (f_equal (@length N)) in E. rewrite length_rev in E. discriminate E.
  - assert (c :: u = rev r ++ [e]) as Hs.
    { rewrite <- (rev_involutive (c :: u)), E. reflexivity. }
    assert (Py.isspace e = false) as He.
    { apply Hl. rewrite Hs. apply last_snoc. }
    simpl Py.lstrip. rewrite He, <- E. apply rev_involutive.
Qed.

Lemma join_head (sep : Py.str) (p : Py.str) (rest : list Py.str) :
  p <> [] -> head (Py.join sep (p :: rest)) = head p.
Proof.
  intros Hp. destruct rest as [|q rest]; [reflexivity|].
  change (Py.join sep (p :: q :: rest)) with (p ++ sep ++ Py.join sep (q :: rest)).
  destruct p as [|c p]; [contradiction|reflexivity].
Qed.

Lemma join_last (sep : Py.str) (parts : list Py.str) :
  Forall (fun p => p <> []) parts ->
  forall q, last parts = Some q -> last (Py.join sep parts) = last q.
Proof.
  induction 1 as [|p rest Hp Hrest IH]; intros q Hq; [discriminate Hq|].
  destruct rest as [|p' rest].
  - injection Hq as <-. reflexivity.
  - change (Py.join sep (p :: p' :: rest))
      with (p ++ sep ++ Py.join sep (p' :: rest)).
    change (last (p :: p' :: rest)) with (last (p' :: rest)) in Hq.
    specialize (IH q Hq).
    assert (exists c, last q = Some c) as [c Hc].
    { apply Forall_forall with (x := q) in Hrest;
        [|apply last_Some_elem_of, Hq].
      destruct (last q) as [c|] eqn:E; [exists c; reflexivity|].
      apply last_None in E. contradiction. }
    rewrite !last_app, IH, Hc. reflexivity.
Qed.

Lemma stripped_pieces (pieces : list Py.str) :
  Forall (fun p => p <> [] /\ exists t, p = Py.strip t)
         (List.filter Py.truthy (map Py.strip pieces)).
Proof.
  induction pieces as [|t rest IH]; simpl; [constructor|].
  destruct (Py.strip t) as [|c u] eqn:E; simpl; [exact IH|].
  constructor; [|exact IH]. split; [discriminate|].
  exists t. symmetry. exact E.
Qed.

End ExtractFacts.

(** X19. The text extracted from a document is made of the stripped texts
    of its paragraphs, then of its table cells table by table and row by
    row, without those that are blank, joined by an empty line. *)
Theorem extracted_text_is_join_of_pieces (d : Docx) :
  extract_text_from_docx (Some d)
  = Py.join [10; 10]%N
      (List.filter Py.truthy
         (map Py.strip (paragraphs d ++ concat (concat (tables d))))).
Proof. unfold extract_text_from_docx. rewrite full_text_of_spec. reflexivity. Qed.

(** X20. The extracted text neither begins nor ends with white space,
    whatever the document holds, and also when it cannot be read. *)
Theorem extracted_text_is_stripped (doc : option Docx) :
  Py.strip (extract_text_from_docx doc) = extract_text_from_docx doc.
Proof.
  destruct doc as [d|]; [|reflexivity].
  unfold extract_text_from_docx. rewrite full_text_of_spec.
  pose proof (stripped_pieces (paragraphs d ++ concat (concat (tables d)))) as H.
  destruct (List.filter Py.truthy _) as [|p rest] eqn:E; [reflexivity|].
  apply strip_fixed.
  - intros c. rewrite join_head by (inversion H as [|? ? [Hp _] _]; exact Hp).
    inversion H as [|? ? [_ [t ->]] _]. apply strip_head.
  - intros c Hc.
    destruct (last (p :: rest)) as [q|] eqn:Eq;
      [|apply last_None in Eq; discriminate Eq].
    rewrite (join_last _ (p :: rest)) with (q := q) in Hc;
      [|eapply Forall_impl; [exact H|intros ? [Hx _]; exact Hx]|exact Eq].
    apply last_Some_elem_of in Eq.
    rewrite Forall_forall in H.
    destruct (H q Eq) as [_ [t ->]]. apply (strip_last t c Hc).
Qed.

(** X21. A document that cannot be read, or whose paragraphs and cells are
    all blank, is processed without error into an empty text with no
    chunk, whatever the chunking settings. *)
Theorem unreadable_or_blank_docx_gives_nothing (fuel : nat)
    (self : DocumentProcessor) (path name : Py.str) (doc : option Docx)
    (imgs : list Py.str) :
  (forall d, doc = Some d ->
     Forall (fun t => has_nonspace t = false)
            (paragraphs d ++ concat (concat (tables d)))) ->
  process_docx fuel self path name doc imgs
  = Return {| file_path := path; file_name := name; text := [];
              chunks := []; images := imgs |}.
Proof.
  intros H.
  assert (extract_text_from_docx doc = []) as E.
  { destruct doc as [d|]; [|reflexivity].
    unfold extract_text_from_docx. rewrite full_text_of_spec.
    specialize (H d eq_refl).
    induction H as [|t rest Ht _ IH]; [reflexivity|].
    simpl. rewrite (strip_blank t Ht). simpl. exact IH. }
  unfold process_docx, process_document. simpl. rewrite E. reflexivity.
Qed.

Lemma unreadable_or_blank_docx_gives_nothing_witness :
  process_docx 0 default_processor (Py.lit "d/a.docx") (Py.lit "a.docx")
    (Some {| paragraphs := [Py.lit "  "]; tables := [[[Py.lit " "; []]]] |}) []
  = Return {| file_path := Py.lit "d/a.docx"; file_name := Py.lit "a.docx";
              text := []; chunks := []; images := [] |}.
Proof.
  apply (unreadable_or_blank_docx_gives_nothing 0 default_processor).
  intros d [= <-]. simpl. repeat constructor.
Defined.

(** ** Processing a directory of documents *)

Lemma process_documents_batch_never_raises (fuel : nat)
    (self : DocumentProcessor) (files : list ParsedDocx) (e : pyexn) :
  process_documents_batch fuel self files <> Raise e.
Proof.
  induction files as [|f rest IH]; simpl; [discriminate|].
  unfold process_document.
  destruct (chunk_text fuel self (p_text f)) as [cs|e'|] eqn:E; simpl.
  - destruct (process_documents_batch fuel self rest) as [ds|e'|];
      simpl; try discriminate.
    intros [= <-]. apply IH. reflexivity.
  - exfalso. exact (chunk_text_never_raises self _ _ _ E).
  - discriminate.
Qed.

Lemma process_documents_batch_spec (fuel : nat) (self : DocumentProcessor)
    (files : list ParsedDocx) :
  forall ds : list ProcessedDoc,
    process_documents_batch fuel self files = Return ds
    <-> Forall2 (fun f d => file_path d = p_file_path f
                            /\ file_name d = p_file_name f
                            /\ text d = p_text f
                            /\ images d = p_images f
                            /\ chunk_text fuel self (p_text f) = Return (chunks d))
                files ds.
Proof.
  induction files as [|f rest IH]; intros ds; simpl.
  - split.
    + intros [= <-]. constructor.
    + intros H. inversion H. reflexivity.
  - unfold process_document.
    destruct (chunk_text fuel self (p_text f)) as [cs|e|] eqn:E; simpl.
    + destruct (process_documents_batch fuel self rest) as [ds'|e|] eqn:B;
        simpl.
      * split.
        -- intros [= <-]. constructor; [simpl; auto|]. apply IH. reflexivity.
        -- intros H. inversion H as [|? d ? ds'' (Hp & Hn & Ht & Hi & Hc) Hrest];
             subst.
           apply IH in Hrest. injection Hrest as <-.
           destruct d as [p n t c i]. simpl in *. congruence.
      * exfalso. exact (process_documents_batch_never_raises _ _ _ _ B).
      * split; [discriminate|].
        intros H. inversion H as [|? d ? ds'' _ Hrest]; subst.
        apply IH in Hrest. discriminate Hrest.
    + exfalso. exact (chunk_text_never_raises self _ _ _ E).
    + split; [discriminate|].
      intros H. inversion H as [|? d ? ds'' (_ & _ & _ & _ & Hc) _]; subst.
      rewrite E in Hc. discriminate Hc.
Qed.

(** X22. [process_documents_batch] never raises and skips no file: when it
    returns, its list holds one record per file found, in the same order,
    with the file's path, name, text and images and the chunks of its
    text; and it returns exactly when the chunking of every text does. *)
Theorem batch_keeps_every_file (fuel : nat) (self : DocumentProcessor)
    (files : list ParsedDocx) (ds : list ProcessedDoc) :
  (forall e, process_documents_batch fuel self files <> Raise e)
  /\ (process_documents_batch fuel self files = Return ds
      <-> Forall2 (fun f d => file_path d = p_file_path f
                              /\ file_name d = p_file_name f
                              /\ text d = p_text f
                              /\ images d = p_images f
                              /\ chunk_text fuel self (p_text f)
                                 = Return (chunks d))
                  files ds).
Proof.
  split.
  - intros e. apply process_documents_batch_never_raises.
  - apply process_documents_batch_spec.
Qed.

(** ** The text items of the index *)

Section ItemFacts.
Context `{FL : Floats} `{OA : !OpenAI} `{CH : !Chroma}.

Lemma append_chunk_items_spec (doc : ProcessedDoc) (cs : list Py.str) :
  forall (i : nat) (acc : list IndexedItem),
    append_chunk_items doc i cs acc
    = acc ++ imap (fun j c => {| item_id := doc_id (file_name doc) (i + j);
                                 item_text := c;
                                 item_metadata := text_metadata doc (i + j) |})
                  cs.
Proof.
  induction cs as [|c rest IH]; intros i acc.
  - simpl. rewrite app_nil_r. reflexivity.
  - simpl append_chunk_items. rewrite IH, <- app_assoc, imap_cons, Nat.add_0_r.
    simpl. do 2 f_equal. apply imap_ext. intros j x _. simpl.
    rewrite Nat.add_succ_r. reflexivity.
Qed.

Lemma append_text_documents_spec (docs : list ProcessedDoc) :
  forall acc : list IndexedItem,
    append_text_documents docs acc
    = acc ++ flat_map
               (fun d => imap (fun j c =>
                                 {| item_id := doc_id (file_name d) j;
                                    item_text := c;
                                    item_metadata := text_metadata d j |})
                              (chunks d))
               docs.
Proof.
  induction docs as [|d rest IH]; intros acc; simpl.
  - rewrite app_nil_r. reflexivity.
  - rewrite IH, append_chunk_items_spec, <- app_assoc. reflexivity.
Qed.

Lemma map_text_imap (f : nat -> Py.str -> IndexedItem) (cs : list Py.str) :
  (forall i c, item_text (f i c) = c) -> map item_text (imap f cs) = cs.
Proof.
  revert f. induction cs as [|c rest IH]; intros f Hf; [reflexivity|].
  rewrite imap_cons. simpl. rewrite Hf. f_equal.
  apply IH. intros i x. apply Hf.
Qed.

(** X23. The text items handed to the vector store are the chunks of the
    processed documents, every one of them, document after document and
    in chunk order; each item carries the id built from its file's stem
    and its chunk ordinal, and the metadata of that file and ordinal. *)
Theorem text_items_are_the_chunks (docs : list ProcessedDoc) :
  map item_text (build_text_documents docs) = concat (map chunks docs)
  /\ forall it, it ∈ build_text_documents docs ->
       exists d i, d ∈ docs
                   /\ chunks d !! i = Some (item_text it)
                   /\ item_id it = doc_id (file_name d) i
                   /\ item_metadata it = text_metadata d i.
Proof.
  unfold build_text_documents. rewrite append_text_documents_spec. simpl.
  split.
  - induction docs as [|d rest IH]; [reflexivity|].
    simpl. rewrite map_app, IH. f_equal.
    apply map_text_imap. reflexivity.
  - intros it Hit. apply list_elem_of_In, in_flat_map in Hit.
    destruct Hit as (d & Hd & Hit).
    apply list_elem_of_In, elem_of_lookup_imap in Hit.
    destruct Hit as (i & c & -> & Hc).
    exists d, i. split; [apply list_elem_of_In, Hd|]. simpl. auto.
Qed.

Lemma no_chunks_no_items (docs : list ProcessedDoc) :
  Forall (fun d => chunks d = []) docs -> build_text_documents docs = [].
Proof.
  intros H. unfold build_text_documents.
  rewrite append_text_documents_spec. simpl.
  induction H as [|d rest Hd _ IH]; [reflexivity|].
  simpl. rewrite Hd, IH. reflexivity.
Qed.

End ItemFacts.

(** ** The stem of a file name and the ids built from it *)

Lemma startswith_at_char (pre post : Py.str) (c d : N) :
  Py.startswith_at (pre ++ c :: post) [d] (Py.len pre) = (c =? d)%N.
Proof.
  unfold Py.startswith_at, Py.slice.
  assert (Py.len (pre ++ c :: post) = Py.len pre + 1 + Py.len post) as Hn.
  { unfold Py.len. rewrite length_app. simpl. lia. }
  pose proof (len_nonneg pre) as Hp. pose proof (len_nonneg post) as Hq.
  change (Py.len [d]) with 1.
  rewrite !clamp_index_inside by lia.
  replace (Py.len pre + 1 - Py.len pre) with 1 by lia.
  unfold Py.len at 1. rewrite Nat2Z.id, drop_app_length.
  simpl. apply andb_true_r.
Qed.

(** The search from the right stops at the last occurrence. *)
Lemma rfind_down_last (base ext : Py.str) (d : N) :
  d ∉ ext ->
  forall k : nat,
    (length base < k <= length base + 1 + length ext)%nat ->
    Py.rfind_down (base ++ d :: ext) [d] 0 k = Py.len base.
Proof.
  intros Hd. induction k as [|k IH]; intros Hk; [lia|].
  simpl Py.rfind_down. rewrite Z.add_0_l.
  destruct (decide (k = length base)) as [->|Hne].
  - fold (Py.len base). rewrite startswith_at_char, N.eqb_refl. reflexivity.
  - assert (is_Some (ext !! (k - length base - 1)%nat)) as [x Hx]
      by (apply lookup_lt_is_Some_2; lia).
    pose proof (take_drop_middle _ _ _ Hx) as Hsplit.
    assert (x <> d) as Hxd.
    { intros ->. apply Hd. eapply list_elem_of_lookup_2, Hx. }
    rewrite <- Hsplit at 1.
    replace (base ++ d :: take (k - length base - 1) ext
               ++ x :: drop (S (k - length base - 1)) ext)
      with ((base ++ d :: take (k - length base - 1) ext)
              ++ x :: drop (S (k - length base - 1)) ext)
      by (rewrite <- app_assoc; reflexivity).
    replace (Z.of_nat k)
      with (Py.len (base ++ d :: take (k - length base - 1) ext)).
    + rewrite startswith_at_char.
      destruct (N.eqb_spec x d) as [E|_]; [contradiction|].
      apply IH. lia.
    + unfold Py.len. rewrite length_app. simpl. rewrite length_take.
      apply lookup_lt_Some in Hx. lia.
Qed.

(** X25. The stem of a file name made of a non-empty base, a dot and a
    non-empty extension without dot is the base: only the last extension
    is removed. *)
Theorem stem_removes_last_extension (base ext : Py.str) :
  base <> [] -> ext <> [] -> 46%N ∉ ext ->
  stem (base ++ [46%N] ++ ext) = base.
Proof.
  intros Hb He Hd. unfold stem.
  change (Py.lit ".") with [46%N].
  assert (Py.len (base ++ [46%N] ++ ext) = Py.len base + 1 + Py.len ext) as Hn.
  { unfold Py.len. rewrite length_app. simpl. lia. }
  assert (0 < Py.len base) as Hlb
    by (destruct base; [contradiction|unfold Py.len; simpl; lia]).
  assert (0 < Py.len ext) as Hle
    by (destruct ext; [contradiction|unfold Py.len; simpl; lia]).
  assert (Py.rfind (base ++ [46%N] ++ ext) [46%N] 0
                   (Py.len (base ++ [46%N] ++ ext)) = Py.len base) as ->.
  { unfold Py.rfind.
    rewrite (clamp_index_inside _ 0), clamp_index_inside by lia.
    change (Py.len [46%N]) with 1. simpl app.
    apply rfind_down_last; [exact Hd|].
    simpl app in Hn. rewrite Hn. unfold Py.len in *. lia. }
  rewrite Hn.
  replace (0 <? Py.len base) with true by (symmetry; apply Z.ltb_lt; lia).
  replace (Py.len base <? Py.len base + 1 + Py.len ext - 1) with true
    by (symmetry; apply Z.ltb_lt; lia).
  simpl andb. cbv iota. rewrite slice_take by lia.
  unfold Py.len. rewrite Nat2Z.id. apply take_app_length.
Qed.

Lemma stem_removes_last_extension_witness :
  stem (Py.lit "report.v2" ++ [46%N] ++ Py.lit "docx") = Py.lit "report.v2".
Proof.
  apply (stem_removes_last_extension (Py.lit "report.v2") (Py.lit "docx")).
  - discriminate.
  - discriminate.
  - vm_compute. intros H.
    repeat (apply elem_of_cons in H as [H|H]; [discriminate H|]).
    inversion H.
Defined.

(** *** [str(i)] is made of digits *)

Lemma utf8_decode_ascii (bs : list N) :
  Forall (fun b => (b < 128)%N) bs -> Py.utf8_decode bs = bs.
Proof.
  induction 1 as [|b rest Hb _ IH]; [reflexivity|].
  simpl. apply N.ltb_lt in Hb. rewrite Hb, IH. reflexivity.
Qed.

Lemma pretty_N_char_digit (x : N) :
  (48 <= N_of_ascii (pretty_N_char x) <= 57)%N.
Proof.
  unfold pretty_N_char. repeat case_match; cbn; lia.
Qed.

Lemma pretty_N_go_digits (x : N) :
  forall s : string,
    Forall (fun a => (48 <= N_of_ascii a <= 57)%N) (list_ascii_of_string s) ->
    Forall (fun a => (48 <= N_of_ascii a <= 57)%N)
           (list_ascii_of_string (pretty_N_go x s)).
Proof.
  induction (N.lt_wf_0 x) as [x _ IH]. intros s Hs.
  destruct (decide (x = 0%N)) as [->|Hx].
  - rewrite pretty_N_go_0. exact Hs.
  - rewrite pretty_N_go_step by lia. apply IH.
    + apply N.div_lt; lia.
    + simpl. constructor; [apply pretty_N_char_digit|exact Hs].
Qed.

Lemma pretty_nat_digits (i : nat) :
  Forall (fun a => (48 <= N_of_ascii a <= 57)%N)
         (list_ascii_of_string (pretty (Z.of_nat i))).
Proof.
  destruct (Z.of_nat i) as [|p|p] eqn:E; [| |lia].
  - cbn. repeat constructor; cbn; lia.
  - change (pretty (Z.pos p)) with (pretty_N_go (N.pos p) "").
    apply pretty_N_go_digits. constructor.
Qed.

Lemma of_int_nat (i : nat) :
  Py.of_int (Z.of_nat i)
  = map N_of_ascii (list_ascii_of_string (pretty (Z.of_nat i))).
Proof.
  unfold Py.of_int, Py.lit. apply utf8_decode_ascii.
  pose proof (pretty_nat_digits i) as H.
  induction H as [|a rest Ha _ IH]; simpl; constructor; [lia|exact IH].
Qed.

Lemma of_int_nat_digits (i : nat) :
  Forall (fun c => (48 <= c <= 57)%N) (Py.of_int (Z.of_nat i)).
Proof.
  rewrite of_int_nat.
  pose proof (pretty_nat_digits i) as H.
  induction H as [|a rest Ha _ IH]; simpl; constructor; [exact Ha|exact IH].
Qed.

Lemma of_int_nat_inj (i j : nat) :
  Py.of_int (Z.of_nat i) = Py.of_int (Z.of_nat j) -> i = j.
Proof.
  rewrite !of_int_nat. intros H.
  assert (list_ascii_of_string (pretty (Z.of_nat i))
          = list_ascii_of_string (pretty (Z.of_nat j))) as Hl.
  { revert H. generalize (list_ascii_of_string (pretty (Z.of_nat i)))
                         (list_ascii_of_string (pretty (Z.of_nat j))).
    induction l as [|a l IH]; intros [|b l']; simpl; try discriminate;
      [reflexivity|].
    intros [= Hab Hl]. f_equal; [|apply IH, Hl].
    rewrite <- (ascii_N_embedding a), <- (ascii_N_embedding b), Hab.
    reflexivity. }
  apply (f_equal string_of_list_ascii) in Hl.
  rewrite !string_of_list_ascii_of_string in Hl.
  apply (inj pretty) in Hl. lia.
Qed.

(** *** The ids are distinct *)

Lemma split_at_first {A : Type} (x : A) (l1 : list A) :
  forall (l2 r1 r2 : list A),
    x ∉ l1 -> x ∉ l2 ->
    l1 ++ x :: r1 = l2 ++ x :: r2 -> l1 = l2 /\ r1 = r2.
Proof.
  induction l1 as [|a l1 IH]; intros [|b l2] r1 r2 H1 H2; simpl.
  - intros [= ->]. split; reflexivity.
  - intros [= <- _]. exfalso. apply H2. left.
  - intros [= -> _]. exfalso. apply H1. left.
  - intros [= -> H].
    destruct (IH l2 r1 r2) as [-> ->]; [| |exact H|split; reflexivity].
    + intros Hx. apply H1. right. exact Hx.
    + intros Hx. apply H2. right. exact Hx.
Qed.

Lemma doc_id_inj (n1 n2 : Py.str) (i j : nat) :
  doc_id n1 i = doc_id n2 j -> stem n1 = stem n2 /\ i = j.
Proof.
  unfold doc_id.
  change (Py.lit "_chunk_") with (Py.lit "_chunk" ++ [95%N]).
  rewrite <- !app_assoc. simpl app. intros H.
  apply (f_equal (@rev N)) in H.
  rewrite !rev_app_distr in H. simpl rev in H. rewrite <- !app_assoc in H.
  assert (forall k, 95%N ∉ rev (Py.of_int (Z.of_nat k))) as Hno.
  { intros k Hin. apply list_elem_of_In, in_rev, list_elem_of_In in Hin.
    pose proof (of_int_nat_digits k) as Hd.
    rewrite Forall_forall in Hd. specialize (Hd _ Hin). lia. }
  apply split_at_first in H as [Hd Hs]; [|apply Hno|apply Hno].
  apply (f_equal (@rev N)) in Hd. rewrite !rev_involutive in Hd.
  apply of_int_nat_inj in Hd.
  simpl in Hs. injection Hs as Hs.
  apply (f_equal (@rev N)) in Hs. rewrite !rev_involutive in Hs.
  split; [exact Hs|exact Hd].
Qed.

Lemma text_ids_NoDup (docs : list ProcessedDoc) :
  NoDup (map (fun d => stem (file_name d)) docs) ->
  NoDup (flat_map (fun d => map (doc_id (file_name d))
                                (seq 0 (length (chunks d)))) docs).
Proof.
  induction docs as [|d rest IH]; simpl; intros H; [constructor|].
  apply NoDup_cons in H as [Hnew Hrest].
  apply NoDup_app. split; [|split; [|exact (IH Hrest)]].
  - apply NoDup_fmap_2_strong; [|apply NoDup_ListNoDup, seq_NoDup].
    intros i j _ _ Hij. apply doc_id_inj in Hij as [_ Hij]. exact Hij.
  - intros x Hx Hx'.
    apply list_elem_of_In, in_map_iff in Hx as (i & <- & _).
    apply list_elem_of_In, in_flat_map in Hx' as (d' & Hd' & Hx').
    apply in_map_iff in Hx' as (j & Hij & _).
    apply doc_id_inj in Hij as [Hstem _].
    apply Hnew. rewrite <- Hstem.
    apply list_elem_of_In, in_map_iff. exists d'. split; [reflexivity|exact Hd'].
Qed.

(** X26. When the processed documents have pairwise different stems, the
    ids of the text items are pairwise different: the chunk ordinal tells
    the chunks of one document apart, and the stem tells the documents
    apart, since the ordinal is written with digits only. *)
Theorem text_ids_are_distinct (docs : list ProcessedDoc) :
  NoDup (map (fun d => stem (file_name d)) docs) ->
  NoDup (map item_id (build_text_documents docs)).
Proof.
  intros H. rewrite build_text_documents_ids. apply text_ids_NoDup. exact H.
Qed.

Lemma text_ids_are_distinct_witness :
  NoDup (map item_id
           (build_text_documents
              [ {| file_path := Py.lit "d/a.docx"; file_name := Py.lit "a.docx";
                   text := Py.lit "one. two"; chunks := [Py.lit "one."; Py.lit "two"];
                   images := [] |};
                {| file_path := Py.lit "d/a_chunk_1.docx";
                   file_name := Py.lit "a_chunk_1.docx";
                   text := Py.lit "three"; chunks := [Py.lit "three"];
                   images := [] |} ])).
Proof.
  apply (text_ids_are_distinct
           [ {| file_path := Py.lit "d/a.docx"; file_name := Py.lit "a.docx";
                text := Py.lit "one. two"; chunks := [Py.lit "one."; Py.lit "two"];
                images := [] |};
             {| file_path := Py.lit "d/a_chunk_1.docx";
                file_name := Py.lit "a_chunk_1.docx";
                text := Py.lit "three"; chunks := [Py.lit "three"];
                images := [] |} ]).
  refine (@bool_decide_unpack _ (NoDup_dec _) _). vm_compute. exact I.
Defined.

(** ** Text recognition on the extracted images *)

Lemma strip_idempotent (s : Py.str) : Py.strip (Py.strip s) = Py.strip s.
Proof. apply strip_fixed; [apply strip_head|apply strip_last]. Qed.

Section OcrFacts.
Variable reader : Reader.

Lemma extract_text_from_image_stripped (p : Py.str) :
  Py.strip (extract_text_from_image reader p) = extract_text_from_image reader p.
Proof.
  unfold extract_text_from_image.
  destruct (reader p); [apply strip_idempotent|reflexivity].
Qed.

Lemma dict_set_present (l : list Py.str) (p : Py.str) :
  p ∈ l ->
  dict_set (map (fun q => (q, extract_text_from_image reader q)) l) p
           (extract_text_from_image reader p)
  = map (fun q => (q, extract_text_from_image reader q)) l.
Proof.
  induction l as [|a l IH]; intros Hp; [inversion Hp|].
  simpl. destruct (decide (a = p)) as [->|Hne]; [reflexivity|].
  apply elem_of_cons in Hp as [->|Hp]; [contradiction|].
  rewrite (IH Hp). reflexivity.
Qed.

Lemma dict_set_absent (l : list Py.str) (p : Py.str) :
  p ∉ l ->
  dict_set (map (fun q => (q, extract_text_from_image reader q)) l) p
           (extract_text_from_image reader p)
  = map (fun q => (q, extract_text_from_image reader q)) (l ++ [p]).
Proof.
  induction l as [|a l IH]; intros Hp; [reflexivity|].
  simpl. destruct (decide (a = p)) as [->|Hne].
  - exfalso. apply Hp. left.
  - rewrite IH; [reflexivity|]. intros H. apply Hp. right. exact H.
Qed.

Lemma images_loop_spec (paths : list Py.str) :
  forall seen : list Py.str,
    images_loop reader paths
      (map (fun q => (q, extract_text_from_image reader q)) seen)
    = map (fun q => (q, extract_text_from_image reader q))
          (seen ++ filter (fun q => q ∉ seen) (dedup_first paths)).
Proof.
  induction paths as [|p rest IH]; intros seen; simpl.
  - rewrite app_nil_r. reflexivity.
  - destruct (decide (p ∈ seen)) as [Hin|Hout].
    + rewrite (dict_set_present _ _ Hin), IH. do 2 f_equal.
      rewrite filter_cons_False by (intros H; exact (H Hin)).
      rewrite list_filter_filter. apply list_filter_iff.
      intros q. split; [intros H; split; [exact H|]|intros [H _]; exact H].
      intros ->. exact (H Hin).
    + rewrite (dict_set_absent _ _ Hout), IH, <- app_assoc. do 2 f_equal.
      rewrite filter_cons_True by exact Hout. simpl. f_equal.
      rewrite list_filter_filter. apply list_filter_iff.
      intros q. rewrite elem_of_app, list_elem_of_singleton. tauto.
Qed.

Lemma process_images_batch_spec (paths : list Py.str) :
  process_images_batch reader paths
  = map (fun q => (q, extract_text_from_image reader q)) (dedup_first paths).
Proof.
  unfold process_images_batch.
  pose proof (images_loop_spec paths []) as H. simpl in H. rewrite H.
  clear H. f_equal.
  induction (dedup_first paths) as [|a l IH]; [reflexivity|].
  rewrite filter_cons_True by (intros H; inversion H). f_equal. exact IH.
Qed.

(** X27. [process_images_batch] gives one entry per image path, in the
    order in which the paths first occur, also when a path is listed more
    than once; the entry holds the recognised texts joined by a space and
    stripped, or the empty text when the image cannot be read. *)
Theorem ocr_results_one_entry_per_image (paths : list Py.str) :
  map fst (process_images_batch reader paths) = dedup_first paths
  /\ NoDup (map fst (process_images_batch reader paths))
  /\ (forall p, p ∈ map fst (process_images_batch reader paths) <-> p ∈ paths)
  /\ Forall (fun e => e.2 = extract_text_from_image reader e.1
                      /\ Py.strip e.2 = e.2)
            (process_images_batch reader paths).
Proof.
  rewrite process_images_batch_spec.
  assert (map fst (map (fun q => (q, extract_text_from_image reader q))
                       (dedup_first paths)) = dedup_first paths) as ->.
  { induction (dedup_first paths) as [|a l IH]; [reflexivity|].
    simpl. f_equal. exact IH. }
  split; [reflexivity|]. split; [apply NoDup_dedup_first|].
  split; [intros p; apply elem_of_dedup_first|].
  induction (dedup_first paths) as [|a l IH]; simpl; constructor; [|exact IH].
  simpl. split; [reflexivity|apply extract_text_from_image_stripped].
Qed.

Lemma extend_images_spec (docs : list ProcessedDoc) :
  forall acc : list Py.str,
    extend_images docs acc = acc ++ concat (map images docs).
Proof.
  induction docs as [|d rest IH]; intros acc; simpl.
  - rewrite app_nil_r. reflexivity.
  - rewrite IH, <- app_assoc. reflexivity.
Qed.

Variable uuid8 : nat -> Py.str.
Variable path_stem : Py.str -> Py.str.
Variable parent_name : Py.str -> Py.str.

Lemma append_ocr_items_forall (P : IndexedItem -> Prop)
    (entries : list (Py.str * Py.str)) :
  (forall k p t, (p, t) ∈ entries -> t <> [] ->
     P {| item_id := Py.lit "ocr_" ++ uuid8 k ++ Py.lit "_" ++ path_stem p;
          item_text := t;
          item_metadata := ocr_metadata parent_name p |}) ->
  forall (k : nat) (acc : list IndexedItem),
    Forall P acc ->
    Forall P (append_ocr_items uuid8 path_stem parent_name k entries acc).
Proof.
  induction entries as [|[p t] rest IH]; intros HP k acc Hacc; simpl;
    [exact Hacc|].
  assert (forall k p' t', (p', t') ∈ rest -> t' <> [] ->
            P {| item_id := Py.lit "ocr_" ++ uuid8 k ++ Py.lit "_"
                              ++ path_stem p';
                 item_text := t';
                 item_metadata := ocr_metadata parent_name p' |}) as HP'.
  { intros k' p' t' Hin. apply HP. right. exact Hin. }
  destruct t as [|c t]; simpl.
  - apply IH; [exact HP'|exact Hacc].
  - apply IH; [exact HP'|].
    apply Forall_app. split; [exact Hacc|].
    constructor; [|constructor]. apply HP; [left|discriminate].
Qed.

Lemma append_ocr_items_length (entries : list (Py.str * Py.str)) :
  forall (k : nat) (acc : list IndexedItem),
    (length (append_ocr_items uuid8 path_stem parent_name k entries acc)
     <= length acc + length entries)%nat.
Proof.
  induction entries as [|[p t] rest IH]; intros k acc; simpl; [lia|].
  destruct (Py.truthy t).
  - specialize (IH (S k) (acc ++ [ {| item_id := Py.lit "ocr_" ++ uuid8 k
                                       ++ Py.lit "_" ++ path_stem p;
                                     item_text := t;
                                     item_metadata := ocr_metadata parent_name p |} ])).
    rewrite length_app in IH. simpl in IH. lia.
  - specialize (IH k acc). lia.
Qed.

(** X28. The OCR items of [index_documents]: there is at most one per
    distinct extracted image, none when OCR is disabled; every item
    holds the non-empty, stripped text recognised in one of the images,
    and its metadata names that image and has the type ["ocr"]. *)
Theorem ocr_items_come_from_images (enable_ocr : bool)
    (docs : list ProcessedDoc) :
  Forall (fun it =>
            item_text it <> []
            /\ Py.strip (item_text it) = item_text it
            /\ item_metadata it !! "type" = Some (VStr (Py.lit "ocr"))
            /\ exists p, p ∈ concat (map images docs)
                         /\ item_metadata it !! "image_path" = Some (VStr p)
                         /\ item_text it = extract_text_from_image reader p)
         (build_ocr_documents uuid8 path_stem parent_name reader enable_ocr docs)
  /\ (length (build_ocr_documents uuid8 path_stem parent_name reader
                enable_ocr docs)
      <= length (dedup_first (concat (map images docs))))%nat
  /\ (enable_ocr = false ->
      build_ocr_documents uuid8 path_stem parent_name reader enable_ocr docs
      = []).
Proof.
  unfold build_ocr_documents. rewrite extend_images_spec. simpl app.
  destruct (enable_ocr && Py.truthy (concat (map images docs))) eqn:E.
  - split; [|split].
    + apply append_ocr_items_forall; [|constructor].
      intros k p t Hin Ht.
      rewrite process_images_batch_spec in Hin.
      apply list_elem_of_fmap in Hin as (q & [= -> ->] & Hq).
      apply (proj1 (elem_of_dedup_first _ _)) in Hq. simpl.
      split; [exact Ht|]. split; [apply extract_text_from_image_stripped|].
      split; [reflexivity|]. exists q. split; [exact Hq|].
      split; reflexivity.
    + pose proof (append_ocr_items_length
                    (process_images_batch reader (concat (map images docs)))
                    0 []) as H.
      rewrite process_images_batch_spec, length_map in H.
      rewrite process_images_batch_spec. simpl in H. exact H.
    + intros ->. discriminate E.
  - split; [constructor|]. split; [simpl; lia|]. reflexivity.
Qed.

End OcrFacts.

(** ** What the chunks keep of the text *)

Lemma elem_of_lstrip (s : Py.str) (c : N) :
  c ∈ s -> Py.isspace c = false -> c ∈ Py.lstrip s.
Proof.
  intros Hin Hc. induction s as [|x s IH]; [inversion Hin|].
  simpl. destruct (Py.isspace x) eqn:E; [|exact Hin].
  apply elem_of_cons in Hin as [->|Hin]; [congruence|]. exact (IH Hin).
Qed.

Lemma elem_of_strip (s : Py.str) (c : N) :
  c ∈ s -> Py.isspace c = false -> c ∈ Py.strip s.
Proof.
  intros Hin Hc. unfold Py.strip, Py.rstrip.
  apply list_elem_of_In, in_rev. rewrite rev_involutive.
  apply list_elem_of_In, elem_of_lstrip; [|exact Hc].
  apply list_elem_of_In. rewrite <- in_rev.
  apply list_elem_of_In, elem_of_lstrip; [exact Hin|exact Hc].
Qed.

Lemma slice_lookup {A : Type} (s : list A) (a b : Z) (i : nat) (c : A) :
  0 <= a <= Z.of_nat i -> Z.of_nat i < b ->
  s !! i = Some c -> c ∈ Py.slice s a b.
Proof.
  intros Ha Hb Hc. pose proof (lookup_lt_Some _ _ _ Hc) as Hi.
  unfold Py.slice.
  assert (Py.clamp_index (Py.len s) a = a) as ->
    by (apply clamp_index_inside; unfold Py.len; lia).
  assert (Py.clamp_index (Py.len s) b = Z.min b (Py.len s)) as ->
    by (unfold Py.clamp_index; destruct (b <? 0) eqn:E; lia).
  apply (list_elem_of_lookup_2 _ (i - Z.to_nat a)%nat).
  rewrite lookup_take_lt by (unfold Py.len; lia).
  rewrite lookup_drop. rewrite <- Hc. f_equal. lia.
Qed.

Section Coverage.
Variables (self : DocumentProcessor) (text : Py.str).
Hypothesis Hplain : no_delimiter text = true.
Hypothesis Hset : 0 <= chunk_overlap self < chunk_size self.

Lemma plain_loop_covers (fuel : nat) :
  forall (start : Z) (cs out : list Py.str),
    0 <= start ->
    chunk_loop fuel self text start cs = Return out ->
    (forall (i : nat) (c : N),
       Z.of_nat i < start -> text !! i = Some c -> Py.isspace c = false ->
       exists a : Z,
         0 <= a <= Z.of_nat i /\ Z.of_nat i < a + chunk_size self
         /\ Py.strip (Py.slice text a (a + chunk_size self)) ∈ cs) ->
    forall (i : nat) (c : N),
      text !! i = Some c -> Py.isspace c = false ->
      exists a : Z,
        0 <= a <= Z.of_nat i /\ Z.of_nat i < a + chunk_size self
        /\ Py.strip (Py.slice text a (a + chunk_size self)) ∈ out.
Proof.
  induction fuel as [|fuel IH]; intros start cs out Hstart Hrun Hinv i c Hc Hsp;
    pose proof (lookup_lt_Some _ _ _ Hc) as Hi;
    destruct (Z.le_gt_cases (Py.len text) start) as [Hdone|Hmore].
  - rewrite chunk_loop_done in Hrun by exact Hdone. injection Hrun as <-.
    apply (Hinv i c); [unfold Py.len in Hdone; lia|exact Hc|exact Hsp].
  - rewrite chunk_loop_starved in Hrun by lia. discriminate Hrun.
  - rewrite chunk_loop_done in Hrun by exact Hdone. injection Hrun as <-.
    apply (Hinv i c); [unfold Py.len in Hdone; lia|exact Hc|exact Hsp].
  - rewrite chunk_loop_step in Hrun by lia.
    rewrite (window_end_plain self text start Hplain) in Hrun.
    refine (IH _ _ _ _ Hrun _ i c Hc Hsp).
    + unfold next_start. destruct (_ <? _); lia.
    + clear i c Hc Hsp Hi. intros i c Hi Hc Hsp.
      destruct (Z.lt_ge_cases (Z.of_nat i) start) as [Hold|Hnew].
      * destruct (Hinv i c Hold Hc Hsp) as (a & Ha & Hb & Hin).
        exists a. split; [exact Ha|]. split; [exact Hb|].
        unfold append_chunk. destruct (Py.truthy _); [|exact Hin].
        apply elem_of_app. left. exact Hin.
      * assert (Z.of_nat i < start + chunk_size self) as Hend
          by (unfold next_start in Hi; destruct (_ <? _); lia).
        exists start. split; [lia|]. split; [exact Hend|].
        assert (c ∈ Py.strip (Py.slice text start (start + chunk_size self)))
          as Hin.
        { apply elem_of_strip; [|exact Hsp].
          apply (slice_lookup text start _ i c); [lia|exact Hend|exact Hc]. }
        unfold append_chunk.
        destruct (Py.strip (Py.slice text start (start + chunk_size self)))
          as [|x u] eqn:E; [inversion Hin|].
        simpl. apply elem_of_app. right. left.
Qed.

End Coverage.

(** X29. On a text without boundary delimiter, with [0 <= overlap < size],
    no text is lost: every character of the text that is not white space
    lies in a window of [chunk_size] characters whose stripped content is
    one of the chunks returned, and is a character of that chunk. *)
Theorem chunks_cover_text_without_delimiter (fuel : nat)
    (self : DocumentProcessor) (text : Py.str) (out : list Py.str)
    (i : nat) (c : N) :
  no_delimiter text = true ->
  0 <= chunk_overlap self < chunk_size self ->
  chunk_text fuel self text = Return out ->
  text !! i = Some c -> Py.isspace c = false ->
  exists start : Z,
    0 <= start <= Z.of_nat i /\ Z.of_nat i < start + chunk_size self
    /\ Py.strip (Py.slice text start (start + chunk_size self)) ∈ out
    /\ c ∈ Py.strip (Py.slice text start (start + chunk_size self)).
Proof.
  intros Hplain Hset Hrun Hc Hsp. unfold chunk_text in Hrun.
  destruct text as [|x rest]; [discriminate Hc|].
  simpl negb in Hrun. cbv iota in Hrun.
  destruct (plain_loop_covers self (x :: rest) Hplain Hset fuel 0 [] out
              (Z.le_refl 0) Hrun) with (i := i) (c := c)
    as (a & Ha & Hb & Hin); [|exact Hc|exact Hsp|].
  - intros j d Hj. lia.
  - exists a. split; [exact Ha|]. split; [exact Hb|]. split; [exact Hin|].
    apply elem_of_strip; [|exact Hsp].
    apply (slice_lookup _ a _ i c); [exact Ha|exact Hb|exact Hc].
Qed.

Lemma chunks_cover_text_without_delimiter_witness :
  exists start : Z,
    0 <= start <= Z.of_nat 5 /\ Z.of_nat 5 < start + 4
    /\ Py.strip (Py.slice (Py.lit "abcdefg") start (start + 4))
       ∈ [Py.lit "abcd"; Py.lit "defg"]
    /\ 102%N ∈ Py.strip (Py.slice (Py.lit "abcdefg") start (start + 4)).
Proof.
  apply (chunks_cover_text_without_delimiter 7
           {| chunk_size := 4; chunk_overlap := 1 |} (Py.lit "abcdefg")
           [Py.lit "abcd"; Py.lit "defg"] 5 102%N).
  - reflexivity.
  - simpl. lia.
  - reflexivity.
  - reflexivity.
  - reflexivity.
Defined.

(** X30. A text that fits in one window, that is, of at most [chunk_size]
    characters, gives its stripped content as the only chunk, or no chunk
    when it is blank; one iteration is enough and the overlap plays no
    part. *)
Theorem short_text_gives_one_chunk (fuel : nat) (self : DocumentProcessor)
    (text : Py.str) :
  Py.len text <= chunk_size self ->
  chunk_text (S fuel) self text
  = Return (if Py.truthy (Py.strip text) then [Py.strip text] else []).
Proof.
  intros Hfit. unfold chunk_text.
  destruct text as [|x rest] eqn:Et; [reflexivity|]. rewrite <- Et in *.
  assert (0 < Py.len text) as Hlen by (rewrite Et; unfold Py.len; simpl; lia).
  assert (Py.truthy text = true) as -> by (rewrite Et; reflexivity).
  simpl negb. cbv iota.
  rewrite chunk_loop_step by lia.
  rewrite window_end_last by lia.
  rewrite Z.add_0_l, slice_all by lia.
  assert (next_start self text (chunk_size self) = chunk_size self) as ->.
  { unfold next_start.
    destruct (chunk_size self <? Py.len text) eqn:E; [|reflexivity].
    apply Z.ltb_lt in E. lia. }
  rewrite chunk_loop_done by lia. reflexivity.
Qed.

Lemma short_text_gives_one_chunk_witness :
  chunk_text 1 default_processor (Py.lit "  short text ")
  = Return [Py.lit "short text"].
Proof.
  apply (short_text_gives_one_chunk 0 default_processor (Py.lit "  short text ")).
  vm_compute. discriminate.
Defined.

(** ** Indexing documents that have no text *)

Lemma empty_texts_processed (fuel : nat) (self : DocumentProcessor)
    (files : list ParsedDocx) :
  Forall (fun f => p_text f = []) files ->
  process_documents_batch fuel self files
  = Return (map (fun f => {| file_path := p_file_path f;
                             file_name := p_file_name f;
                             text := []; chunks := [];
                             images := p_images f |}) files).
Proof.
  induction 1 as [|f rest Hf _ IH]; simpl; [reflexivity|].
  unfold process_document. rewrite Hf. simpl. rewrite IH. reflexivity.
Qed.

Section EmptyIndexFacts.
Context `{FL : Floats} `{OA : !OpenAI} `{CH : !Chroma}.
Variable uuid8 : nat -> Py.str.
Variable path_stem : Py.str -> Py.str.
Variable parent_name : Py.str -> Py.str.

(** X24. When the extracted text of every document is empty, and OCR is
    disabled or no image was extracted, [index_documents] returns, for
    any number of iterations allowed to the chunker, with the vector store
    as it was: nothing is embedded and nothing is written, in the text
    stage and in the OCR stage.  Its statistics count the documents and
    the images, no chunk and no OCR text, with the status ['success'], or
    ['no_documents'] when there is no file. *)
Theorem nothing_to_index_leaves_store (fuel : nat) (self : RAGChatbot)
    (ocr : option Reader) (enable_ocr : bool) (files : list ParsedDocx) :
  Forall (fun f => p_text f = []) files ->
  enable_ocr = false \/ Forall (fun f => p_images f = []) files ->
  index_documents uuid8 path_stem parent_name fuel self ocr enable_ocr files
  = Return (cb_vector_store self,
            {| total_docs := Py.len files; total_chunks := 0;
               total_images := Py.len (concat (map p_images files));
               ocr_texts := 0;
               status := if Py.truthy files then Py.lit "success"
                         else Py.lit "no_documents" |}).
Proof.
  intros Htext Hocr. unfold index_documents.
  rewrite (empty_texts_processed _ _ _ Htext).
  destruct files as [|f rest]; [reflexivity|].
  set (docs := map _ (f :: rest)).
  assert (build_text_documents docs = []) as ->.
  { apply no_chunks_no_items. subst docs. apply Forall_forall.
    intros d Hd. apply list_elem_of_In, in_map_iff in Hd.
    destruct Hd as (g & <- & _). reflexivity. }
  assert (extend_images docs [] = concat (map p_images (f :: rest))) as ->.
  { rewrite extend_images_spec. simpl app. subst docs.
    rewrite map_map. reflexivity. }
  assert (Py.len docs = Py.len (f :: rest)) as ->
    by (subst docs; unfold Py.len; rewrite length_map; reflexivity).
  change (negb (Py.truthy docs)) with false. cbv iota.
  unfold add_if_any. simpl Py.truthy at 1. cbv iota beta zeta.
  assert (enable_ocr && Py.truthy (concat (map p_images (f :: rest))) = false)
    as ->.
  { destruct Hocr as [->|Himg]; [reflexivity|].
    assert (forall l : list ParsedDocx,
              Forall (fun g => p_images g = []) l ->
              concat (map p_images l) = []) as Hnil.
    { induction 1 as [|g gs Hg _ IH]; simpl; [reflexivity|].
      rewrite Hg, IH. reflexivity. }
    rewrite (Hnil _ Himg). apply andb_false_r. }
  reflexivity.
Qed.

End EmptyIndexFacts.

Lemma nothing_to_index_leaves_store_witness :
  index_documents (fun _ => []) (fun p => p) (fun p => p) 0
    (@Build_RAGChatbot Demo.milli Demo.scripted Demo.accepting
       default_processor (Demo.store Demo.accepting [] []) [])
    None false
    [ {| p_file_path := Py.lit "d/a.docx"; p_file_name := Py.lit "a.docx";
         p_text := []; p_images := [Py.lit "img/a/a_0.png"] |} ]
  = Return (Demo.store Demo.accepting [] [],
            {| total_docs := 1; total_chunks := 0; total_images := 1;
               ocr_texts := 0; status := Py.lit "success" |}).
Proof.
  apply (nothing_to_index_leaves_store (fun _ => []) (fun p => p) (fun p => p)
           0
           (@Build_RAGChatbot Demo.milli Demo.scripted Demo.accepting
              default_processor (Demo.store Demo.accepting [] []) [])
           None false
           [ {| p_file_path := Py.lit "d/a.docx"; p_file_name := Py.lit "a.docx";
                p_text := []; p_images := [Py.lit "img/a/a_0.png"] |} ]).
  - repeat constructor.
  - left. reflexivity.
Defined.
